(** * Marketing_Intelligence

    A shallow embedding of the data pipeline of [src/data/processor.py]
    (class [DataProcessor]) and of the chat service of [src/ai/llm.py].

    - A pandas column of dtype float64 is a list of binary64 numbers
      (Rocq's primitive floats, so NaN, the infinities and rounding are
      the machine's).  Integer CSV columns are read through the same type:
      pandas converts them to float64 before any division.
    - A [DataFrame] is a header (the ordered column names) and a list of
      rows; a row maps a column name to its cell.  A cell absent from a
      row reads as NaN, pandas' missing value.
    - Frames are mutable Python objects.  They live in a heap and the
      processor holds references to them, so that in-place column
      assignment and [copy] can be told apart.
    - A raised Python exception is the outcome [Raise]; the state reached
      when it was raised is kept, as [try ... except] observes it. *)

From Stdlib Require Import Floats ZArith.
From stdpp Require Import gmap strings list fin_maps sorting.

(** ** binary64 helpers: what numpy does to one number *)

Module F.

Definition zero : float := 0%float.
Definition hundred : float := 100%float.
Definition thousand : float := 1000%float.

(** [Series.fillna(0)] on one value. *)
Definition fillna0 (x : float) : float :=
  if PrimFloat.is_nan x then zero else x.

(** 2^52: from there on every binary64 number is an integer. *)
Definition two52 : float := 4503599627370496%float.

(** C's [rint] in the default rounding mode (to nearest, ties to even),
    which [numpy.round] is built on.  The sign of the argument is kept,
    also for a zero result. *)
Definition rint (x : float) : float :=
  if PrimFloat.ltb (PrimFloat.abs x) two52 then
    let r := ((PrimFloat.abs x + two52) - two52)%float in
    if PrimFloat.ltb x zero then (- r)%float
    else if PrimFloat.eqb x zero then x else r
  else x.

(** [numpy.round(x, 2)]: multiply by 10^2, [rint], divide by 10^2. *)
Definition round2 (x : float) : float := (rint (x * hundred) / hundred)%float.

(** [x > 0] in Python. *)
Definition pos (x : float) : bool := PrimFloat.ltb zero x.

(** [Series.sum()]: NaN is skipped ([skipna=True]), the empty sum is 0.
    The additions are modelled left to right; pandas' summation order
    differs by rounding only. *)
Definition nansum (xs : list float) : float :=
  foldl (λ acc x, if PrimFloat.is_nan x then acc else (acc + x)%float) zero xs.

(** Number of values that are not NaN, as a float. *)
Definition nancount (xs : list float) : float :=
  foldl (λ acc x, if PrimFloat.is_nan x then acc else (acc + 1)%float) zero xs.

(** [Series.mean()]: NaN is skipped; the mean of no value at all is NaN
    (0/0). *)
Definition nanmean (xs : list float) : float := (nansum xs / nancount xs)%float.

End F.

(** ** Cells, rows and frames *)

Inductive Cell : Type :=
  | Num (x : float)          (* a number; [Num nan] is the missing value NaN *)
  | Text (s : string)        (* a Python str, as read_csv leaves unparsed text *)
  | Time (t : Z)             (* a Timestamp, as its ordinal *)
  | NaT.                     (* the missing Timestamp *)

Definition NaN : Cell := Num nan.

(** [pd.isna] on one cell. *)
Definition isna (c : Cell) : bool :=
  match c with
  | Num x => PrimFloat.is_nan x
  | NaT => true
  | Text _ | Time _ => false
  end.

(** [DataFrame.fillna(0)] on one cell. *)
Definition fill0 (c : Cell) : Cell := if isna c then Num F.zero else c.

Abbreviation Row := (gmap string Cell).

Record DataFrame : Type := {
  columns : list string;
  rows : list Row
}.

(** The cell of row [r] under column [col]. *)
Definition cell (r : Row) (col : string) : Cell := default NaN (r !! col).

(** Arithmetic on a cell needs a number: [None] is Python's TypeError. *)
Definition as_float (c : Cell) : option float :=
  match c with Num x => Some x | _ => None end.

(** The number in a cell once the column is known to be numeric. *)
Definition num (r : Row) (col : string) : float :=
  match cell r col with Num x => x | _ => nan end.

(** [df[col]]: [None] is KeyError. *)
Definition getitem (df : DataFrame) (col : string) : option (list Cell) :=
  if decide (col ∈ columns df) then Some ((λ r, cell r col) <$> rows df) else None.

(** [df[col]] used as an operand of [/] or [*]. *)
Definition numeric (df : DataFrame) (col : string) : option (list float) :=
  getitem df col ≫= mapM as_float.

Definition add_column (cols : list string) (col : string) : list string :=
  if decide (col ∈ cols) then cols else cols ++ [col].

(** [df[col] = values] for a Series of the frame's own length. *)
Definition setitem (df : DataFrame) (col : string) (values : list Cell) : DataFrame :=
  {| columns := add_column (columns df) col;
     rows := zip_with (λ r v, <[col := v]> r) (rows df) values |}.

(** [df[col] = v] for a scalar, broadcast over the rows. *)
Definition setitem_scalar (df : DataFrame) (col : string) (v : Cell) : DataFrame :=
  {| columns := add_column (columns df) col;
     rows := (λ r, <[col := v]> r) <$> rows df |}.

(** A row rebuilt over the header [cols], a missing cell read as NaN. *)
Definition reindex (cols : list string) (r : Row) : Row :=
  list_to_map ((λ c, (c, cell r c)) <$> cols).

(** Series arithmetic, element by element. *)
Definition series_div (xs ys : list float) : list float :=
  zip_with PrimFloat.div xs ys.
Definition series_mul_scalar (xs : list float) (k : float) : list float :=
  (λ x, PrimFloat.mul x k) <$> xs.
Definition series_div_scalar (xs : list float) (k : float) : list float :=
  (λ x, PrimFloat.div x k) <$> xs.
Definition series_fillna0 (xs : list float) : list float := F.fillna0 <$> xs.
Definition series_round2 (xs : list float) : list float := F.round2 <$> xs.

(** ** The heap of frames and the processor object *)

Abbreviation loc := nat.

Record DataProcessor : Type := {
  business_df : option loc;
  marketing_dfs : list (string * loc);   (* a dict, in insertion order *)
  combined_df : option loc
}.

Record World : Type := {
  heap : gmap loc DataFrame;
  self : DataProcessor
}.

Inductive Outcome (A : Type) : Type :=
  | Return (a : A)
  | Raise.
Arguments Return {A} a.
Arguments Raise {A}.

Definition Py (A : Type) : Type := World → Outcome A * World.

#[global] Instance Py_ret : MRet Py := λ A a w, (Return a, w).
#[global] Instance Py_bind : MBind Py := λ A B f m w,
  match m w with
  | (Return a, w') => f a w'
  | (Raise, w') => (Raise, w')
  end.

Definition raise {A : Type} : Py A := λ w, (Raise, w).

(** [try: body / except Exception: handler]. *)
Definition try_except {A : Type} (body handler : Py A) : Py A := λ w,
  match body w with
  | (Return a, w') => (Return a, w')
  | (Raise, w') => handler w'
  end.

Definition lift {A : Type} (o : option A) : Py A :=
  match o with Some a => mret a | None => raise end.

Definition get_self : Py DataProcessor := λ w, (Return (self w), w).
Definition set_self (p : DataProcessor) : Py unit := λ w,
  (Return (), {| heap := heap w; self := p |}).

(** A new frame object. *)
Definition new (df : DataFrame) : Py loc := λ w,
  let l := fresh (dom (heap w)) in
  (Return l, {| heap := <[l := df]> (heap w); self := self w |}).

(** Reading through a reference. *)
Definition deref (l : loc) : Py DataFrame := λ w,
  match heap w !! l with
  | Some df => (Return df, w)
  | None => (Raise, w)
  end.

(** Mutating the object behind a reference. *)
Definition update (l : loc) (df : DataFrame) : Py unit := λ w,
  (Return (), {| heap := <[l := df]> (heap w); self := self w |}).

(** [df.copy()]. *)
Definition copy (l : loc) : Py loc := df ← deref l; new df.

(** [d[k] = v] on a dict kept in insertion order. *)
Fixpoint dict_set {V : Type} (d : list (string * V)) (k : string) (v : V) : list (string * V) :=
  match d with
  | [] => [(k, v)]
  | (k', v') :: d' => if decide (k' = k) then (k, v) :: d' else (k', v') :: dict_set d' k v
  end.

Fixpoint dict_get {V : Type} (d : list (string * V)) (k : string) : option V :=
  match d with
  | [] => None
  | (k', v') :: d' => if decide (k' = k) then Some v' else dict_get d' k
  end.

(** [for x in xs: body(x)]. *)
Fixpoint for_each {A : Type} (xs : list A) (body : A → Py unit) : Py unit :=
  match xs with
  | [] => mret ()
  | x :: xs' => body x ≫= λ _, for_each xs' body
  end.

(** ** Module constants of processor.py *)

Definition PLATFORMS : list string := ["Facebook"; "Google"; "TikTok"].
Definition MARKETING_COLUMNS : list string :=
  ["impression"; "clicks"; "spend"; "attributed revenue"].

(** ** The pandas entry points that the processor calls

    They are library code, not code of this repository: the file system
    behind [read_csv] and the text parsers behind [to_numeric],
    [to_datetime] and [strftime] are taken as given. *)

Record Pandas : Type := {
  (* [pd.read_csv(path)]; [None]: the file cannot be read *)
  read_csv : string → option DataFrame;
  (* the number a text cell spells, if it spells one *)
  parse_number : string → option float;
  (* the timestamp a text cell spells; [None]: no known format (raises),
     [Some None]: a spelling of NaT *)
  parse_datetime : string → option (option Z);
  (* the timestamp a number stands for (its epoch offset) *)
  timestamp_of_number : float → Z;
  (* the integer view of a datetime cell, [None] being NaT *)
  number_of_timestamp : option Z → float;
  (* [Timestamp.strftime('%Y-%m-%d')] *)
  strftime : Z → string
}.

(** What [pd.to_numeric] makes of one cell; [None] when the cell cannot be
    parsed as a number. *)
Definition parsed (pd : Pandas) (c : Cell) : option float :=
  match c with
  | Num x => Some x
  | Text s => parse_number pd s
  | Time t => Some (number_of_timestamp pd (Some t))
  | NaT => Some (number_of_timestamp pd None)
  end.

(** [pd.to_numeric(series, errors='coerce')]. *)
Definition to_numeric_coerce (pd : Pandas) (s : list Cell) : list Cell :=
  (λ c, Num (default nan (parsed pd c))) <$> s.

(** [pd.to_datetime(series)], default [errors='raise']. *)
Definition to_datetime1 (pd : Pandas) (c : Cell) : option Cell :=
  match c with
  | Time t => Some (Time t)
  | NaT => Some NaT
  | Num x => Some (if PrimFloat.is_nan x then NaT else Time (timestamp_of_number pd x))
  | Text s => from_option Time NaT <$> parse_datetime pd s
  end.
Definition to_datetime (pd : Pandas) (s : list Cell) : option (list Cell) :=
  mapM (to_datetime1 pd) s.

(** [pd.concat(frames, ignore_index=True)]: the rows of all frames over
    the union of their headers; no frame at all is a ValueError. *)
Definition union_columns (frames : list DataFrame) : list string :=
  foldl add_column [] (frames ≫= columns).
Definition concat (frames : list DataFrame) : option DataFrame :=
  match frames with
  | [] => None
  | _ => Some {| columns := union_columns frames;
                 rows := reindex (union_columns frames) <$> (frames ≫= rows) |}
  end.

(** ** class DataProcessor *)

Definition with_business_df (p : DataProcessor) (l : option loc) : DataProcessor :=
  {| business_df := l; marketing_dfs := marketing_dfs p; combined_df := combined_df p |}.
Definition with_marketing_dfs (p : DataProcessor) (d : list (string * loc)) : DataProcessor :=
  {| business_df := business_df p; marketing_dfs := d; combined_df := combined_df p |}.
Definition with_combined_df (p : DataProcessor) (l : option loc) : DataProcessor :=
  {| business_df := business_df p; marketing_dfs := marketing_dfs p; combined_df := l |}.

(** [__init__]. *)
Definition init : DataProcessor :=
  {| business_df := None; marketing_dfs := []; combined_df := None |}.

Definition csv_path (name : string) : string := "dataset/" +:+ name +:+ ".csv".

(** One turn of the loop of [load_data]. *)
Definition load_platform (pd : Pandas) (platform : string) : Py unit :=
  df ← lift (read_csv pd (csv_path platform)) ≫= new;
  f ← deref df; update df (setitem_scalar f "platform" (Text platform));;
  p ← get_self; set_self (with_marketing_dfs p (dict_set (marketing_dfs p) platform df)).

(** The body of the [try] block of [load_data]. *)
Definition load_data_body (pd : Pandas) : Py (list (string * loc)) :=
  business ← lift (read_csv pd (csv_path "business")) ≫= new;
  p ← get_self; set_self (with_business_df p (Some business));;
  for_each PLATFORMS (load_platform pd);;
  p ← get_self;
  mret (foldl (λ d kv, dict_set d kv.1 kv.2) [("business", business)] (marketing_dfs p)).

(** [load_data]: any exception is caught and answered with the empty dict. *)
Definition load_data (pd : Pandas) : Py (list (string * loc)) :=
  try_except (load_data_body pd) (mret []).

(** [df['date'] = pd.to_datetime(df['date'])]. *)
Definition parse_dates (pd : Pandas) (df : loc) : Py unit :=
  f ← deref df;
  dates ← lift (getitem f "date" ≫= to_datetime pd);
  update df (setitem f "date" dates).

Definition _clean_business_data (pd : Pandas) : Py unit :=
  p ← get_self;
  match business_df p with
  | Some df => parse_dates pd df
  | None => mret ()
  end.

(** One turn of the loop of [_convert_numeric_columns]. *)
Definition convert_column (pd : Pandas) (df : loc) (col : string) : Py unit :=
  f ← deref df;
  if decide (col ∈ columns f) then
    s ← lift (getitem f col);
    update df (setitem f col (to_numeric_coerce pd s))
  else mret ().

Definition _convert_numeric_columns (pd : Pandas) (df : loc) : Py unit :=
  for_each MARKETING_COLUMNS (convert_column pd df).

Definition _clean_marketing_data (pd : Pandas) : Py unit :=
  p ← get_self;
  for_each (marketing_dfs p) (λ '(platform, df),
    parse_dates pd df;; _convert_numeric_columns pd df).

Definition clean_data (pd : Pandas) : Py unit :=
  _clean_business_data pd;; _clean_marketing_data pd.

(** [for kpi, values in kpis.items(): df[kpi] = finish(values)]. *)
Definition assign_kpis (df : loc) (kpis : list (string * list float))
    (finish : list float → list float) : Py unit :=
  for_each kpis (λ '(kpi, values),
    f ← deref df; update df (setitem f kpi (Num <$> finish values))).

Definition _calculate_platform_kpis (df : loc) : Py loc :=
  df_clean ← copy df;
  f ← deref df_clean;
  clicks ← lift (numeric f "clicks");
  impression ← lift (numeric f "impression");
  spend ← lift (numeric f "spend");
  revenue ← lift (numeric f "attributed revenue");
  let kpis :=
    [("ctr", series_mul_scalar (series_div clicks impression) F.hundred);
     ("cpc", series_div spend clicks);
     ("cpm", series_div spend (series_div_scalar impression F.thousand));
     ("roas", series_div revenue spend)] in
  assign_kpis df_clean kpis (λ values, series_round2 (series_fillna0 values));;
  mret df_clean.

Definition calculate_marketing_kpis : Py loc :=
  p ← get_self;
  all_marketing_data ← mapM (λ '(platform, df), _calculate_platform_kpis df) (marketing_dfs p);
  frames ← mapM deref all_marketing_data;
  lift (concat frames) ≫= new.

Definition calculate_business_kpis : Py (option loc) :=
  p ← get_self;
  match business_df p with
  | None => mret None
  | Some business =>
    df ← copy business;
    f ← deref df;
    revenue ← lift (numeric f "total revenue");
    orders ← lift (numeric f "# of orders");
    profit ← lift (numeric f "gross profit");
    customers ← lift (numeric f "new customers");
    let business_kpis :=
      [("aov", series_round2 (series_div revenue orders));
       ("profit_margin",
        series_round2 (series_mul_scalar (series_div profit revenue) F.hundred));
       ("new_customer_rate",
        series_round2 (series_mul_scalar (series_div customers orders) F.hundred))] in
    assign_kpis df business_kpis series_fillna0;;
    mret (Some df)
  end.

(** *** combine_data: groupby, pivot, merge, fillna *)

Inductive Agg : Type := Sum | Mean.

(** The dict handed to [.agg]. *)
Definition AGG : list (string * Agg) :=
  [("impression", Sum); ("clicks", Sum); ("spend", Sum);
   ("attributed revenue", Sum);
   ("ctr", Mean); ("cpc", Mean); ("cpm", Mean); ("roas", Mean)].
Definition METRICS : list string := AGG.*1.

Definition aggregate (how : Agg) (xs : list float) : float :=
  match how with Sum => F.nansum xs | Mean => F.nanmean xs end.

(** A cell of a datetime64 column. *)
Definition is_datetime (c : Cell) : bool :=
  match c with Time _ | NaT => true | _ => false end.

(** A cell of a column of labels: text, or missing. *)
Definition is_label (c : Cell) : bool :=
  match c with Text _ => true | c => isna c end.

Definition is_num (c : Cell) : bool :=
  match c with Num _ => true | _ => false end.

(** The group key [(date, platform)] of a row; [None] when a component is
    missing, and such a row belongs to no group ([dropna=True]). *)
Definition key (r : Row) : option (Z * string) :=
  match cell r "date", cell r "platform" with
  | Time t, Text p => Some (t, p)
  | _, _ => None
  end.

(** The order in which groupby sorts its keys. *)
Definition key_le (a b : Z * string) : Prop :=
  (a.1 < b.1)%Z ∨ (a.1 = b.1 ∧ String.le a.2 b.2).
#[global] Instance key_le_dec : RelDecision key_le.
Proof. intros a b. unfold key_le. apply _. Defined.

Definition group (df : DataFrame) (k : Z * string) : list Row :=
  filter (λ r, key r = Some k) (rows df).

Definition agg_row (df : DataFrame) (k : Z * string) : Row :=
  list_to_map
    (("date", Time k.1) :: ("platform", Text k.2) ::
     ((λ '(m, how), (m, Num (aggregate how ((λ r, num r m) <$> group df k)))) <$> AGG)).

(** The frames this model groups: datetime dates, text platforms and
    numeric metrics.  (pandas also groups other key types; they do not
    occur once [clean_data] has run.) *)
Definition groupable (df : DataFrame) : bool :=
  bool_decide (Forall (λ c, c ∈ columns df) ("date" :: "platform" :: METRICS))
  && forallb (λ r, is_datetime (cell r "date") && is_label (cell r "platform")
                   && forallb (λ m, is_num (cell r m)) METRICS) (rows df).

Definition group_keys (df : DataFrame) : list (Z * string) :=
  merge_sort key_le (remove_dups (omap key (rows df))).

(** [df.groupby(['date', 'platform']).agg(AGG).reset_index()]. *)
Definition groupby_agg (df : DataFrame) : option DataFrame :=
  if groupable df then
    Some {| columns := "date" :: "platform" :: METRICS;
            rows := agg_row df <$> group_keys df |}
  else None.

(** A table indexed by date, as [pivot] returns it: [body] has one line
    per entry of [index] and each line one cell per entry of [header]. *)
Record Pivot (Col : Type) : Type := {
  index : list Z;
  header : list Col;
  body : list (list Cell)
}.
Arguments index {Col} _.
Arguments header {Col} _.
Arguments body {Col} _.

Definition pivot_cell (df : DataFrame) (d : Z) (col : string * string) : Cell :=
  match group df (d, col.2) with
  | r :: _ => cell r col.1
  | [] => NaN
  end.

(** [df.set_index('date').pivot(columns='platform')]: one line per date,
    one column per (value column, platform), NaN where the platform has
    no row on the date; a (date, platform) pair met twice is a
    ValueError. *)
Definition pivot_platform (df : DataFrame) : option (Pivot (string * string)) :=
  if bool_decide ("date" ∈ columns df ∧ "platform" ∈ columns df
                  ∧ Forall (λ r, is_Some (key r)) (rows df)
                  ∧ NoDup (key <$> rows df)) then
    let keys := omap key (rows df) in
    let platforms := merge_sort String.le (remove_dups keys.*2) in
    let values := filter (λ c, c ∉ ["date"; "platform"]) (columns df) in
    let levels := m ← values; p ← platforms; [(m, p)] in
    let dates := merge_sort Z.le (remove_dups keys.*1) in
    Some {| index := dates;
            header := levels;
            body := (λ d, pivot_cell df d <$> levels) <$> dates |}
  else None.

(** [f"{col[1]}_{col[0]}"]. *)
Definition flat_name (col : string * string) : string := col.2 +:+ "_" +:+ col.1.

(** [t.columns = names]. *)
Definition set_columns {A B : Type} (t : Pivot A) (names : list B) : Pivot B :=
  {| index := index t; header := names; body := body t |}.

(** [t.reset_index()]: the index becomes the column [date]. *)
Definition reset_index (t : Pivot string) : DataFrame :=
  {| columns := "date" :: header t;
     rows := zip_with (λ d line, list_to_map (("date", Time d) :: zip (header t) line))
               (index t) (body t) |}.

(** Equality of two join keys; missing keys match each other. *)
Definition same_date (a b : Cell) : bool :=
  match a, b with
  | Time t, Time u => bool_decide (t = u)
  | NaT, NaT => true
  | _, _ => false
  end.

Definition overlaps (left right : DataFrame) (c : string) : bool :=
  bool_decide (c ≠ "date" ∧ c ∈ columns left ∧ c ∈ columns right).

(** The name of a column in the merge result: a name that both sides
    carry (other than the key) gets the side's suffix. *)
Definition merged_name (left right : DataFrame) (suffix c : string) : string :=
  if overlaps left right c then c +:+ suffix else c.

Definition right_columns (right : DataFrame) : list string :=
  filter (λ c, c ≠ "date") (columns right).

Definition left_part (left right : DataFrame) (l : Row) : Row :=
  list_to_map ((λ c, (merged_name left right "_x" c, cell l c)) <$> columns left).

Definition right_part (left right : DataFrame) (r : Row) : Row :=
  list_to_map ((λ c, (merged_name left right "_y" c, cell r c)) <$> right_columns right).

Definition matches (right : DataFrame) (l : Row) : list Row :=
  filter (λ r, same_date (cell l "date") (cell r "date") = true) (rows right).

(** [pd.merge(left, right, on='date', how='left')] for two datetime key
    columns: every left row, in order, once per matching right row, and
    once with NaN for the right columns when nothing matches. *)
Definition merge_left (left right : DataFrame) : option DataFrame :=
  if bool_decide ("date" ∈ columns left ∧ "date" ∈ columns right)
     && forallb (λ r, is_datetime (cell r "date")) (rows left)
     && forallb (λ r, is_datetime (cell r "date")) (rows right) then
    Some {| columns := (merged_name left right "_x" <$> columns left)
                       ++ (merged_name left right "_y" <$> right_columns right);
            rows := l ← rows left;
                    match matches right l with
                    | [] => [left_part left right l ∪ right_part left right ∅]
                    | ms => (λ r, left_part left right l ∪ right_part left right r) <$> ms
                    end |}
  else None.

(** [df.fillna(0)]. *)
Definition fillna0 (df : DataFrame) : DataFrame :=
  {| columns := columns df;
     rows := (λ r, list_to_map ((λ c, (c, fill0 (cell r c))) <$> columns df)) <$> rows df |}.

Definition combine_data : Py loc :=
  marketing_df ← calculate_marketing_kpis;
  business_df ← calculate_business_kpis;
  match business_df with
  | None => mret marketing_df
  | Some business_df =>
    marketing ← deref marketing_df;
    daily_marketing ← lift (groupby_agg marketing);
    pivot ← lift (pivot_platform daily_marketing);
    let daily_marketing_pivot :=
      reset_index (set_columns pivot (flat_name <$> header pivot)) in
    business ← deref business_df;
    merged ← lift (merge_left business daily_marketing_pivot);
    combined_df ← new (fillna0 merged);
    p ← get_self; set_self (with_combined_df p (Some combined_df));;
    mret combined_df
  end.

(** *** get_summary_stats *)

(** [s.endswith(suffix)]. *)
Fixpoint endswith (suffix s : string) : bool :=
  if String.eqb s suffix then true
  else match s with
       | EmptyString => false
       | String _ s' => endswith suffix s'
       end.

(** [df[cols].sum().sum()]. *)
Definition columns_sum (df : DataFrame) (cols : list string) : option float :=
  F.nansum <$> mapM (λ c, F.nansum <$> numeric df c) cols.

Definition timestamp (c : Cell) : option Z :=
  match c with Time t => Some t | _ => None end.

(** [df['date'].min()] and [.max()] of a datetime column, NaT skipped;
    [None] when there is no timestamp to return (the result is NaT, which
    has no [strftime]) or when the column is not a datetime column. *)
Definition date_bounds (df : DataFrame) : option (Z * Z) :=
  dates ← getitem df "date";
  if forallb is_datetime dates then
    match omap timestamp dates with
    | [] => None
    | t :: ts => Some (foldl Z.min t ts, foldl Z.max t ts)
    end
  else None.

Definition get_summary_stats (pd : Pandas) : Py (gmap string Cell) :=
  p ← get_self;
  match combined_df p with
  | None => mret ∅
  | Some combined =>
    df ← deref combined;
    total_spend ←
      lift (columns_sum df (filter (λ c, endswith "_spend" c = true) (columns df)));
    total_attributed_revenue ←
      lift (columns_sum df
              (filter (λ c, endswith "_attributed revenue" c = true) (columns df)));
    total_business_revenue ← lift (F.nansum <$> numeric df "total revenue");
    let overall_roas :=
      if F.pos total_spend then (total_attributed_revenue / total_spend)%float
      else F.zero in
    let attribution_gap :=
      if F.pos total_business_revenue then
        ((total_business_revenue - total_attributed_revenue)
         / total_business_revenue * F.hundred)%float
      else F.zero in
    bounds ← lift (date_bounds df);
    mret (list_to_map
            [("total_spend", Num total_spend);
             ("total_attributed_revenue", Num total_attributed_revenue);
             ("total_business_revenue", Num total_business_revenue);
             ("overall_roas", Num overall_roas);
             ("attribution_gap", Num attribution_gap);
             ("date_range",
              Text (strftime pd bounds.1 +:+ " to " +:+ strftime pd bounds.2))])
  end.

(** ** src/ai/llm.py: the chat service

    The google.generativeai package is outside the repository.  Every
    call into it is recorded in a trace, and what a call answers is taken
    from a given [Genai]. *)

Module llm.

(** An exception of the library, as its text. *)
Definition Result (A : Type) : Type := string + A.

Record Genai : Type := {
  configure : string → Result unit;                  (* genai.configure(api_key=...) *)
  GenerativeModel : string → Result string;          (* genai.GenerativeModel(name) *)
  generate_content : string → string → Result string (* model.generate_content(prompt).text *)
}.

Inductive Call : Type :=
  | CallConfigure (api_key : string)
  | CallGenerativeModel (name : string)
  | CallGenerateContent (model prompt : string).

(** The process environment at import and construction time. *)
Record Environment : Type := {
  GEMINI_AVAILABLE : bool;                (* the import of the package succeeded *)
  GOOGLE_API_KEY : option string          (* os.getenv('GOOGLE_API_KEY') *)
}.

(** Python's truth value of [os.getenv(...)]: None and the empty string
    are false. *)
Definition truthy (v : option string) : bool :=
  match v with
  | Some s => negb (String.eqb s "")
  | None => false
  end.

Inductive Class : Type := LLMService | MockLLMService.

Record Service : Type := {
  class : Class;
  gemini_model : option string
}.

(** A computation that calls into the package: its value and the calls it
    made, in order. *)
Definition Traced (A : Type) : Type := A * list Call.

(** [LLMService.__init__], inherited by [MockLLMService]. *)
Definition __init__ (env : Environment) (genai : Genai) : Traced (option string) :=
  if GEMINI_AVAILABLE env && truthy (GOOGLE_API_KEY env) then
    let api_key := default "" (GOOGLE_API_KEY env) in
    match configure genai api_key with
    | inl e => (None, [CallConfigure api_key])
    | inr _ =>
      match GenerativeModel genai "gemini-2.5-flash" with
      | inl e => (None, [CallConfigure api_key; CallGenerativeModel "gemini-2.5-flash"])
      | inr model =>
        (Some model, [CallConfigure api_key; CallGenerativeModel "gemini-2.5-flash"])
      end
    end
  else (None, []).

Definition get_llm_service (env : Environment) (genai : Genai) : Traced Service :=
  if GEMINI_AVAILABLE env && truthy (GOOGLE_API_KEY env) then
    let '(model, calls) := __init__ env genai in
    ({| class := LLMService; gemini_model := model |}, calls)
  else
    let '(model, calls) := __init__ env genai in
    ({| class := MockLLMService; gemini_model := model |}, calls).

Definition NOT_CONFIGURED : string :=
  "AI chat is not configured. Please ensure your `GOOGLE_API_KEY` is set correctly.".
Definition MOCK_RESPONSE : string :=
  "This is a mock chat response. Please set your `GOOGLE_API_KEY` to use the real AI chat.".

Definition quote : string := String (Ascii.ascii_of_nat 34) EmptyString.

(** The f-string of [LLMService.get_chat_response], the two dicts already
    rendered by [json.dumps(..., indent=2)]. *)
Definition prompt (query data_summary platform_performance : string) : string :=
  "
        You are a marketing analyst AI. A user has asked a question about their marketing data.
        Answer the user's query based on the data provided below.

        User Query: " +:+ quote +:+ query +:+ quote +:+ "

        High-Level Marketing Data Summary:
        " +:+ data_summary +:+ "

        Platform Performance Breakdown:
        " +:+ platform_performance +:+ "

        Provide a concise and helpful answer to the user's query based on the provided data.
        ".

(** [get_chat_response], dispatched on the class of the receiver.  The
    two dicts are of any type [D], [P] that [json.dumps] is given for; an
    exception of [json.dumps] is not caught and is the answer [inl]. *)
Definition get_chat_response {D P : Type}
    (dumps_summary : D → Result string) (dumps_performance : P → Result string)
    (genai : Genai) (service : Service)
    (query : string) (data_summary : D) (platform_performance : P)
    : Traced (Result string) :=
  match class service with
  | MockLLMService => (inr MOCK_RESPONSE, [])
  | LLMService =>
    match gemini_model service with
    | None => (inr NOT_CONFIGURED, [])
    | Some model =>
      match dumps_summary data_summary with
      | inl e => (inl e, [])
      | inr summary =>
        match dumps_performance platform_performance with
        | inl e => (inl e, [])
        | inr performance =>
          let p := prompt query summary performance in
          match generate_content genai model p with
          | inr text => (inr text, [CallGenerateContent model p])
          | inl e =>
            (inr ("An error occurred while communicating with the AI: " +:+ e),
             [CallGenerateContent model p])
          end
        end
      end
    end
  end.

(** Construction of the service followed by one chat request. *)
Definition chat {D P : Type}
    (dumps_summary : D → Result string) (dumps_performance : P → Result string)
    (env : Environment) (genai : Genai)
    (query : string) (data_summary : D) (platform_performance : P)
    : Traced (Result string) :=
  let '(service, calls) := get_llm_service env genai in
  let '(answer, calls') :=
    get_chat_response dumps_summary dumps_performance genai service
      query data_summary platform_performance in
  (answer, calls ++ calls').

End llm.

(** ** Row-wise readings, used to state what the column code computes *)

(** The four KPI cells that [_calculate_platform_kpis] adds to a row. *)
Definition kpi (numerator denominator : float) : float :=
  F.round2 (F.fillna0 (numerator / denominator)%float).

Definition kpi_row (r : Row) : Row :=
  <["roas" := Num (kpi (num r "attributed revenue") (num r "spend"))]>
  (<["cpm" := Num (kpi (num r "spend") (num r "impression" / F.thousand)%float)]>
  (<["cpc" := Num (kpi (num r "spend") (num r "clicks"))]>
  (<["ctr" := Num (F.round2 (F.fillna0
                     (num r "clicks" / num r "impression" * F.hundred)%float))]> r))).

Definition KPIS : list string := ["ctr"; "cpc"; "cpm"; "roas"].

Definition with_kpis (df : DataFrame) : DataFrame :=
  {| columns := foldl add_column (columns df) KPIS; rows := kpi_row <$> rows df |}.

(** The three KPI cells that [calculate_business_kpis] adds to a row. *)
Definition business_kpi_row (r : Row) : Row :=
  <["new_customer_rate" :=
      Num (F.fillna0 (F.round2 (num r "new customers" / num r "# of orders" * F.hundred)%float))]>
  (<["profit_margin" :=
      Num (F.fillna0 (F.round2 (num r "gross profit" / num r "total revenue" * F.hundred)%float))]>
  (<["aov" :=
      Num (F.fillna0 (F.round2 (num r "total revenue" / num r "# of orders")%float))]> r)).

Definition BUSINESS_KPIS : list string := ["aov"; "profit_margin"; "new_customer_rate"].
Definition BUSINESS_INPUTS : list string :=
  ["total revenue"; "# of orders"; "gross profit"; "new customers"].

Definition with_business_kpis (df : DataFrame) : DataFrame :=
  {| columns := foldl add_column (columns df) BUSINESS_KPIS;
     rows := business_kpi_row <$> rows df |}.

(** The columns [cols] exist and hold numbers only. *)
Definition numeric_columns (cols : list string) (df : DataFrame) : bool :=
  forallb (λ c, bool_decide (c ∈ columns df)
                && forallb (λ r, is_num (cell r c)) (rows df)) cols.

(** A cleaned marketing table: dated, tagged, numeric. *)
Definition marketing_frame (df : DataFrame) : bool :=
  bool_decide ("date" ∈ columns df ∧ "platform" ∈ columns df)
  && numeric_columns MARKETING_COLUMNS df
  && forallb (λ r, is_datetime (cell r "date") && is_label (cell r "platform")) (rows df).

(** A name that the pivot could give to one of its columns. *)
Definition platform_column (c : string) : bool :=
  existsb (λ m, endswith ("_" +:+ m) c) METRICS.

(** A cleaned business table: dated, numeric where the KPIs read it, and
    with no column named like a platform metric. *)
Definition business_frame (df : DataFrame) : bool :=
  bool_decide ("date" ∈ columns df)
  && numeric_columns BUSINESS_INPUTS df
  && forallb (λ r, is_datetime (cell r "date")) (rows df)
  && forallb (λ c, negb (platform_column c)) (columns df).

(** The frames behind a dict of references. *)
Definition frames_of (h : gmap loc DataFrame) (d : list (string * loc)) : list DataFrame :=
  omap (λ kv, h !! kv.2) d.

(** Number of rows of a frame dated [t]. *)
Definition count_date (t : Z) (df : DataFrame) : nat :=
  length (filter (λ r, timestamp (cell r "date") = Some t) (rows df)).

(** The column [col] of the frame that a computation returns. *)
Definition column_of_result (m : Py loc) (w : World) (col : string) : option (list Cell) :=
  match m w with
  | (Return l, w') => heap w' !! l ≫= λ df, getitem df col
  | (Raise, _) => None
  end.

(** The stored marketing tables are all there and cleaned. *)
Definition marketing_ready (w : World) : bool :=
  forallb (λ kv, match heap w !! kv.2 with
                 | Some f => marketing_frame f
                 | None => false
                 end) (marketing_dfs (self w)).

(** All rows of the stored marketing tables. *)
Definition marketing_rows (w : World) : list Row :=
  frames_of (heap w) (marketing_dfs (self w)) ≫= rows.

(** The table that [calculate_marketing_kpis] returns for the stored
    tables [ins]. *)
Definition marketing_table (ins : list DataFrame) : DataFrame :=
  let frames := with_kpis <$> ins in
  {| columns := union_columns frames;
     rows := reindex (union_columns frames) <$> (frames ≫= rows) |}.

(** What the marketing rows [mrows] say about platform [p] on date [t]
    for the metric [m]: its aggregate over the rows of that day, NaN when
    there is none. *)
Definition daily_metric (mrows : list Row) (t : Z) (p m : string) (how : Agg) : Cell :=
  match filter (λ r, key r = Some (t, p)) mrows with
  | [] => NaN
  | g => Num (aggregate how ((λ r, num (kpi_row r) m) <$> g))
  end.

(** The column MultiIndex of the pivot for the platforms [platforms]. *)
Definition levels_of (platforms : list string) : list (string * string) :=
  m ← METRICS; p ← platforms; [(m, p)].

(** One row of the date-indexed table, after the columns are renamed and
    the index is reset. *)
Definition pivot_row (daily : DataFrame) (levels : list (string * string)) (d : Z) : Row :=
  list_to_map (("date", Time d) :: ((λ lv, (flat_name lv, pivot_cell daily d lv)) <$> levels)).

(** The right-hand row that the merge joins to the left row [l]. *)
Definition partner (right : DataFrame) (l : Row) : Row :=
  match matches right l with r :: _ => r | [] => ∅ end.

(** The cells of the combined row [r] that comes from the business row
    [b0]: the business cells and KPIs, zero-filled, and for every platform
    of [platforms] the day's aggregate of each metric, zero-filled. *)
Definition combined_cells (bcols platforms : list string) (mrows : list Row)
    (b0 r : Row) : Prop :=
  (∀ x, x ∈ bcols → r !! x = Some (fill0 (cell (business_kpi_row b0) x)))
  ∧ (∀ m how p, (m, how) ∈ AGG → p ∈ platforms →
       r !! flat_name (m, p)
       = Some (fill0 match cell b0 "date" with
                     | Time t => daily_metric mrows t p m how
                     | _ => NaN
                     end)).

(** What one turn of [_convert_numeric_columns] does to a row. *)
Definition convert_cell (pd : Pandas) (present : list string) (r : Row) (col : string) : Row :=
  if decide (col ∈ present) then <[col := Num (default nan (parsed pd (cell r col)))]> r
  else r.
Definition convert_row (pd : Pandas) (present : list string) (r : Row) : Row :=
  foldl (convert_cell pd present) r MARKETING_COLUMNS.

(** A frame whose rows all carry the tag [platform]. *)
Definition tagged (platform : string) (df : DataFrame) : Prop :=
  "platform" ∈ columns df ∧ ∀ r, r ∈ rows df → r !! "platform" = Some (Text platform).

(** [m] leaves the processor's fields alone and changes no object other
    than the one at [l]. *)
Definition confined {A : Type} (l : loc) (m : Py A) : Prop :=
  ∀ w, self (m w).2 = self w ∧ ∀ l0, l0 ≠ l → heap (m w).2 !! l0 = heap w !! l0.

(** [w'] has every object of [w], unchanged, and the same processor
    fields. *)
Definition extends (w w' : World) : Prop :=
  self w' = self w ∧ heap w ⊆ heap w'.

Definition underscore : Ascii.ascii := Ascii.ascii_of_nat 95.
Fixpoint has_underscore (s : string) : bool :=
  match s with
  | EmptyString => false
  | String c s' => bool_decide (c = underscore) || has_underscore s'
  end.

(** The processor holds, for [platform], a table tagged with it. *)
Definition holds_tagged (w : World) (platform : string) : Prop :=
  ∃ l f, dict_get (marketing_dfs (self w)) platform = Some l
         ∧ heap w !! l = Some f ∧ tagged platform f.

(** [df[col].sum()] of a numeric column. *)
Definition column_total (df : DataFrame) (col : string) : float :=
  F.nansum ((λ r, num r col) <$> rows df).

(** The sum of all columns whose name ends in [suffix]. *)
Definition suffix_total (df : DataFrame) (suffix : string) : float :=
  F.nansum (column_total df <$> filter (λ c, endswith suffix c = true) (columns df)).

(** ** Readings of the cleaning code *)

(** The timestamp that [pd.to_datetime] writes into the [date] cell of
    row [r]. *)
Definition date_cell (pd : Pandas) (r : Row) : Cell :=
  default NaT (to_datetime1 pd (cell r "date")).

(** What [clean_data] does to one row of a marketing table whose header
    is [present]. *)
Definition clean_row (pd : Pandas) (present : list string) (r : Row) : Row :=
  convert_row pd present (<["date" := date_cell pd r]> r).

Definition parse_dates_frame (pd : Pandas) (f : DataFrame) : DataFrame :=
  {| columns := columns f; rows := (λ r, <["date" := date_cell pd r]> r) <$> rows f |}.

Definition clean_frame (pd : Pandas) (f : DataFrame) : DataFrame :=
  {| columns := columns f; rows := clean_row pd (columns f) <$> rows f |}.

(** A table that has a [date] column and only dates that
    [pd.to_datetime] accepts. *)
Definition parseable (pd : Pandas) (f : DataFrame) : Prop :=
  "date" ∈ columns f ∧ Forall (λ r, is_Some (to_datetime1 pd (cell r "date"))) (rows f).

(** A table whose [date] column holds timestamps. *)
Definition dated (f : DataFrame) : Prop :=
  "date" ∈ columns f
  ∧ Forall (λ r, ∃ c, r !! "date" = Some c ∧ is_datetime c = true) (rows f).

(** A table as [_clean_marketing_data] leaves it: timestamps in [date],
    numbers in each column of MARKETING_COLUMNS that the table has. *)
Definition cleaned (f : DataFrame) : Prop :=
  dated f
  ∧ Forall (λ r, ∀ c, c ∈ MARKETING_COLUMNS → c ∈ columns f → ∃ x, r !! c = Some (Num x))
      (rows f).

(** [f'] is [f] up to the cells that cleaning rewrites: the same header,
    as many rows, and outside [date] and MARKETING_COLUMNS the same
    cells. *)
Definition recleaned (f f' : DataFrame) : Prop :=
  columns f' = columns f
  ∧ Forall2 (λ r r', ∀ c, c ∉ "date" :: MARKETING_COLUMNS → r' !! c = r !! c)
      (rows f) (rows f').

(** ** app.py: the loader of the dashboard *)

Module app.

(** What [st.error] shows before [None] is returned. *)
Inductive Notice : Type :=
  | FailedToLoad          (* "Failed to load data. Please check your dataset files." *)
  | ErrorProcessing.      (* "Error processing data: ..." with the exception's text *)

(** [load_and_process_data], one call of it (the streamlit cache in front
    of it is not part of the model).  [inr l] is the returned table,
    [inl n] stands for the notice [n] followed by [return None]. *)
Definition load_and_process_data (pd : Pandas) : Py (Notice + loc) :=
  try_except
    (set_self init;;
     data ← load_data pd;
     match data with
     | [] => mret (inl FailedToLoad)
     | _ :: _ =>
       clean_data pd;;
       combined_df ← combine_data;
       mret (inr combined_df)
     end)
    (mret (inl ErrorProcessing)).

End app.

(** A business file that the pipeline accepts: parseable dates, numbers
    in the columns that the KPIs read, no column named like a platform
    metric. *)
Definition business_file (pd : Pandas) (f : DataFrame) : Prop :=
  parseable pd f
  ∧ numeric_columns BUSINESS_INPUTS f = true
  ∧ forallb (λ c, negb (platform_column c)) (columns f) = true.

(** A platform file that the pipeline accepts: parseable dates and the
    four marketing columns. *)
Definition marketing_file (pd : Pandas) (f : DataFrame) : Prop :=
  parseable pd f ∧ Forall (λ c, c ∈ columns f) MARKETING_COLUMNS.

(** ** src/ai/ai_insights.py: the per-platform totals behind the AI tab *)

Module ai_insights.

(** [df[col].sum()]; [None] is KeyError.  (A column that holds something
    other than numbers also gives [None]: pandas' sum of such a column is
    not followed here.) *)
Definition column_sum (df : DataFrame) (col : string) : option float :=
  F.nansum <$> numeric df col.

(** [{metric: f"{platform}_{metric}" for metric in [...]}]. *)
Definition cols (platform : string) : list (string * string) :=
  (λ metric, (metric, platform +:+ "_" +:+ metric))
    <$> ["spend"; "attributed revenue"; "clicks"; "impression"].

(** The dict stored under one platform. *)
Definition entry (spend revenue clicks impressions : float) : gmap string float :=
  list_to_map
    [("spend", spend); ("revenue", revenue);
     ("roas", if F.pos spend then (revenue / spend)%float else F.zero);
     ("ctr", if F.pos impressions then (clicks / impressions * F.hundred)%float else F.zero);
     ("cpc", if F.pos clicks then (spend / clicks)%float else F.zero)].

(** One turn of the loop, [platform_performance] being the dict built so
    far. *)
Definition analyze_platform (filtered_df : DataFrame)
    (platform_performance : list (string * gmap string float)) (platform : string)
    : option (list (string * gmap string float)) :=
  if decide (default "" (dict_get (cols platform) "spend") ∈ columns filtered_df) then
    sums ← mapM (column_sum filtered_df) (cols platform).*2;
    match sums with
    | [spend; revenue; clicks; impressions] =>
      Some (dict_set platform_performance platform (entry spend revenue clicks impressions))
    | _ => None
    end
  else Some platform_performance.

(** [_analyze_platform_performance]; [None] is a raised exception. *)
Definition _analyze_platform_performance (filtered_df : DataFrame)
    (selected_platforms : list string) : option (list (string * gmap string float)) :=
  foldl (λ acc platform, acc ≫= λ d, analyze_platform filtered_df d platform)
    (Some []) selected_platforms.

End ai_insights.

(** ** Sample data *)

Module Sample.

Definition marketing_header : list string :=
  ["date"; "impression"; "clicks"; "spend"; "attributed revenue"; "platform"].
Definition business_header : list string :=
  ["date"; "# of orders"; "# of new orders"; "new customers"; "total revenue";
   "gross profit"].

Definition marketing_row (date : Z) (platform : string)
    (impression clicks spend revenue : float) : Row :=
  list_to_map [("date", Time date); ("platform", Text platform);
               ("impression", Num impression); ("clicks", Num clicks);
               ("spend", Num spend); ("attributed revenue", Num revenue)].

Definition business_row (date : Z) (orders new_orders customers revenue profit : float) : Row :=
  list_to_map [("date", Time date); ("# of orders", Num orders);
               ("# of new orders", Num new_orders); ("new customers", Num customers);
               ("total revenue", Num revenue); ("gross profit", Num profit)].

Definition facebook : DataFrame :=
  {| columns := marketing_header;
     rows := [marketing_row 1 "Facebook" 1000 0 10 0;
              marketing_row 2 "Facebook" 3 1 1 7] |}.
Definition google : DataFrame :=
  {| columns := marketing_header;
     rows := [marketing_row 1 "Google" 1000 10 10 50;
              marketing_row 1 "Google" 500 5 20 10] |}.
Definition tiktok : DataFrame :=
  {| columns := marketing_header; rows := [marketing_row 3 "TikTok" 200 4 0 5] |}.
Definition business : DataFrame :=
  {| columns := business_header;
     rows := [business_row 3 10 5 4 100 30; business_row 1 0 0 0 50 10;
              business_row 2 4 1 1 0 0; business_row 4 2 1 1 20 5] |}.

Definition processor : DataProcessor :=
  {| business_df := Some 0;
     marketing_dfs := [("Facebook", 1); ("Google", 2); ("TikTok", 3)];
     combined_df := None |}.

(** The state after loading and cleaning four small tables. *)
Definition world : World :=
  {| heap := list_to_map [(0, business); (1, facebook); (2, google); (3, tiktok)];
     self := processor |}.

(** The same state with a business file that holds its header only. *)
Definition world_no_business_rows : World :=
  {| heap := list_to_map [(0, {| columns := business_header; rows := [] |});
                          (1, facebook); (2, google); (3, tiktok)];
     self := processor |}.

(** A business table is loaded, no platform table is. *)
Definition world_no_platform : World :=
  {| heap := list_to_map [(0, business)];
     self := {| business_df := Some 0; marketing_dfs := []; combined_df := None |} |}.

(** A processor as [__init__] leaves it. *)
Definition fresh_world : World := {| heap := ∅; self := init |}.

(** A file system with the four files, as text cells before cleaning. *)
Definition raw_marketing : DataFrame :=
  {| columns := ["date"; "impression"; "clicks"; "spend"; "attributed revenue"];
     rows := [list_to_map [("date", Text "2024-01-01"); ("impression", Num 1000);
                           ("clicks", Text "n/a"); ("spend", Text "12.5");
                           ("attributed revenue", Num 40)]] |}.
Definition raw_business : DataFrame :=
  {| columns := business_header;
     rows := [list_to_map [("date", Text "2024-01-01"); ("# of orders", Num 10);
                           ("# of new orders", Num 5); ("new customers", Num 4);
                           ("total revenue", Num 100); ("gross profit", Num 30)]] |}.

Definition pandas : Pandas :=
  {| read_csv := λ path,
       if decide (path = "dataset/business.csv") then Some raw_business
       else if decide (path ∈ csv_path <$> PLATFORMS) then Some raw_marketing
       else None;
     parse_number := λ s, if decide (s = "12.5") then Some 12.5%float else None;
     parse_datetime := λ s, if decide (s = "2024-01-01") then Some (Some 19723%Z) else None;
     timestamp_of_number := λ _, 0%Z;
     number_of_timestamp := λ _, 0%float;
     strftime := λ t, if decide (t = 19723%Z) then "2024-01-01" else "1970-01-01" |}.

(** A marketing table with a missing click count and a missing revenue. *)
Definition facebook_gap : DataFrame :=
  {| columns := marketing_header;
     rows := [marketing_row 1 "Facebook" 10 nan 5 nan] |}.
Definition world_gap : World :=
  {| heap := {[1 := facebook_gap]};
     self := {| business_df := None; marketing_dfs := [("Facebook", 1)];
                combined_df := None |} |}.

(** A heap that holds one table as [read_csv] returns it. *)
Definition raw_world : World := {| heap := {[0 := raw_marketing]}; self := init |}.

(** A process without an API key, and a package that would answer. *)
Definition environment : llm.Environment :=
  {| llm.GEMINI_AVAILABLE := true; llm.GOOGLE_API_KEY := None |}.
Definition genai : llm.Genai :=
  {| llm.configure := λ _, inr ();
     llm.GenerativeModel := λ name, inr name;
     llm.generate_content := λ _ _, inr "The best platform is Google." |}.

(** The state after [load_data] on the file system above, and after
    [clean_data] on that. *)
Definition loaded_world : World := (load_data pandas fresh_world).2.
Definition cleaned_world : World := (clean_data pandas loaded_world).2.

(** The same file system without the TikTok file. *)
Definition pandas_without_tiktok : Pandas :=
  {| read_csv := λ path,
       if decide (path = "dataset/TikTok.csv") then None else read_csv pandas path;
     parse_number := parse_number pandas;
     parse_datetime := parse_datetime pandas;
     timestamp_of_number := timestamp_of_number pandas;
     number_of_timestamp := number_of_timestamp pandas;
     strftime := strftime pandas |}.

(** A business file whose date is no date, and a file system that has it. *)
Definition undated_business : DataFrame :=
  {| columns := business_header;
     rows := [list_to_map [("date", Text "yesterday"); ("# of orders", Num 10);
                           ("# of new orders", Num 5); ("new customers", Num 4);
                           ("total revenue", Num 100); ("gross profit", Num 30)]] |}.
Definition pandas_undated : Pandas :=
  {| read_csv := λ path,
       if decide (path = "dataset/business.csv") then Some undated_business
       else read_csv pandas path;
     parse_number := parse_number pandas;
     parse_datetime := parse_datetime pandas;
     timestamp_of_number := timestamp_of_number pandas;
     number_of_timestamp := number_of_timestamp pandas;
     strftime := strftime pandas |}.
Definition world_undated : World :=
  {| heap := {[0 := undated_business]};
     self := {| business_df := Some 0; marketing_dfs := []; combined_df := None |} |}.

(** A platform table without a [clicks] column. *)
Definition no_clicks : DataFrame :=
  {| columns := ["date"; "impression"; "spend"; "attributed revenue"; "platform"];
     rows := [list_to_map [("date", Time 1); ("impression", Num 100); ("spend", Num 5);
                           ("attributed revenue", Num 20); ("platform", Text "Facebook")]] |}.
Definition world_no_clicks : World :=
  {| heap := {[1 := no_clicks]};
     self := {| business_df := None; marketing_dfs := [("Facebook", 1)];
                combined_df := None |} |}.

(** Processes with an API key: with the package, and without it. *)
Definition environment_with_key : llm.Environment :=
  {| llm.GEMINI_AVAILABLE := true; llm.GOOGLE_API_KEY := Some "secret" |}.
Definition environment_without_package : llm.Environment :=
  {| llm.GEMINI_AVAILABLE := false; llm.GOOGLE_API_KEY := Some "secret" |}.

(** A package that refuses the key. *)
Definition genai_rejecting : llm.Genai :=
  {| llm.configure := λ _, inl "API key not valid";
     llm.GenerativeModel := λ name, inr name;
     llm.generate_content := λ _ _, inr "The best platform is Google." |}.

End Sample.

(** * Proofs *)

Lemma bind_unfold {A B : Type} (m : Py A) (f : A → Py B) (w : World) :
  (m ≫= f) w = match m w with
               | (Return a, w') => f a w'
               | (Raise, w') => (Raise, w')
               end.
Proof. reflexivity. Qed.

Lemma bind_assoc {A B C : Type} (m : Py A) (g : A → Py B) (f : B → Py C) (w : World) :
  ((m ≫= g) ≫= f) w = (m ≫= λ a, g a ≫= f) w.
Proof. rewrite !bind_unfold. destruct (m w) as [[a|] w']; reflexivity. Qed.

Lemma bind_mret {A B : Type} (a : A) (f : A → Py B) (w : World) :
  (mret a ≫= f) w = f a w.
Proof. reflexivity. Qed.

Lemma bind_deref {B : Type} (l : loc) (df : DataFrame) (f : DataFrame → Py B) (w : World) :
  heap w !! l = Some df → (deref l ≫= f) w = f df w.
Proof. intros H. rewrite bind_unfold. unfold deref. rewrite H. reflexivity. Qed.

Lemma bind_deref_raise {B : Type} (l : loc) (f : DataFrame → Py B) (w : World) :
  heap w !! l = None → (deref l ≫= f) w = (Raise, w).
Proof. intros H. rewrite bind_unfold. unfold deref. rewrite H. reflexivity. Qed.

Lemma bind_lift {A B : Type} (o : option A) (a : A) (f : A → Py B) (w : World) :
  o = Some a → (lift o ≫= f) w = f a w.
Proof. intros ->. reflexivity. Qed.

Lemma bind_lift_raise {A B : Type} (o : option A) (f : A → Py B) (w : World) :
  o = None → (lift o ≫= f) w = (Raise, w).
Proof. intros ->. reflexivity. Qed.

Lemma bind_new {B : Type} (df : DataFrame) (f : loc → Py B) (w : World) :
  (new df ≫= f) w
  = f (fresh (dom (heap w))) {| heap := <[fresh (dom (heap w)) := df]> (heap w); self := self w |}.
Proof. reflexivity. Qed.

Lemma bind_update {B : Type} (l : loc) (df : DataFrame) (f : () → Py B) (w : World) :
  (update l df ≫= f) w = f () {| heap := <[l := df]> (heap w); self := self w |}.
Proof. reflexivity. Qed.

Lemma bind_get_self {B : Type} (f : DataProcessor → Py B) (w : World) :
  (get_self ≫= f) w = f (self w) w.
Proof. reflexivity. Qed.

Lemma bind_set_self {B : Type} (p : DataProcessor) (f : () → Py B) (w : World) :
  (set_self p ≫= f) w = f () {| heap := heap w; self := p |}.
Proof. reflexivity. Qed.

Lemma fresh_loc_unused (h : gmap loc DataFrame) : h !! fresh (dom h) = None.
Proof. apply not_elem_of_dom, is_fresh. Qed.

(** One assignment of [assign_kpis] on a frame that is in the heap. *)
Lemma assign_kpis_cons (l : loc) (f : DataFrame) (k : string) (v : list float)
    (kpis : list (string * list float)) (finish : list float → list float) (w : World) :
  heap w !! l = Some f →
  assign_kpis l ((k, v) :: kpis) finish w
  = assign_kpis l kpis finish
      {| heap := <[l := setitem f k (Num <$> finish v)]> (heap w); self := self w |}.
Proof.
  intros H. unfold assign_kpis. cbn [for_each].
  rewrite bind_assoc, (bind_deref _ f) by done. reflexivity.
Qed.

Lemma assign_kpis_nil (l : loc) (finish : list float → list float) (w : World) :
  assign_kpis l [] finish w = (Return (), w).
Proof. reflexivity. Qed.

Lemma forallb_elem_of {A : Type} (f : A → bool) (l : list A) (x : A) :
  forallb f l = true → x ∈ l → f x = true.
Proof. rewrite forallb_forall. intros H Hx. apply H, list_elem_of_In, Hx. Qed.

Lemma mapM_as_float_cells (rs : list Row) (c : string) :
  forallb (λ r, is_num (cell r c)) rs = true →
  mapM as_float ((λ r, cell r c) <$> rs) = Some ((λ r, num r c) <$> rs).
Proof.
  intros H. apply mapM_Some. apply Forall2_fmap. apply Forall_Forall2_diag.
  apply Forall_forall. intros r Hr. apply (forallb_elem_of _ _ r) in H; [|done].
  simpl in H. unfold num. destruct (cell r c); simpl in *; done.
Qed.

Lemma numeric_closed (cols : list string) (df : DataFrame) (c : string) :
  numeric_columns cols df = true → c ∈ cols →
  numeric df c = Some ((λ r, num r c) <$> rows df).
Proof.
  intros H Hc. apply (forallb_elem_of _ _ c) in H; [|done].
  apply andb_true_iff in H as [Hin Hnum]. apply bool_decide_eq_true in Hin.
  unfold numeric, getitem. rewrite decide_True by done. simpl.
  by apply mapM_as_float_cells.
Qed.

Lemma zip_with_fmap_same {A B C D : Type} (f : B → C → D) (g : A → B) (h : A → C) (l : list A) :
  zip_with f (g <$> l) (h <$> l) = (λ x, f (g x) (h x)) <$> l.
Proof. induction l as [|x l IH]; csimpl; [done|]. by rewrite IH. Qed.

Lemma zip_with_fmap_right {A C D : Type} (f : A → C → D) (h : A → C) (l : list A) :
  zip_with f l (h <$> l) = (λ x, f x (h x)) <$> l.
Proof. induction l as [|x l IH]; csimpl; [done|]. by rewrite IH. Qed.

Lemma calculate_platform_kpis_spec (w : World) (l : loc) (f : DataFrame) :
  heap w !! l = Some f →
  numeric_columns MARKETING_COLUMNS f = true →
  _calculate_platform_kpis l w
  = (Return (fresh (dom (heap w))),
     {| heap := <[fresh (dom (heap w)) := with_kpis f]> (heap w); self := self w |}).
Proof.
  intros Hl Hnum.
  assert (Hc := numeric_closed _ f "clicks" Hnum ltac:(set_solver)).
  assert (Hi := numeric_closed _ f "impression" Hnum ltac:(set_solver)).
  assert (Hs := numeric_closed _ f "spend" Hnum ltac:(set_solver)).
  assert (Hr := numeric_closed _ f "attributed revenue" Hnum ltac:(set_solver)).
  unfold _calculate_platform_kpis, copy.
  rewrite bind_assoc, (bind_deref _ f), bind_new by done.
  rewrite (bind_deref _ f) by (cbn; apply lookup_insert_eq).
  rewrite (bind_lift _ _ _ _ Hc), (bind_lift _ _ _ _ Hi), (bind_lift _ _ _ _ Hs),
    (bind_lift _ _ _ _ Hr).
  rewrite bind_unfold.
  erewrite assign_kpis_cons by (cbn; apply lookup_insert_eq). cbn [heap self].
  erewrite assign_kpis_cons by (cbn; apply lookup_insert_eq). cbn [heap self].
  erewrite assign_kpis_cons by (cbn; apply lookup_insert_eq). cbn [heap self].
  erewrite assign_kpis_cons by (cbn; apply lookup_insert_eq). cbn [heap self].
  rewrite assign_kpis_nil. cbn [mret Py_ret]. rewrite !insert_insert_eq.
  do 3 f_equal.
  unfold with_kpis, setitem. cbn [columns rows]. f_equal.
  unfold series_round2, series_fillna0, series_div, series_mul_scalar, series_div_scalar.
  repeat first [rewrite zip_with_fmap_same | rewrite zip_with_fmap_right
               | rewrite <- list_fmap_compose].
  reflexivity.
Qed.

(** ** Which objects a computation can change *)

Lemma confined_bind {A B : Type} (l : loc) (m : Py A) (f : A → Py B) :
  confined l m → (∀ a, confined l (f a)) → confined l (m ≫= f).
Proof.
  intros Hm Hf w. rewrite bind_unfold. specialize (Hm w).
  destruct (m w) as [[a|] w']; simpl in *; [|done].
  destruct Hm as [Hs Hh]. destruct (Hf a w') as [Hs' Hh'].
  split; [congruence|]. intros l0 Hl0. rewrite Hh', Hh; done.
Qed.

Lemma confined_mret {A : Type} (l : loc) (a : A) : confined l (mret a).
Proof. intros w. done. Qed.

Lemma confined_lift {A : Type} (l : loc) (o : option A) : confined l (lift o).
Proof. intros w. destruct o; done. Qed.

Lemma confined_deref (l l' : loc) : confined l (deref l').
Proof. intros w. unfold deref. destruct (heap w !! l'); done. Qed.

Lemma confined_update (l : loc) (df : DataFrame) : confined l (update l df).
Proof. intros w. split; [done|]. intros l0 Hl0. simpl. by rewrite lookup_insert_ne. Qed.

Lemma confined_for_each {A : Type} (l : loc) (xs : list A) (body : A → Py ()) :
  (∀ x, confined l (body x)) → confined l (for_each xs body).
Proof.
  intros Hb. induction xs as [|x xs IH]; simpl.
  - apply confined_mret.
  - apply confined_bind; [apply Hb|]. intros _. apply IH.
Qed.

Lemma confined_assign_kpis (l : loc) (kpis : list (string * list float))
    (finish : list float → list float) :
  confined l (assign_kpis l kpis finish).
Proof.
  apply confined_for_each. intros [k v].
  apply confined_bind; [apply confined_deref|]. intros f. apply confined_update.
Qed.

Lemma extends_refl (w : World) : extends w w.
Proof. split; done. Qed.

Lemma extends_trans (w1 w2 w3 : World) : extends w1 w2 → extends w2 w3 → extends w1 w3.
Proof.
  intros [Hs1 Hh1] [Hs2 Hh2]. split; [congruence|]. by transitivity (heap w2).
Qed.

Lemma extends_new (df : DataFrame) (w : World) : extends w (new df w).2.
Proof.
  split; [done|]. simpl. apply insert_subseteq, fresh_loc_unused.
Qed.

Lemma extends_confined_fresh {A : Type} (m : Py A) (df : DataFrame) (w : World) :
  confined (fresh (dom (heap w))) m →
  extends w (m (new df w).2).2.
Proof.
  intros Hm. destruct (Hm (new df w).2) as [Hs Hh]. split; [by rewrite Hs|].
  apply map_subseteq_spec. intros l0 f0 Hl0.
  assert (l0 ≠ fresh (dom (heap w))) as Hne.
  { intros ->. by rewrite fresh_loc_unused in Hl0. }
  rewrite Hh by done. simpl. by rewrite lookup_insert_ne.
Qed.

(** [_calculate_platform_kpis] works on a copy. *)
Lemma calculate_platform_kpis_extends (l : loc) (w : World) :
  extends w (_calculate_platform_kpis l w).2.
Proof.
  unfold _calculate_platform_kpis, copy. rewrite bind_assoc.
  destruct (heap w !! l) as [f|] eqn:Hl.
  - rewrite (bind_deref _ f), bind_new by done.
    apply (extends_confined_fresh
             (deref (fresh (dom (heap w))) ≫= _) f w).
    apply confined_bind; [apply confined_deref|]. intros f0.
    repeat (apply confined_bind; [apply confined_lift|]; intros ?).
    apply confined_bind; [apply confined_assign_kpis|]. intros _. apply confined_mret.
  - rewrite bind_deref_raise by done. apply extends_refl.
Qed.

Lemma mapM_extends {A B : Type} (f : A → Py B) (xs : list A) (w : World) :
  (∀ x w, extends w (f x w).2) → extends w (mapM f xs w).2.
Proof.
  intros Hf. revert w. induction xs as [|x xs IH]; intros w; [apply extends_refl|].
  cbn [mapM]. rewrite bind_unfold. specialize (Hf x w).
  destruct (f x w) as [[b|] w1]; [|done]. simpl in Hf.
  rewrite bind_unfold. specialize (IH w1).
  destruct (mapM (M:=Py) f xs w1) as [[bs|] w2]; simpl in *; by eapply extends_trans.
Qed.

Lemma calculate_marketing_kpis_extends (w : World) :
  extends w (calculate_marketing_kpis w).2.
Proof.
  unfold calculate_marketing_kpis. rewrite bind_get_self, bind_unfold.
  pose proof (mapM_extends (λ '(platform, df), _calculate_platform_kpis df)
                (marketing_dfs (self w)) w) as H1.
  destruct (mapM (M:=Py) _ (marketing_dfs (self w)) w) as [[ls|] w1]; simpl in *.
  2:{ apply H1. intros [? l] ?. apply calculate_platform_kpis_extends. }
  assert (extends w w1) as Hw1.
  { apply H1. intros [? l] ?. apply calculate_platform_kpis_extends. }
  rewrite bind_unfold.
  pose proof (mapM_extends deref ls w1) as H2.
  destruct (mapM (M:=Py) deref ls w1) as [[fs|] w2]; simpl in *.
  2:{ eapply extends_trans; [done|]. apply H2. intros l w0. unfold deref. by destruct (heap w0 !! l). }
  assert (extends w1 w2) as Hw2.
  { apply H2. intros l w0. unfold deref. by destruct (heap w0 !! l). }
  destruct (concat fs) as [c|] eqn:Hc.
  - rewrite (bind_lift _ c) by done. eapply extends_trans; [done|]. eapply extends_trans; [done|]. apply extends_new.
  - rewrite bind_lift_raise by done. by eapply extends_trans.
Qed.

(** ** Strings *)

Lemma app_empty (s : string) : "" +:+ s = s.
Proof. reflexivity. Qed.

Lemma app_String (a : Ascii.ascii) (p s : string) : String a p +:+ s = String a (p +:+ s).
Proof. reflexivity. Qed.

Lemma endswith_unfold (suffix s : string) :
  endswith suffix s
  = if String.eqb s suffix then true
    else match s with EmptyString => false | String _ s' => endswith suffix s' end.
Proof. by destruct s. Qed.

Lemma endswith_app (p s : string) : endswith s (p +:+ s) = true.
Proof.
  induction p as [|a p IH].
  - rewrite app_empty, endswith_unfold. by rewrite String.eqb_refl.
  - rewrite app_String, endswith_unfold, IH. by destruct (String.eqb _ _).
Qed.

Lemma endswith_inv (s t : string) : endswith s t = true → ∃ p, t = p +:+ s.
Proof.
  induction t as [|a t IH]; rewrite endswith_unfold.
  - destruct (String.eqb "" s) eqn:E; [|done].
    apply String.eqb_eq in E as <-. by exists "".
  - destruct (String.eqb (String a t) s) eqn:E.
    + apply String.eqb_eq in E as <-. by exists "".
    + intros [p ->]%IH. by exists (String a p).
Qed.

Lemma has_underscore_app (p m : string) : has_underscore (p +:+ "_" +:+ m) = true.
Proof.
  induction p as [|a p IH]; [done|].
  rewrite app_String. simpl. rewrite IH. apply orb_true_r.
Qed.

Lemma flat_name_inj (p1 m1 p2 m2 : string) :
  has_underscore m1 = false → has_underscore m2 = false →
  flat_name (m1, p1) = flat_name (m2, p2) → p1 = p2 ∧ m1 = m2.
Proof.
  unfold flat_name. simpl. intros H1 H2. revert p2.
  induction p1 as [|a p1 IH]; intros [|b p2] H;
    rewrite ?app_empty, ?(app_String _ p1), ?(app_String _ p2) in H.
  - apply (inj (String.app "_")) in H. by subst.
  - change ("_" +:+ m1) with (String underscore m1) in H.
    injection H as _ ->. by rewrite has_underscore_app in H1.
  - change ("_" +:+ m2) with (String underscore m2) in H.
    injection H as _ <-. by rewrite has_underscore_app in H2.
  - injection H as -> H. by destruct (IH _ H) as [-> ->].
Qed.

Lemma metric_no_underscore (m : string) : m ∈ METRICS → has_underscore m = false.
Proof.
  intros H. apply list_elem_of_In in H. simpl in H.
  repeat (destruct H as [<-|H]; [reflexivity|]). done.
Qed.

Lemma platform_column_flat_name (m p : string) :
  m ∈ METRICS → platform_column (flat_name (m, p)) = true.
Proof.
  intros H. unfold platform_column. apply existsb_exists. exists m.
  split; [by apply list_elem_of_In|]. apply endswith_app.
Qed.

(** ** Rows built from a list of bindings *)

Lemma lookup_bindings {A : Type} (k : A → string) (v : A → Cell) (l : list A) (x : A) :
  x ∈ l → (∀ y, y ∈ l → k y = k x → v y = v x) →
  (list_to_map ((λ a, (k a, v a)) <$> l) : Row) !! k x = Some (v x).
Proof.
  intros Hx Hf. apply elem_of_list_to_map_1'.
  - intros c [y [[= Hk ->] Hy]]%list_elem_of_fmap. symmetry. by apply Hf.
  - apply list_elem_of_fmap. by exists x.
Qed.

Lemma lookup_bindings_None {A : Type} (k : A → string) (v : A → Cell) (l : list A) (s : string) :
  (∀ y, y ∈ l → k y ≠ s) →
  (list_to_map ((λ a, (k a, v a)) <$> l) : Row) !! s = None.
Proof.
  intros H. apply not_elem_of_list_to_map_1. rewrite <- list_fmap_compose.
  intros [y [-> Hy]]%list_elem_of_fmap. by apply (H y).
Qed.

Lemma cell_reindex (cols : list string) (r : Row) (c : string) :
  cell (reindex cols r) c = if decide (c ∈ cols) then cell r c else NaN.
Proof.
  unfold cell at 1, reindex. case_decide as Hc.
  - rewrite (lookup_bindings (λ c, c) (λ c, cell r c) cols c); [done..|].
    by intros y _ ->.
  - rewrite lookup_bindings_None; [done|]. intros y Hy ->. done.
Qed.

Lemma cell_insert (r : Row) (c c' : string) (v : Cell) :
  cell (<[c := v]> r) c' = if decide (c = c') then v else cell r c'.
Proof. unfold cell. rewrite lookup_insert. by case_decide. Qed.

Lemma cell_empty (c : string) : cell ∅ c = NaN.
Proof. unfold cell. by rewrite lookup_empty. Qed.

Lemma cell_kpi_row (r : Row) (c : string) : c ∉ KPIS → cell (kpi_row r) c = cell r c.
Proof.
  intros H. unfold kpi_row. rewrite !cell_insert.
  repeat (case_decide; [subst; exfalso; apply H; set_solver|]). done.
Qed.

Lemma cell_business_kpi_row (r : Row) (c : string) :
  c ∉ BUSINESS_KPIS → cell (business_kpi_row r) c = cell r c.
Proof.
  intros H. unfold business_kpi_row. rewrite !cell_insert.
  repeat (case_decide; [subst; exfalso; apply H; set_solver|]). done.
Qed.

Lemma is_num_cell_kpi_row (r : Row) (c : string) :
  c ∈ KPIS → is_num (cell (kpi_row r) c) = true.
Proof.
  intros H. unfold kpi_row. rewrite !cell_insert.
  repeat (case_decide; [done|]). exfalso. set_solver.
Qed.

Lemma elem_of_add_column (cols : list string) (c c' : string) :
  c' ∈ add_column cols c ↔ c' ∈ cols ∨ c' = c.
Proof. unfold add_column. case_decide; set_solver. Qed.

Lemma elem_of_foldl_add_column (new cols : list string) (c : string) :
  c ∈ foldl add_column cols new ↔ c ∈ cols ∨ c ∈ new.
Proof.
  revert cols. induction new as [|n new IH]; intros cols; simpl; [set_solver|].
  rewrite IH, elem_of_add_column. set_solver.
Qed.

Lemma calculate_business_kpis_spec (w : World) (l : loc) (f : DataFrame) :
  business_df (self w) = Some l →
  heap w !! l = Some f →
  numeric_columns BUSINESS_INPUTS f = true →
  calculate_business_kpis w
  = (Return (Some (fresh (dom (heap w)))),
     {| heap := <[fresh (dom (heap w)) := with_business_kpis f]> (heap w); self := self w |}).
Proof.
  intros Hb Hl Hnum.
  assert (Hr := numeric_closed _ f "total revenue" Hnum ltac:(set_solver)).
  assert (Ho := numeric_closed _ f "# of orders" Hnum ltac:(set_solver)).
  assert (Hp := numeric_closed _ f "gross profit" Hnum ltac:(set_solver)).
  assert (Hc := numeric_closed _ f "new customers" Hnum ltac:(set_solver)).
  unfold calculate_business_kpis, copy.
  rewrite bind_get_self, Hb.
  rewrite bind_assoc, (bind_deref _ f), bind_new by done.
  rewrite (bind_deref _ f) by (cbn; apply lookup_insert_eq).
  rewrite (bind_lift _ _ _ _ Hr), (bind_lift _ _ _ _ Ho), (bind_lift _ _ _ _ Hp),
    (bind_lift _ _ _ _ Hc).
  rewrite bind_unfold.
  erewrite assign_kpis_cons by (cbn; apply lookup_insert_eq). cbn [heap self].
  erewrite assign_kpis_cons by (cbn; apply lookup_insert_eq). cbn [heap self].
  erewrite assign_kpis_cons by (cbn; apply lookup_insert_eq). cbn [heap self].
  rewrite assign_kpis_nil. cbn [mret Py_ret]. rewrite !insert_insert_eq.
  do 3 f_equal.
  unfold with_business_kpis, setitem. cbn [columns rows]. f_equal.
  unfold series_round2, series_fillna0, series_div, series_mul_scalar.
  repeat first [rewrite zip_with_fmap_same | rewrite zip_with_fmap_right
               | rewrite <- list_fmap_compose].
  reflexivity.
Qed.

Lemma frames_of_extends (h h' : gmap loc DataFrame) (dfs : list (string * loc)) :
  Forall (λ kv, is_Some (h !! kv.2)) dfs → h ⊆ h' → frames_of h' dfs = frames_of h dfs.
Proof.
  intros H Hsub. unfold frames_of. induction H as [|kv dfs [f Hf] _ IH]; [done|].
  csimpl. rewrite Hf, (lookup_weaken _ _ _ _ Hf Hsub). csimpl. by rewrite IH.
Qed.

Lemma kpis_of_all (dfs : list (string * loc)) (w : World) :
  Forall (λ kv, ∃ f, heap w !! kv.2 = Some f ∧ marketing_frame f = true) dfs →
  ∃ ls w',
    mapM (λ '(platform, df), _calculate_platform_kpis df) dfs w = (Return ls, w')
    ∧ extends w w'
    ∧ mapM deref ls w' = (Return (with_kpis <$> frames_of (heap w) dfs), w').
Proof.
  revert w. induction dfs as [|[p l] dfs IH]; intros w H.
  - exists [], w. split; [done|]. split; [apply extends_refl|done].
  - apply Forall_cons in H as [(f & Hf & Hm) H]. simpl in Hf.
    assert (numeric_columns MARKETING_COLUMNS f = true) as Hnum.
    { unfold marketing_frame in Hm. apply andb_true_iff in Hm as [Hm _].
      by apply andb_true_iff in Hm as [_ Hm]. }
    pose proof (calculate_platform_kpis_spec w l f Hf Hnum) as Hstep.
    pose proof (calculate_platform_kpis_extends l w) as Hext. rewrite Hstep in Hext.
    simpl in Hext. set (w1 := {| heap := _; self := _ |}) in *.
    destruct (IH w1) as (ls & w' & Hls & Hext' & Hderef).
    { eapply Forall_impl; [exact H|]. intros [q l'] (f' & Hf' & Hm'). exists f'.
      split; [|done]. destruct Hext as [_ Hsub]. by eapply lookup_weaken. }
    assert (frames_of (heap w1) dfs = frames_of (heap w) dfs) as Hsame.
    { apply frames_of_extends; [|by destruct Hext].
      eapply Forall_impl; [exact H|]. intros [q l'] (f' & Hf' & _). by exists f'. }
    assert (frames_of (heap w) ((p, l) :: dfs) = f :: frames_of (heap w) dfs) as Hcons.
    { unfold frames_of. csimpl. by rewrite Hf. }
    rewrite Hsame in Hderef. rewrite Hcons.
    exists (fresh (dom (heap w)) :: ls), w'. split; [|split].
    + cbn [mapM]. rewrite bind_unfold, Hstep. fold w1. rewrite bind_unfold, Hls. done.
    + by eapply extends_trans.
    + cbn [mapM]. rewrite (bind_deref _ (with_kpis f)).
      2:{ destruct Hext' as [_ Hsub]. eapply lookup_weaken; [|exact Hsub].
          unfold w1. simpl. apply lookup_insert_eq. }
      rewrite bind_unfold, Hderef. done.
Qed.

Lemma frames_of_nonempty (h : gmap loc DataFrame) (dfs : list (string * loc)) :
  dfs ≠ [] → Forall (λ kv, is_Some (h !! kv.2)) dfs → frames_of h dfs ≠ [].
Proof.
  intros Hne H. destruct H as [|kv dfs [f Hf] _]; [done|].
  unfold frames_of. simpl. by rewrite Hf.
Qed.

Lemma calculate_marketing_kpis_spec (w : World) :
  marketing_dfs (self w) ≠ [] →
  Forall (λ kv, ∃ f, heap w !! kv.2 = Some f ∧ marketing_frame f = true)
    (marketing_dfs (self w)) →
  ∃ l w',
    calculate_marketing_kpis w = (Return l, w')
    ∧ extends w w'
    ∧ heap w' !! l = Some (marketing_table (frames_of (heap w) (marketing_dfs (self w)))).
Proof.
  intros Hne H. destruct (kpis_of_all _ w H) as (ls & w1 & Hls & Hext & Hderef).
  assert (frames_of (heap w) (marketing_dfs (self w)) ≠ []) as Hfs.
  { apply frames_of_nonempty; [done|]. eapply Forall_impl; [exact H|].
    intros kv (f & Hf & _). by exists f. }
  unfold calculate_marketing_kpis. rewrite bind_get_self, bind_unfold, Hls.
  rewrite bind_unfold, Hderef.
  set (ins := frames_of (heap w) (marketing_dfs (self w))) in *.
  assert (concat (with_kpis <$> ins) = Some (marketing_table ins)) as Hc.
  { unfold concat, marketing_table. destruct ins; done. }
  rewrite (bind_lift _ _ _ _ Hc).
  eexists _, _. split; [reflexivity|]. split.
  - eapply extends_trans; [done|]. apply extends_new.
  - simpl. apply lookup_insert_eq.
Qed.

Lemma filter_fmap {A B : Type} (P : B → Prop) `{!∀ x, Decision (P x)} (f : A → B) (l : list A) :
  filter P (f <$> l) = f <$> filter (P ∘ f) l.
Proof.
  induction l as [|x l IH]; [done|]. csimpl. rewrite !filter_cons. cbn [compose].
  case_decide; csimpl; by rewrite IH.
Qed.

Section marketing_table.
Context (ins : list DataFrame).
Context (Hins : Forall (λ f, marketing_frame f = true) ins).
Context (Hne : ins ≠ []).

Local Abbreviation c := (marketing_table ins).
Local Abbreviation mrows := (ins ≫= rows).

Lemma marketing_table_rows : rows c = (reindex (columns c) ∘ kpi_row) <$> mrows.
Proof.
  unfold marketing_table. cbn [rows columns]. rewrite list_fmap_compose. f_equal.
  clear. induction ins as [|f fs IH]; [done|].
  rewrite fmap_cons, !bind_cons, fmap_app, IH. done.
Qed.

Lemma marketing_frame_date (f : DataFrame) :
  marketing_frame f = true → "date" ∈ columns f ∧ "platform" ∈ columns f.
Proof.
  unfold marketing_frame. intros H. apply andb_true_iff in H as [H _].
  apply andb_true_iff in H as [H _]. by apply bool_decide_eq_true in H.
Qed.

Lemma marketing_frame_numeric (f : DataFrame) (m : string) :
  marketing_frame f = true → m ∈ MARKETING_COLUMNS →
  m ∈ columns f ∧ ∀ r, r ∈ rows f → is_num (cell r m) = true.
Proof.
  unfold marketing_frame. intros H Hm. apply andb_true_iff in H as [H _].
  apply andb_true_iff in H as [_ H]. apply (forallb_elem_of _ _ m) in H; [|done].
  apply andb_true_iff in H as [H1 H2]. apply bool_decide_eq_true in H1. split; [done|].
  intros r Hr. by apply (forallb_elem_of _ _ r) in H2.
Qed.

Lemma marketing_frame_keys (f : DataFrame) (r : Row) :
  marketing_frame f = true → r ∈ rows f →
  is_datetime (cell r "date") = true ∧ is_label (cell r "platform") = true.
Proof.
  unfold marketing_frame. intros H Hr. apply andb_true_iff in H as [_ H].
  apply (forallb_elem_of _ _ r) in H; [|done]. by apply andb_true_iff in H.
Qed.

Lemma marketing_table_columns (x : string) :
  x ∈ "date" :: "platform" :: METRICS → x ∈ columns c.
Proof.
  intros Hx. unfold marketing_table, union_columns. cbn [columns].
  apply elem_of_foldl_add_column. right. apply list_elem_of_bind.
  destruct ins as [|f fs]; [done|]. apply Forall_cons in Hins as [Hf _].
  exists (with_kpis f). split; [|set_solver].
  unfold with_kpis. cbn [columns]. apply elem_of_foldl_add_column.
  destruct (marketing_frame_date f Hf) as [Hd Hp].
  assert (x = "date" ∨ x = "platform" ∨ x ∈ MARKETING_COLUMNS ∨ x ∈ KPIS) as Hcases.
  { apply list_elem_of_In in Hx. simpl in Hx.
    repeat (destruct Hx as [<-|Hx]; [set_solver|]). done. }
  destruct Hcases as [->| [->| [Hm|Hk]]]; [by left|by left| |by right].
  left. by apply (marketing_frame_numeric f x Hf).
Qed.

Lemma mrows_typed (r : Row) :
  r ∈ mrows →
  is_datetime (cell r "date") = true ∧ is_label (cell r "platform") = true
  ∧ ∀ m, m ∈ MARKETING_COLUMNS → is_num (cell r m) = true.
Proof.
  intros (f & Hr & Hf)%list_elem_of_bind.
  assert (marketing_frame f = true) as Hm.
  { by apply (proj1 (Forall_forall _ _) Hins). }
  destruct (marketing_frame_keys f r Hm Hr) as [Hd Hp]. split; [done|]. split; [done|].
  intros m Hmc. by apply (marketing_frame_numeric f m Hm).
Qed.

Lemma cell_table_row (r : Row) (x : string) :
  x ∈ "date" :: "platform" :: METRICS →
  cell (reindex (columns c) (kpi_row r)) x = cell (kpi_row r) x.
Proof.
  intros Hx. rewrite cell_reindex, decide_True; [done|]. by apply marketing_table_columns.
Qed.

Lemma key_table_row (r : Row) : key (reindex (columns c) (kpi_row r)) = key r.
Proof.
  unfold key. rewrite !cell_table_row by set_solver.
  rewrite !cell_kpi_row by set_solver. done.
Qed.

Lemma is_num_metric (r : Row) (m : string) :
  r ∈ mrows → m ∈ METRICS → is_num (cell (kpi_row r) m) = true.
Proof.
  intros Hr Hm.
  assert (m ∈ MARKETING_COLUMNS ∨ m ∈ KPIS) as [H|H].
  { apply list_elem_of_In in Hm. simpl in Hm.
    repeat (destruct Hm as [<-|Hm]; [set_solver|]). done. }
  - rewrite cell_kpi_row.
    + by apply mrows_typed.
    + intros Hk. apply list_elem_of_In in H, Hk. simpl in H, Hk.
      repeat (destruct H as [<-|H]; [repeat (destruct Hk as [Hk|Hk]; [done|]); done|]). done.
  - by apply is_num_cell_kpi_row.
Qed.

Lemma marketing_table_groupable : groupable c = true.
Proof.
  unfold groupable. apply andb_true_iff. split.
  - apply bool_decide_eq_true, Forall_forall. apply marketing_table_columns.
  - apply forallb_forall. intros r' Hr'. apply list_elem_of_In in Hr'.
    rewrite marketing_table_rows in Hr'.
    apply list_elem_of_fmap in Hr' as (r & -> & Hr). cbn [compose].
    rewrite !cell_table_row by set_solver. rewrite !cell_kpi_row by set_solver.
    destruct (mrows_typed r Hr) as (-> & -> & _). rewrite !andb_true_l.
    apply forallb_forall. intros m Hm. apply list_elem_of_In in Hm.
    rewrite cell_table_row by (rewrite !elem_of_cons; auto). by apply is_num_metric.
Qed.

Lemma marketing_table_keys : omap key (rows c) = omap key mrows.
Proof.
  rewrite marketing_table_rows. apply list_omap_ext, Forall2_fmap_l, Forall_Forall2_diag.
  apply Forall_forall. intros r _. apply key_table_row.
Qed.

Lemma elem_of_group_keys (k : Z * string) :
  k ∈ group_keys c ↔ ∃ r, r ∈ mrows ∧ key r = Some k.
Proof.
  unfold group_keys. rewrite merge_sort_Permutation, elem_of_remove_dups.
  rewrite marketing_table_keys, list_elem_of_omap. done.
Qed.

Lemma NoDup_group_keys : NoDup (group_keys c).
Proof. unfold group_keys. rewrite merge_sort_Permutation. apply NoDup_remove_dups. Qed.

Lemma group_marketing_table (k : Z * string) :
  group c k = (reindex (columns c) ∘ kpi_row) <$> filter (λ r, key r = Some k) mrows.
Proof.
  unfold group. rewrite marketing_table_rows, filter_fmap.
  f_equal. apply list_filter_iff. intros r. cbn [compose]. by rewrite key_table_row.
Qed.

Lemma cell_agg_row (k : Z * string) (m : string) (how : Agg) :
  (m, how) ∈ AGG →
  cell (agg_row c k) m
  = Num (aggregate how ((λ r, num (kpi_row r) m) <$> filter (λ r, key r = Some k) mrows)).
Proof.
  intros Hm.
  assert (m ∈ METRICS) as Hmet.
  { apply list_elem_of_fmap. by exists (m, how). }
  assert ((λ r, num r m) <$> group c k
          = (λ r, num (kpi_row r) m) <$> filter (λ r, key r = Some k) mrows) as <-.
  { rewrite group_marketing_table, <- list_fmap_compose. apply list_fmap_ext.
    intros i r _. cbn [compose]. unfold num.
    rewrite cell_table_row by (rewrite !elem_of_cons; auto). done. }
  unfold agg_row, cell. generalize (group c k). intros g.
  apply list_elem_of_In in Hm. simpl in Hm.
  repeat (destruct Hm as [[= <- <-]|Hm]; [by simplify_map_eq|]). done.
Qed.

Lemma key_agg_row (k : Z * string) : key (agg_row c k) = Some k.
Proof. unfold key, agg_row, cell. simplify_map_eq. by destruct k. Qed.

End marketing_table.

Lemma filter_eq_NoDup {A : Type} `{!EqDecision A} (l : list A) (x : A) :
  NoDup l → filter (λ y, y = x) l = if decide (x ∈ l) then [x] else [].
Proof.
  induction 1 as [|y l Hy Hl IH]; [done|]. rewrite filter_cons, IH.
  destruct (decide (y = x)) as [->|Hne].
  - rewrite decide_False by done. rewrite decide_True by set_solver. done.
  - destruct (decide (x ∈ l)).
    + rewrite decide_True by set_solver. done.
    + rewrite decide_False by set_solver. done.
Qed.

Lemma zip_fmap_same {A B C : Type} (f : A → B) (g : A → C) (l : list A) :
  zip (f <$> l) (g <$> l) = (λ x, (f x, g x)) <$> l.
Proof. apply zip_with_fmap_same. Qed.

Lemma bind_singleton {A B : Type} (f : A → B) (g : A → list B) (l : list A) :
  (∀ x, x ∈ l → g x = [f x]) → l ≫= g = f <$> l.
Proof.
  induction l as [|x l IH]; intros H; [done|].
  rewrite bind_cons, fmap_cons, H, IH by set_solver. set_solver.
Qed.

Lemma elem_of_levels (platforms : list string) (m p : string) :
  (m, p) ∈ levels_of platforms ↔ m ∈ METRICS ∧ p ∈ platforms.
Proof.
  unfold levels_of. rewrite list_elem_of_bind. split.
  - intros (m' & (p' & [= -> ->]%list_elem_of_singleton & Hp)%list_elem_of_bind & Hm). done.
  - intros [Hm Hp]. exists m. split; [|done]. apply list_elem_of_bind. exists p.
    split; [|done]. by apply list_elem_of_singleton.
Qed.

Lemma cell_pivot_row_date (daily : DataFrame) (levels : list (string * string)) (d : Z) :
  cell (pivot_row daily levels d) "date" = Time d.
Proof. unfold cell, pivot_row. cbn [list_to_map foldr]. by rewrite lookup_insert_eq. Qed.

Lemma cell_pivot_row (daily : DataFrame) (platforms : list string) (d : Z) (m p : string) :
  m ∈ METRICS → p ∈ platforms →
  cell (pivot_row daily (levels_of platforms) d) (flat_name (m, p))
  = pivot_cell daily d (m, p).
Proof.
  intros Hm Hp. unfold cell, pivot_row. cbn [list_to_map foldr].
  rewrite lookup_insert_ne.
  2:{ intros Heq. pose proof (platform_column_flat_name m p Hm) as Hpc.
      rewrite <- Heq in Hpc. done. }
  rewrite (lookup_bindings flat_name (pivot_cell daily d) (levels_of platforms) (m, p)).
  - done.
  - by apply elem_of_levels.
  - intros [m' p'] [Hm' Hp']%elem_of_levels Heq.
    apply flat_name_inj in Heq as [-> ->]; [done|by apply metric_no_underscore..].
Qed.

Section pivot.
Context (ins : list DataFrame).
Context (Hins : Forall (λ f, marketing_frame f = true) ins).
Context (Hne : ins ≠ []).

Local Abbreviation c := (marketing_table ins).
Local Abbreviation mrows := (ins ≫= rows).
Local Abbreviation ks := (group_keys c).
Local Abbreviation daily :=
  {| columns := "date" :: "platform" :: METRICS; rows := agg_row c <$> ks |}.
Local Abbreviation platforms := (merge_sort String.le (remove_dups ks.*2)).
Local Abbreviation dates := (merge_sort Z.le (remove_dups ks.*1)).
Local Abbreviation levels := (levels_of platforms).
Local Abbreviation pivoted :=
  {| columns := "date" :: (flat_name <$> levels);
     rows := pivot_row daily levels <$> dates |}.

Lemma groupby_marketing_table : groupby_agg c = Some daily.
Proof. unfold groupby_agg. by rewrite (marketing_table_groupable ins Hins Hne). Qed.

Lemma daily_keys : key <$> rows daily = Some <$> ks.
Proof.
  cbn [rows]. rewrite <- list_fmap_compose. apply list_fmap_ext.
  intros i k _. apply key_agg_row.
Qed.

Lemma daily_omap_keys : omap key (rows daily) = ks.
Proof.
  cbn [rows]. generalize ks. intros l.
  induction l as [|k l IH]; [done|]. csimpl. rewrite key_agg_row. by rewrite IH.
Qed.

Lemma pivot_daily :
  pivot_platform daily
  = Some {| index := dates;
            header := levels;
            body := (λ d, pivot_cell daily d <$> levels) <$> dates |}.
Proof.
  unfold pivot_platform. rewrite bool_decide_eq_true_2.
  - rewrite daily_omap_keys. reflexivity.
  - split; [set_solver|]. split; [set_solver|]. split.
    + apply Forall_forall. intros r (k & -> & _)%list_elem_of_fmap.
      rewrite key_agg_row. by eexists.
    + rewrite daily_keys. apply NoDup_fmap_2; [apply _|]. apply NoDup_group_keys.
Qed.

Lemma reset_index_pivot :
  reset_index (set_columns {| index := dates; header := levels;
                              body := (λ d, pivot_cell daily d <$> levels) <$> dates |}
                 (flat_name <$> levels)) = pivoted.
Proof.
  unfold reset_index, set_columns. cbn [index header body]. f_equal.
  rewrite zip_with_fmap_right. apply list_fmap_ext. intros i d _.
  unfold pivot_row. by rewrite zip_fmap_same.
Qed.

Lemma elem_of_platforms (p : string) :
  p ∈ platforms ↔ ∃ r t, r ∈ mrows ∧ key r = Some (t, p).
Proof.
  rewrite merge_sort_Permutation, elem_of_remove_dups, list_elem_of_fmap.
  split.
  - intros ([t p'] & -> & Hk). apply (elem_of_group_keys ins Hins Hne) in Hk as (r & Hr & Hk).
    by exists r, t.
  - intros (r & t & Hr & Hk). exists (t, p). split; [done|].
    apply (elem_of_group_keys ins Hins Hne). by exists r.
Qed.

Lemma NoDup_platforms : NoDup platforms.
Proof. rewrite merge_sort_Permutation. apply NoDup_remove_dups. Qed.

Lemma NoDup_dates : NoDup dates.
Proof. rewrite merge_sort_Permutation. apply NoDup_remove_dups. Qed.

Lemma pivot_cell_daily (d : Z) (m p : string) (how : Agg) :
  (m, how) ∈ AGG → pivot_cell daily d (m, p) = daily_metric mrows d p m how.
Proof.
  intros Hm. unfold pivot_cell, daily_metric, group. cbn [fst snd].
  cbn [rows]. rewrite filter_fmap.
  rewrite (list_filter_iff _ (λ k, k = (d, p))).
  2:{ intros k. cbn [compose]. rewrite key_agg_row. naive_solver. }
  rewrite filter_eq_NoDup by apply NoDup_group_keys.
  destruct (decide ((d, p) ∈ ks)) as [Hin|Hnin].
  - cbn [fmap list_fmap]. rewrite (cell_agg_row ins Hins Hne _ _ how) by done.
    apply (elem_of_group_keys ins Hins Hne) in Hin as (r & Hr & Hk).
    destruct (filter _ mrows) as [|r0 g] eqn:Hf; [|done].
    exfalso. eapply (filter_nil_not_elem_of _ _ r); [exact Hf|done|done].
  - cbn [fmap list_fmap]. destruct (filter _ mrows) as [|r0 g] eqn:Hf; [done|].
    exfalso. apply Hnin. apply (elem_of_group_keys ins Hins Hne).
    assert (r0 ∈ filter (λ r, key r = Some (d, p)) mrows) as Hr0 by (rewrite Hf; set_solver).
    apply list_elem_of_filter in Hr0 as [Hk Hr0]. by exists r0.
Qed.

End pivot.

Lemma filter_all {A : Type} (P : A → Prop) `{!∀ x, Decision (P x)} (l : list A) :
  (∀ x, x ∈ l → P x) → filter P l = l.
Proof.
  induction l as [|x l IH]; intros Hall; [done|].
  rewrite filter_cons, decide_True by set_solver. rewrite IH by set_solver. done.
Qed.

Lemma filter_none {A : Type} (P : A → Prop) `{!∀ x, Decision (P x)} (l : list A) :
  (∀ x, x ∈ l → ¬ P x) → filter P l = [].
Proof.
  induction l as [|x l IH]; intros Hall; [done|].
  rewrite filter_cons, decide_False by set_solver. apply IH. set_solver.
Qed.

Lemma fmap_id_on {A : Type} (f : A → A) (l : list A) : (∀ x, f x = x) → f <$> l = l.
Proof. intros H. induction l as [|x l IH]; [done|]. csimpl. by rewrite H, IH. Qed.

Lemma cell_union (r1 r2 : Row) (x : string) :
  cell (r1 ∪ r2) x = match r1 !! x with Some v => v | None => cell r2 x end.
Proof.
  unfold cell. destruct (r1 !! x) as [v|] eqn:H1.
  - by rewrite (lookup_union_Some_l _ _ _ _ H1).
  - by rewrite lookup_union_r.
Qed.

Lemma lookup_reindex (cols : list string) (r : Row) (x : string) :
  reindex cols r !! x = if decide (x ∈ cols) then Some (cell r x) else None.
Proof.
  unfold reindex. case_decide as Hc.
  - rewrite (lookup_bindings (λ c, c) (λ c, cell r c) cols x); [done..|]. by intros y _ ->.
  - rewrite lookup_bindings_None; [done|]. intros y Hy ->. done.
Qed.

Section pipeline.
Context (ins : list DataFrame) (b : DataFrame).
Context (Hins : Forall (λ f, marketing_frame f = true) ins).
Context (Hne : ins ≠ []).
Context (Hb : business_frame b = true).

Local Abbreviation c := (marketing_table ins).
Local Abbreviation mrows := (ins ≫= rows).
Local Abbreviation ks := (group_keys c).
Local Abbreviation daily :=
  {| columns := "date" :: "platform" :: METRICS; rows := agg_row c <$> ks |}.
Local Abbreviation platforms := (merge_sort String.le (remove_dups ks.*2)).
Local Abbreviation dates := (merge_sort Z.le (remove_dups ks.*1)).
Local Abbreviation levels := (levels_of platforms).
Local Abbreviation bk := (with_business_kpis b).
Local Abbreviation pivoted :=
  {| columns := "date" :: (flat_name <$> levels);
     rows := pivot_row daily levels <$> dates |}.

Lemma business_frame_date : "date" ∈ columns b.
Proof.
  unfold business_frame in Hb. apply andb_true_iff in Hb as [H _].
  apply andb_true_iff in H as [H _]. apply andb_true_iff in H as [H _].
  by apply bool_decide_eq_true in H.
Qed.

Lemma business_frame_numeric : numeric_columns BUSINESS_INPUTS b = true.
Proof.
  unfold business_frame in Hb. apply andb_true_iff in Hb as [H _].
  apply andb_true_iff in H as [H _]. by apply andb_true_iff in H as [_ H].
Qed.

Lemma business_frame_datetime (r : Row) :
  r ∈ rows b → is_datetime (cell r "date") = true.
Proof.
  intros Hr. unfold business_frame in Hb. apply andb_true_iff in Hb as [H _].
  apply andb_true_iff in H as [_ H]. by apply (forallb_elem_of _ _ r) in H.
Qed.

Lemma business_columns_plain (x : string) : x ∈ columns bk → platform_column x = false.
Proof.
  unfold with_business_kpis. cbn [columns]. rewrite elem_of_foldl_add_column.
  intros [Hx|Hx].
  - unfold business_frame in Hb. apply andb_true_iff in Hb as [_ H].
    apply (forallb_elem_of _ _ x) in H; [|done]. by apply negb_true_iff in H.
  - apply list_elem_of_In in Hx. simpl in Hx.
    repeat (destruct Hx as [<-|Hx]; [reflexivity|]). done.
Qed.

Lemma level_not_business (lv : string * string) :
  lv ∈ levels → flat_name lv ∉ columns bk.
Proof.
  destruct lv as [m p]. intros [Hm Hp]%elem_of_levels Hin.
  apply business_columns_plain in Hin. by rewrite platform_column_flat_name in Hin.
Qed.

Lemma no_overlap (x : string) : overlaps bk pivoted x = false.
Proof.
  unfold overlaps. apply bool_decide_eq_false. intros (Hd & Hl & Hr).
  cbn [columns] in Hr. apply elem_of_cons in Hr as [->|Hr]; [done|].
  apply list_elem_of_fmap in Hr as (lv & -> & Hlv). by apply level_not_business in Hlv.
Qed.

Lemma merged_name_id (suffix x : string) : merged_name bk pivoted suffix x = x.
Proof. unfold merged_name. by rewrite no_overlap. Qed.

Lemma right_columns_pivoted : right_columns pivoted = flat_name <$> levels.
Proof.
  unfold right_columns. cbn [columns]. rewrite filter_cons, decide_False by naive_solver.
  apply filter_all. intros x (lv & -> & Hlv)%list_elem_of_fmap Heq.
  destruct lv as [m p]. apply elem_of_levels in Hlv as [Hm Hp].
  pose proof (platform_column_flat_name m p Hm) as H. by rewrite Heq in H.
Qed.

Lemma left_part_reindex (l : Row) : left_part bk pivoted l = reindex (columns bk) l.
Proof.
  unfold left_part, reindex. f_equal. apply list_fmap_ext. intros i x _.
  by rewrite merged_name_id.
Qed.

Lemma right_part_reindex (r : Row) :
  right_part bk pivoted r = reindex (flat_name <$> levels) r.
Proof.
  unfold right_part, reindex. rewrite right_columns_pivoted. f_equal.
  apply list_fmap_ext. intros i x _. by rewrite merged_name_id.
Qed.

Lemma matches_pivoted (l : Row) :
  matches pivoted l
  = match cell l "date" with
    | Time t => if decide (t ∈ dates) then [pivot_row daily levels t] else []
    | _ => []
    end.
Proof.
  unfold matches. cbn [rows]. rewrite filter_fmap.
  destruct (cell l "date") as [x|s|t|] eqn:Hd.
  - rewrite filter_none; [done|]. intros d _. cbn [compose].
    by rewrite cell_pivot_row_date.
  - rewrite filter_none; [done|]. intros d _. cbn [compose].
    by rewrite cell_pivot_row_date.
  - rewrite (list_filter_iff _ (λ d, d = t)).
    2:{ intros d. cbn [compose]. rewrite cell_pivot_row_date. cbn [same_date].
        rewrite bool_decide_eq_true. naive_solver. }
    rewrite filter_eq_NoDup by apply NoDup_dates. by case_decide.
  - rewrite filter_none; [done|]. intros d _. cbn [compose].
    by rewrite cell_pivot_row_date.
Qed.

Lemma merge_business_pivoted :
  merge_left bk pivoted
  = Some {| columns := columns bk ++ (flat_name <$> levels);
            rows := (λ l, reindex (columns bk) l ∪ reindex (flat_name <$> levels) (partner pivoted l))
                    <$> rows bk |}.
Proof.
  unfold merge_left.
  assert ("date" ∈ columns bk) as Hdate.
  { unfold with_business_kpis. cbn [columns]. apply elem_of_foldl_add_column. left.
    apply business_frame_date. }
  rewrite bool_decide_eq_true_2 by (split; [done|set_solver]).
  assert (forallb (λ r, is_datetime (cell r "date")) (rows bk) = true) as ->.
  { apply forallb_forall. intros r Hr. apply list_elem_of_In in Hr.
    unfold with_business_kpis in Hr. cbn [rows] in Hr.
    apply list_elem_of_fmap in Hr as (r0 & -> & Hr0).
    rewrite cell_business_kpi_row by set_solver. by apply business_frame_datetime. }
  assert (forallb (λ r, is_datetime (cell r "date")) (rows pivoted) = true) as ->.
  { apply forallb_forall. intros r Hr. apply list_elem_of_In in Hr. cbn [rows] in Hr.
    apply list_elem_of_fmap in Hr as (d & -> & _). by rewrite cell_pivot_row_date. }
  cbn [andb]. f_equal. f_equal.
  - rewrite right_columns_pivoted. f_equal; apply fmap_id_on, merged_name_id.
  - apply bind_singleton. intros l _. unfold partner. rewrite matches_pivoted.
    rewrite left_part_reindex. destruct (cell l "date") as [x|s|t|];
      [by rewrite right_part_reindex..| |by rewrite right_part_reindex].
    case_decide; csimpl; by rewrite right_part_reindex.
Qed.

Lemma cell_partner (l : Row) (m p : string) (how : Agg) :
  (m, how) ∈ AGG → p ∈ platforms →
  cell (partner pivoted l) (flat_name (m, p))
  = match cell l "date" with
    | Time t => daily_metric mrows t p m how
    | _ => NaN
    end.
Proof.
  intros Hm Hp.
  assert (m ∈ METRICS) as Hmet by (apply list_elem_of_fmap; by exists (m, how)).
  unfold partner. rewrite matches_pivoted.
  destruct (cell l "date") as [x|s|t|]; try apply cell_empty.
  case_decide as Ht.
  - rewrite cell_pivot_row by done. by apply (pivot_cell_daily ins Hins Hne).
  - rewrite cell_empty. unfold daily_metric.
    rewrite filter_none; [done|]. intros r Hr Hk. apply Ht.
    rewrite merge_sort_Permutation, elem_of_remove_dups, list_elem_of_fmap.
    exists (t, p). split; [done|]. apply (elem_of_group_keys ins Hins Hne). by exists r.
Qed.

(** The combined table, row by row. *)
Lemma combined_rows (merged : DataFrame) :
  merge_left bk pivoted = Some merged →
  columns (fillna0 merged) = columns bk ++ (flat_name <$> levels)
  ∧ Forall2 (combined_cells (columns bk) platforms mrows) (rows b) (rows (fillna0 merged)).
Proof.
  rewrite merge_business_pivoted. intros [= <-]. split; [done|].
  unfold fillna0. cbn [columns rows]. change (rows bk) with (business_kpi_row <$> rows b).
  rewrite <- !list_fmap_compose. apply Forall2_fmap_r, Forall_Forall2_diag, Forall_forall.
  intros b0 Hb0. cbn [compose]. split.
  - intros x Hx.
    rewrite (lookup_bindings (λ x, x) (λ x, fill0 (cell _ x)) _ x);
      [|set_solver|by intros y _ ->].
    rewrite cell_union, lookup_reindex, decide_True by done. done.
  - intros m how p Hm Hp.
    assert ((m, p) ∈ levels) as Hlv.
    { apply elem_of_levels. split; [|done]. apply list_elem_of_fmap. by exists (m, how). }
    rewrite (lookup_bindings (λ x, x) (λ x, fill0 (cell _ x)) _ (flat_name (m, p)));
      [| |by intros y _ ->].
    2:{ apply elem_of_app. right. apply list_elem_of_fmap. by exists (m, p). }
    rewrite cell_union, lookup_reindex.
    rewrite decide_False by (by apply level_not_business).
    rewrite cell_reindex, decide_True by (apply list_elem_of_fmap; by exists (m, p)).
    rewrite (cell_partner _ m p how) by done.
    rewrite cell_business_kpi_row by set_solver. done.
Qed.

End pipeline.

Lemma marketing_ready_frames (w : World) :
  marketing_ready w = true →
  Forall (λ kv, ∃ f, heap w !! kv.2 = Some f ∧ marketing_frame f = true)
    (marketing_dfs (self w)).
Proof.
  intros H. apply Forall_forall. intros kv Hkv.
  apply (forallb_elem_of _ _ kv) in H; [|done]. simpl in H.
  destruct (heap w !! kv.2) as [f|]; [|done]. by exists f.
Qed.

Lemma frames_of_ready (w : World) :
  marketing_ready w = true →
  Forall (λ f, marketing_frame f = true) (frames_of (heap w) (marketing_dfs (self w))).
Proof.
  intros H. apply Forall_forall. intros f Hf. unfold frames_of in Hf.
  apply list_elem_of_omap in Hf as (kv & Hkv & Hl).
  apply (forallb_elem_of _ _ kv) in H; [|done]. simpl in H. by rewrite Hl in H.
Qed.

(** [combine_data] on a loaded and cleaned processor. *)
Lemma combine_data_spec (w : World) (lb : loc) (b : DataFrame) :
  business_df (self w) = Some lb →
  heap w !! lb = Some b →
  business_frame b = true →
  marketing_dfs (self w) ≠ [] →
  marketing_ready w = true →
  ∃ l w' combined platforms,
    combine_data w = (Return l, w')
    ∧ heap w' !! l = Some combined
    ∧ combined_df (self w') = Some l
    ∧ NoDup platforms
    ∧ (∀ p, p ∈ platforms ↔ ∃ r t, r ∈ marketing_rows w ∧ key r = Some (t, p))
    ∧ columns combined
      = columns (with_business_kpis b) ++ (flat_name <$> levels_of platforms)
    ∧ Forall2 (combined_cells (columns (with_business_kpis b)) platforms (marketing_rows w))
        (rows b) (rows combined).
Proof.
  intros Hlb Hb Hbf Hne Hready.
  pose proof (marketing_ready_frames w Hready) as Hfr.
  pose proof (frames_of_ready w Hready) as Hins.
  destruct (calculate_marketing_kpis_spec w Hne Hfr) as (lm & w1 & Hm & [Hs1 Hh1] & Hlm).
  set (ins := frames_of (heap w) (marketing_dfs (self w))) in *.
  assert (ins ≠ []) as Hins_ne.
  { apply frames_of_nonempty; [done|]. eapply Forall_impl; [exact Hfr|].
    intros kv (f & Hf & _). by exists f. }
  assert (heap w1 !! lb = Some b) as Hb1 by (by eapply lookup_weaken).
  assert (business_df (self w1) = Some lb) as Hlb1 by (by rewrite Hs1).
  pose proof (calculate_business_kpis_spec w1 lb b Hlb1 Hb1
                (business_frame_numeric b Hbf)) as Hk.
  set (lk := fresh (dom (heap w1))) in *.
  assert (lm ≠ lk) as Hne_l.
  { intros ->. unfold lk in Hlm. by rewrite fresh_loc_unused in Hlm. }
  pose proof (merge_business_pivoted ins b Hins Hins_ne Hbf) as Hmerge.
  pose proof (combined_rows ins b Hins Hins_ne Hbf _ Hmerge) as [Hcols Hrows].
  unfold combine_data. rewrite bind_unfold, Hm. rewrite bind_unfold, Hk.
  rewrite (bind_deref _ (marketing_table ins))
    by (cbn [heap]; by rewrite lookup_insert_ne).
  rewrite (bind_lift _ _ _ _ (groupby_marketing_table ins Hins Hins_ne)).
  rewrite (bind_lift _ _ _ _ (pivot_daily ins Hins Hins_ne)).
  cbn [header]. rewrite (reset_index_pivot ins).
  rewrite (bind_deref _ (with_business_kpis b)) by (cbn [heap]; apply lookup_insert_eq).
  rewrite (bind_lift _ _ _ _ Hmerge).
  rewrite bind_new, bind_get_self, bind_set_self. cbn [mret Py_ret heap self].
  eexists _, _, _, _. split; [reflexivity|]. cbn [heap self with_combined_df combined_df].
  split; [apply lookup_insert_eq|]. split; [done|].
  split; [apply (NoDup_platforms ins)|]. split; [|split; [exact Hcols|exact Hrows]].
  intros p. apply (elem_of_platforms ins Hins Hins_ne).
Qed.

Lemma fill0_Num (y : float) :
  ∃ v, fill0 (Num y) = Num v ∧ PrimFloat.is_nan v = false.
Proof.
  unfold fill0. simpl. destruct (PrimFloat.is_nan y) eqn:E.
  - by exists F.zero.
  - by exists y.
Qed.

Lemma fill0_NaN : fill0 NaN = Num F.zero.
Proof. reflexivity. Qed.

Lemma fill0_Time (c : Cell) (t : Z) : fill0 c = Time t → c = Time t.
Proof. unfold fill0. destruct c as [x| | |]; simpl; try done. by destruct (PrimFloat.is_nan x). Qed.

Lemma timestamp_fill0 (c : Cell) : timestamp (fill0 c) = timestamp c.
Proof. unfold fill0. destruct c as [x| | |]; simpl; try done. by destruct (PrimFloat.is_nan x). Qed.

Lemma daily_metric_Num (mrows : list Row) (t : Z) (p m : string) (how : Agg) :
  ∃ y, daily_metric mrows t p m how = Num y.
Proof. unfold daily_metric. destruct (filter _ mrows); by eexists. Qed.

Lemma daily_metric_no_data (mrows : list Row) (t : Z) (p m : string) (how : Agg) :
  Forall (λ r, key r ≠ Some (t, p)) mrows → daily_metric mrows t p m how = NaN.
Proof.
  intros H. unfold daily_metric. rewrite filter_none; [done|].
  intros r Hr. by apply (proj1 (Forall_forall _ _) H).
Qed.

Lemma metric_has_agg (m : string) : m ∈ METRICS → ∃ how, (m, how) ∈ AGG.
Proof. intros ([m' how] & -> & H)%list_elem_of_fmap. by exists how. Qed.

Lemma filter_length_Forall2 {A B : Type} (R : A → B → Prop) (P : A → Prop) (Q : B → Prop)
    `{!∀ x, Decision (P x), !∀ y, Decision (Q y)} (l : list A) (k : list B) :
  Forall2 R l k → (∀ a b, R a b → (P a ↔ Q b)) →
  length (filter P l) = length (filter Q k).
Proof.
  intros HR Hiff. induction HR as [|a b l k Hab _ IH]; [done|].
  rewrite !filter_cons. destruct (decide (P a)) as [Hp|Hp].
  - rewrite decide_True by (by apply (Hiff a b)). simpl. by rewrite IH.
  - rewrite decide_False by (by rewrite <- (Hiff a b)). done.
Qed.

Lemma filter_key_once {A : Type} (f : A → option Z) (l : list A) (t : Z) :
  NoDup (omap f l) → (∃ x, x ∈ l ∧ f x = Some t) →
  length (filter (λ x, f x = Some t) l) = 1.
Proof.
  induction l as [|x l IH]; intros Hnd (y & Hy & Hf); [by apply elem_of_nil in Hy|].
  rewrite filter_cons. csimpl in Hnd. destruct (decide (f x = Some t)) as [Hx|Hx].
  - rewrite Hx in Hnd. csimpl in Hnd. apply NoDup_cons in Hnd as [Hnin _].
    rewrite filter_none; [done|]. intros z Hz Hfz. apply Hnin.
    apply list_elem_of_omap. by exists z.
  - apply IH.
    + destruct (f x); csimpl in Hnd; [by apply NoDup_cons in Hnd as [_ ?]|done].
    + apply elem_of_cons in Hy as [->|Hy]; [done|]. by exists y.
Qed.

Lemma flat_names_bind (platforms : list string) :
  flat_name <$> levels_of platforms = m ← METRICS; p ← platforms; [p +:+ "_" +:+ m].
Proof.
  unfold levels_of. generalize METRICS. intros ms.
  induction ms as [|m ms IH]; [done|]. rewrite !bind_cons, fmap_app, IH. f_equal.
  clear. induction platforms as [|p ps IH]; [done|]. rewrite !bind_cons, fmap_app, IH. done.
Qed.

Lemma columns_sum_closed (df : DataFrame) (cols : list string) :
  numeric_columns cols df = true →
  columns_sum df cols = Some (F.nansum (column_total df <$> cols)).
Proof.
  intros H. unfold columns_sum.
  assert (mapM (λ c, F.nansum <$> numeric df c) cols = Some (column_total df <$> cols)) as ->.
  { apply mapM_Some, Forall2_fmap_r, Forall_Forall2_diag, Forall_forall.
    intros x Hx. by rewrite (numeric_closed cols df x H Hx). }
  done.
Qed.

Lemma summary_stats_spec (pd : Pandas) (w : World) (l : loc) (df : DataFrame) (lo hi : Z) :
  combined_df (self w) = Some l →
  heap w !! l = Some df →
  numeric_columns (filter (λ c, endswith "_spend" c = true) (columns df)) df = true →
  numeric_columns (filter (λ c, endswith "_attributed revenue" c = true) (columns df)) df
    = true →
  numeric_columns ["total revenue"] df = true →
  date_bounds df = Some (lo, hi) →
  get_summary_stats pd w
  = (Return
       (list_to_map
          [("total_spend", Num (suffix_total df "_spend"));
           ("total_attributed_revenue", Num (suffix_total df "_attributed revenue"));
           ("total_business_revenue", Num (column_total df "total revenue"));
           ("overall_roas",
            Num (if F.pos (suffix_total df "_spend")
                 then (suffix_total df "_attributed revenue" / suffix_total df "_spend")%float
                 else F.zero));
           ("attribution_gap",
            Num (if F.pos (column_total df "total revenue")
                 then ((column_total df "total revenue"
                        - suffix_total df "_attributed revenue")
                       / column_total df "total revenue" * F.hundred)%float
                 else F.zero));
           ("date_range", Text (strftime pd lo +:+ " to " +:+ strftime pd hi))]), w).
Proof.
  intros Hc Hl Hs Ha Hr Hd. unfold get_summary_stats.
  rewrite bind_get_self, Hc, (bind_deref _ df) by done.
  rewrite (bind_lift _ _ _ _ (columns_sum_closed df _ Hs)).
  rewrite (bind_lift _ _ _ _ (columns_sum_closed df _ Ha)).
  rewrite (bind_lift _ (column_total df "total revenue")).
  2:{ by rewrite (numeric_closed _ df "total revenue" Hr) by set_solver. }
  rewrite (bind_lift _ _ _ _ Hd). reflexivity.
Qed.

(** ** Cleaning *)

Lemma frame_eta (f : DataFrame) : {| columns := columns f; rows := rows f |} = f.
Proof. by destruct f. Qed.

Lemma convert_column_spec (pd : Pandas) (l : loc) (col : string) (w : World) (f : DataFrame) :
  heap w !! l = Some f →
  convert_column pd l col w
  = (Return (),
     {| heap := <[l := {| columns := columns f;
                          rows := (λ r, convert_cell pd (columns f) r col) <$> rows f |}]>
                  (heap w);
        self := self w |}).
Proof.
  intros Hl. unfold convert_column. rewrite (bind_deref _ f) by done.
  unfold convert_cell. destruct (decide (col ∈ columns f)) as [Hin|Hnin].
  - unfold getitem. rewrite decide_True by done. cbn [lift mret Py_ret].
    rewrite bind_mret. unfold update, setitem, to_numeric_coerce, add_column.
    rewrite decide_True by done. do 4 f_equal.
    by rewrite <- list_fmap_compose, zip_with_fmap_right.
  - cbn [mret Py_ret]. rewrite list_fmap_id, frame_eta, insert_id by done.
    by destruct w.
Qed.

Lemma convert_columns_spec (pd : Pandas) (l : loc) (cols : list string) (w : World)
    (f : DataFrame) :
  heap w !! l = Some f →
  for_each cols (convert_column pd l) w
  = (Return (),
     {| heap := <[l := {| columns := columns f;
                          rows := (λ r, foldl (convert_cell pd (columns f)) r cols)
                                  <$> rows f |}]> (heap w);
        self := self w |}).
Proof.
  revert w f. induction cols as [|col cols IH]; intros w f Hl.
  - cbn [for_each foldl mret Py_ret]. rewrite list_fmap_id, frame_eta, insert_id by done.
    by destruct w.
  - cbn [for_each]. rewrite bind_unfold, (convert_column_spec pd l col w f Hl).
    rewrite (IH _ _ (lookup_insert_eq _ _ _)). cbn [heap self columns rows foldl].
    by rewrite insert_insert_eq, <- list_fmap_compose.
Qed.

Lemma lookup_convert_row (pd : Pandas) (present : list string) (r : Row) (col : string) :
  col ∈ MARKETING_COLUMNS → col ∈ present →
  convert_row pd present r !! col = Some (Num (default nan (parsed pd (cell r col)))).
Proof.
  intros Hc Hp. unfold convert_row, MARKETING_COLUMNS. cbn [foldl]. unfold convert_cell.
  apply list_elem_of_In in Hc. simpl in Hc.
  repeat (destruct Hc as [<-|Hc];
          [repeat case_decide; rewrite ?cell_insert; by simplify_map_eq|]).
  done.
Qed.

(** ** Loading *)

Lemma dict_get_set_eq {V : Type} (d : list (string * V)) (k : string) (v : V) :
  dict_get (dict_set d k v) k = Some v.
Proof.
  induction d as [|[k' v'] d IH]; simpl.
  - by rewrite decide_True.
  - destruct (decide (k' = k)) as [->|Hne]; simpl.
    + by rewrite decide_True.
    + by rewrite decide_False.
Qed.

Lemma dict_get_set_ne {V : Type} (d : list (string * V)) (k k' : string) (v : V) :
  k ≠ k' → dict_get (dict_set d k v) k' = dict_get d k'.
Proof.
  intros Hne. induction d as [|[k0 v0] d IH]; simpl.
  - by rewrite decide_False.
  - destruct (decide (k0 = k)) as [->|Hne0]; simpl.
    + by rewrite !decide_False.
    + by rewrite IH.
Qed.

Lemma elem_of_add_column_self (cols : list string) (c : string) : c ∈ add_column cols c.
Proof. apply elem_of_add_column. by right. Qed.

Lemma tagged_setitem_scalar (f : DataFrame) (platform : string) :
  tagged platform (setitem_scalar f "platform" (Text platform)).
Proof.
  split; [apply elem_of_add_column_self|]. cbn [rows].
  intros r (r0 & -> & _)%list_elem_of_fmap. apply lookup_insert_eq.
Qed.

Lemma load_platform_returns (pd : Pandas) (platform : string) (w w' : World) :
  load_platform pd platform w = (Return (), w') →
  ∃ f, read_csv pd (csv_path platform) = Some f
       ∧ w' = {| heap := <[fresh (dom (heap w)) := setitem_scalar f "platform" (Text platform)]>
                           (heap w);
                 self := with_marketing_dfs (self w)
                           (dict_set (marketing_dfs (self w)) platform
                              (fresh (dom (heap w)))) |}.
Proof.
  unfold load_platform. rewrite bind_assoc.
  destruct (read_csv pd (csv_path platform)) as [f|] eqn:Hf.
  - rewrite (bind_lift _ f) by done. rewrite bind_new.
    rewrite (bind_deref _ f) by (cbn; apply lookup_insert_eq).
    rewrite bind_update, bind_get_self. cbn [set_self heap self].
    rewrite insert_insert_eq. intros [= <-]. by exists f.
  - by rewrite bind_lift_raise.
Qed.

Lemma load_platform_establishes (pd : Pandas) (platform : string) (w w' : World) :
  load_platform pd platform w = (Return (), w') → holds_tagged w' platform.
Proof.
  intros (f & _ & ->)%load_platform_returns. eexists _, _. cbn [heap self marketing_dfs
    with_marketing_dfs]. split; [apply dict_get_set_eq|]. split; [apply lookup_insert_eq|].
  apply tagged_setitem_scalar.
Qed.

Lemma load_platform_preserves (pd : Pandas) (platform other : string) (w w' : World) :
  load_platform pd other w = (Return (), w') → other ≠ platform →
  holds_tagged w platform → holds_tagged w' platform.
Proof.
  intros (f & _ & ->)%load_platform_returns Hne (l & g & Hd & Hl & Ht).
  exists l, g. cbn [heap self marketing_dfs with_marketing_dfs].
  split; [by rewrite dict_get_set_ne|]. split; [|done].
  rewrite lookup_insert_ne; [done|]. intros <-. by rewrite fresh_loc_unused in Hl.
Qed.

Lemma for_each_load_preserves (pd : Pandas) (platform : string) (others : list string)
    (w w' : World) :
  for_each others (load_platform pd) w = (Return (), w') → platform ∉ others →
  holds_tagged w platform → holds_tagged w' platform.
Proof.
  revert w. induction others as [|q qs IH]; intros w Hrun Hnin Hw.
  - cbn in Hrun. by injection Hrun as <-.
  - cbn [for_each] in Hrun. rewrite bind_unfold in Hrun.
    destruct (load_platform pd q w) as [[[]|] w1] eqn:Hq; [|done].
    apply (IH w1); [done|set_solver|].
    eapply load_platform_preserves; [exact Hq|set_solver|done].
Qed.

Lemma for_each_load_establishes (pd : Pandas) (platforms : list string) (w w' : World) :
  NoDup platforms →
  for_each platforms (load_platform pd) w = (Return (), w') →
  ∀ platform, platform ∈ platforms → holds_tagged w' platform.
Proof.
  intros Hnd. revert w. induction Hnd as [|q qs Hq Hnd IH]; intros w Hrun p Hp.
  - by apply elem_of_nil in Hp.
  - cbn [for_each] in Hrun. rewrite bind_unfold in Hrun.
    destruct (load_platform pd q w) as [[[]|] w1] eqn:Hstep; [|done].
    apply elem_of_cons in Hp as [->|Hp].
    + eapply for_each_load_preserves; [exact Hrun|done|].
      by eapply load_platform_establishes.
    + by eapply IH.
Qed.

(** ** The KPI columns *)

Lemma round2_zero : F.round2 F.zero = F.zero.
Proof. reflexivity. Qed.

Lemma fillna0_number (x : float) : PrimFloat.is_nan x = false → F.fillna0 x = x.
Proof. unfold F.fillna0. by intros ->. Qed.

Lemma fillna0_missing (x : float) : PrimFloat.is_nan x = true → F.fillna0 x = F.zero.
Proof. unfold F.fillna0. by intros ->. Qed.

(** ** Sample facts *)

Lemma NoDup_sample_dates :
  NoDup (omap (λ r, timestamp (cell r "date")) (rows Sample.business)).
Proof.
  assert (omap (λ r, timestamp (cell r "date")) (rows Sample.business) = [3; 1; 2; 4]%Z) as ->
    by (vm_compute; reflexivity).
  apply NoDup_ListNoDup. repeat constructor; simpl; intuition discriminate.
Qed.

(** * The claims *)

(** Claim C1 (the code departs from it): a derived KPI is meant to be 0
    whenever its denominator is 0 and never infinite.  [fillna(0)]
    replaces NaN only, so a non-zero numerator over a zero denominator
    stays infinite: a Facebook row with spend 10 and no click gets an
    infinite [cpc], a business day with revenue 50 and no order an
    infinite [aov], and the infinite value reaches the combined table. *)
Theorem kpi_infinite_on_zero_denominator :
  getitem Sample.facebook "clicks" = Some [Num 0; Num 1]
  ∧ column_of_result (_calculate_platform_kpis 1) Sample.world "cpc"
    = Some [Num infinity; Num 1]
  ∧ getitem Sample.business "# of orders" = Some [Num 10; Num 0; Num 4; Num 2]
  ∧ column_of_result (calculate_business_kpis ≫= lift) Sample.world "aov"
    = Some [Num 10; Num infinity; Num 0; Num 10]
  ∧ column_of_result combine_data Sample.world "Facebook_cpc"
    = Some [Num 0; Num infinity; Num 1; Num 0].
Proof. repeat split; vm_compute; reflexivity. Qed.

(** Claim C2 as stated fails: with a business table loaded and no
    platform table, [pd.concat] has nothing to concatenate and
    [combine_data] raises instead of returning a table. *)
Lemma combine_data_raises_without_platform_tables :
  business_df (self Sample.world_no_platform) = Some 0
  ∧ heap Sample.world_no_platform !! 0 = Some Sample.business
  ∧ marketing_dfs (self Sample.world_no_platform) = []
  ∧ (combine_data Sample.world_no_platform).1 = Raise.
Proof. repeat split; vm_compute; reflexivity. Qed.

(** Claim C2, amended: for every cleaned business table with one row
    per date and every non-empty collection of cleaned per-platform
    tables, [combine_data] returns a table with as many rows as the
    business table, in which every date of the business table appears
    exactly once, and in which every platform column holds a number that
    is not NaN, namely 0 on a date for which the platform has no
    marketing row. *)
Theorem combine_data_one_row_per_business_date (w : World) (lb : loc) (b : DataFrame) :
  business_df (self w) = Some lb →
  heap w !! lb = Some b →
  business_frame b = true →
  marketing_dfs (self w) ≠ [] →
  marketing_ready w = true →
  NoDup (omap (λ r, timestamp (cell r "date")) (rows b)) →
  ∃ l combined,
    (combine_data w).1 = Return l
    ∧ heap (combine_data w).2 !! l = Some combined
    ∧ length (rows combined) = length (rows b)
    ∧ (∀ t, (∃ r, r ∈ rows b ∧ cell r "date" = Time t) → count_date t combined = 1)
    ∧ (∀ r x, r ∈ rows combined → x ∈ columns combined → platform_column x = true →
         ∃ v, r !! x = Some (Num v) ∧ PrimFloat.is_nan v = false)
    ∧ (∀ r t p m, r ∈ rows combined → cell r "date" = Time t →
         m ∈ METRICS → p +:+ "_" +:+ m ∈ columns combined →
         Forall (λ r0, key r0 ≠ Some (t, p)) (marketing_rows w) →
         r !! (p +:+ "_" +:+ m) = Some (Num F.zero)).
Proof.
  intros Hlb Hb Hbf Hne Hready Hnd.
  destruct (combine_data_spec w lb b Hlb Hb Hbf Hne Hready)
    as (l & w' & combined & platforms & Hrun & Hl & _ & _ & Hplat & Hcols & Hrows).
  exists l, combined. rewrite Hrun. cbn [fst snd].
  assert ("date" ∈ columns (with_business_kpis b)) as Hdate.
  { unfold with_business_kpis. cbn [columns]. apply elem_of_foldl_add_column. left.
    by apply business_frame_date. }
  assert (∀ b0 r, combined_cells (columns (with_business_kpis b)) platforms
                    (marketing_rows w) b0 r → cell r "date" = fill0 (cell b0 "date")) as Hd.
  { intros b0 r [Hbus _]. unfold cell at 1. rewrite (Hbus "date" Hdate). simpl.
    by rewrite cell_business_kpi_row by set_solver. }
  assert (∀ x, x ∈ columns combined → platform_column x = true →
               ∃ m p, x = flat_name (m, p) ∧ m ∈ METRICS ∧ p ∈ platforms) as Hpc.
  { intros x Hx Hp. rewrite Hcols in Hx. apply elem_of_app in Hx as [Hx|Hx].
    - apply (business_columns_plain b Hbf) in Hx. congruence.
    - apply list_elem_of_fmap in Hx as ([m p] & -> & [Hm Hp']%elem_of_levels).
      by exists m, p. }
  split; [done|]. split; [done|]. split; [|split; [|split]].
  - symmetry. by eapply Forall2_length.
  - intros t Ht. unfold count_date.
    rewrite <- (filter_length_Forall2 _ (λ r, timestamp (cell r "date") = Some t) _ _ _ Hrows).
    + apply (filter_key_once (λ r, timestamp (cell r "date"))); [done|].
      destruct Ht as (r & Hr & Hc). exists r. by rewrite Hc.
    + intros b0 r Hc. by rewrite (Hd b0 r Hc), timestamp_fill0.
  - intros r x Hr Hx Hp. destruct (Hpc x Hx Hp) as (m & p & -> & Hm & Hp').
    apply list_elem_of_lookup in Hr as [i Hi].
    destruct (Forall2_lookup_r _ _ _ _ _ Hrows Hi) as (b0 & _ & [_ Hplatc]).
    destruct (metric_has_agg m Hm) as [how Hhow].
    rewrite (Hplatc m how p Hhow Hp').
    destruct (cell b0 "date") as [y|s|t|]; try (eexists; split; [rewrite fill0_NaN|]; done).
    destruct (daily_metric_Num (marketing_rows w) t p m how) as [y ->].
    destruct (fill0_Num y) as (v & -> & Hv). by exists v.
  - intros r t p m Hr Hdt Hm Hx Hnone.
    destruct (Hpc (flat_name (m, p)) Hx (platform_column_flat_name m p Hm))
      as (m' & p' & Heq & Hm' & Hp').
    apply flat_name_inj in Heq as [<- <-]; [|by apply metric_no_underscore..].
    apply list_elem_of_lookup in Hr as [i Hi].
    destruct (Forall2_lookup_r _ _ _ _ _ Hrows Hi) as (b0 & _ & Hc).
    pose proof (Hd b0 r Hc) as Hdate'. rewrite Hdt in Hdate'. symmetry in Hdate'.
    apply fill0_Time in Hdate'. destruct Hc as [_ Hplatc].
    destruct (metric_has_agg m Hm) as [how Hhow].
    change (p +:+ "_" +:+ m) with (flat_name (m, p)).
    rewrite (Hplatc m how p Hhow Hp'), Hdate', daily_metric_no_data by done. done.
Qed.

(** The amended C2 on the sample tables. *)
Lemma combine_data_one_row_per_business_date_witness :
  ∃ l combined,
    (combine_data Sample.world).1 = Return l
    ∧ heap (combine_data Sample.world).2 !! l = Some combined
    ∧ length (rows combined) = 4
    ∧ count_date 2 combined = 1.
Proof.
  destruct (combine_data_one_row_per_business_date Sample.world 0 Sample.business)
    as (l & combined & Hrun & Hl & Hlen & Hcount & _);
    [vm_compute; reflexivity.. | discriminate | vm_compute; reflexivity
     | apply NoDup_sample_dates |].
  exists l, combined. split; [exact Hrun|]. split; [exact Hl|]. split; [exact Hlen|].
  apply Hcount. exists (Sample.business_row 2 4 1 1 0 0). split.
  - unfold Sample.business. cbn [rows]. rewrite !elem_of_cons. auto.
  - vm_compute. reflexivity.
Defined.

(** Claim C3 as stated fails: the KPI is rounded to two decimals, so 1
    click on 3 impressions gives a [ctr] of 33.33 and not 1/3*100; and a
    missing click count gives 0, not the missing ratio. *)
Lemma kpi_is_not_the_plain_ratio :
  (getitem Sample.facebook "impression" = Some [Num 1000; Num 3]
   ∧ getitem Sample.facebook "clicks" = Some [Num 0; Num 1]
   ∧ column_of_result (_calculate_platform_kpis 1) Sample.world "ctr"
     = Some [Num 0; Num (3333 / 100)]
   ∧ Num (3333 / 100) ≠ Num (1 / 3 * 100))
  ∧ (getitem Sample.facebook_gap "impression" = Some [Num 10]
     ∧ getitem Sample.facebook_gap "clicks" = Some [NaN]
     ∧ column_of_result (_calculate_platform_kpis 1) Sample.world_gap "ctr" = Some [Num 0]
     ∧ Num 0 ≠ Num (nan / 10 * 100)).
Proof.
  split; repeat split; try (vm_compute; reflexivity).
  - intros H.
    apply (f_equal (λ c, match c with
                         | Num x => PrimFloat.eqb (3333 / 100) x
                         | _ => false
                         end)) in H.
    vm_compute in H. discriminate.
  - intros H. apply (f_equal isna) in H. vm_compute in H. discriminate.
Qed.

(** Claim C3, amended: for every marketing row of a numeric table, each
    KPI is its ratio rounded to two decimals whenever the denominator is
    positive and the ratio is a number: ctr = round(clicks / impression *
    100, 2), cpc = round(spend / clicks, 2), cpm = round(spend /
    (impression / 1000), 2), roas = round(attributed revenue / spend, 2);
    and roas is 0 when its ratio is NaN (0/0 or a missing operand). *)
Theorem platform_kpis_are_rounded_ratios (w : World) (l : loc) (f : DataFrame)
    (i : nat) (r : Row) :
  heap w !! l = Some f →
  numeric_columns MARKETING_COLUMNS f = true →
  rows f !! i = Some r →
  let clicks := num r "clicks" in
  let impression := num r "impression" in
  let spend := num r "spend" in
  let revenue := num r "attributed revenue" in
  ∃ l' f' r',
    (_calculate_platform_kpis l w).1 = Return l'
    ∧ heap (_calculate_platform_kpis l w).2 !! l' = Some f'
    ∧ rows f' !! i = Some r'
    ∧ (F.pos impression = true →
       PrimFloat.is_nan (clicks / impression * F.hundred) = false →
       r' !! "ctr" = Some (Num (F.round2 (clicks / impression * F.hundred))))
    ∧ (F.pos clicks = true →
       PrimFloat.is_nan (spend / clicks) = false →
       r' !! "cpc" = Some (Num (F.round2 (spend / clicks))))
    ∧ (F.pos impression = true →
       PrimFloat.is_nan (spend / (impression / F.thousand)) = false →
       r' !! "cpm" = Some (Num (F.round2 (spend / (impression / F.thousand)))))
    ∧ (F.pos spend = true →
       PrimFloat.is_nan (revenue / spend) = false →
       r' !! "roas" = Some (Num (F.round2 (revenue / spend))))
    ∧ (PrimFloat.is_nan (revenue / spend) = true → r' !! "roas" = Some (Num F.zero)).
Proof.
  intros Hl Hnum Hr clicks impression spend revenue.
  rewrite (calculate_platform_kpis_spec w l f Hl Hnum). cbn [fst snd heap].
  eexists _, _, (kpi_row r). split; [done|]. split; [apply lookup_insert_eq|].
  cbn [with_kpis rows]. split; [by rewrite list_lookup_fmap, Hr|].
  unfold kpi_row, kpi. fold clicks impression spend revenue.
  repeat split.
  - intros _ Hn. rewrite (fillna0_number (clicks / impression * F.hundred)) by done.
    by simplify_map_eq.
  - intros _ Hn. rewrite (fillna0_number (spend / clicks)) by done. by simplify_map_eq.
  - intros _ Hn. rewrite (fillna0_number (spend / _)) by done. by simplify_map_eq.
  - intros _ Hn. rewrite (fillna0_number (revenue / spend)) by done. by simplify_map_eq.
  - intros Hn. rewrite (fillna0_missing (revenue / spend)) by done.
    rewrite round2_zero. by simplify_map_eq.
Qed.

(** The amended C3 on the second Facebook row of the sample. *)
Lemma platform_kpis_are_rounded_ratios_witness :
  ∃ l' f' r',
    (_calculate_platform_kpis 1 Sample.world).1 = Return l'
    ∧ heap (_calculate_platform_kpis 1 Sample.world).2 !! l' = Some f'
    ∧ rows f' !! 1 = Some r'
    ∧ r' !! "ctr" = Some (Num (F.round2 (1 / 3 * 100)))
    ∧ r' !! "roas" = Some (Num (F.round2 (7 / 1))).
Proof.
  destruct (platform_kpis_are_rounded_ratios Sample.world 1 Sample.facebook 1
              (Sample.marketing_row 2 "Facebook" 3 1 1 7))
    as (l' & f' & r' & Hrun & Hf' & Hr' & Hctr & _ & _ & Hroas & _);
    [vm_compute; reflexivity..|].
  exists l', f', r'. split; [exact Hrun|]. split; [exact Hf'|]. split; [exact Hr'|]. split.
  - rewrite Hctr; [|vm_compute; reflexivity..]. vm_compute. reflexivity.
  - rewrite Hroas; [|vm_compute; reflexivity..]. vm_compute. reflexivity.
Defined.

(** Claim C4 as stated fails: on a combined table without rows, which
    [combine_data] produces from a business file that holds its header
    only, the date range has no timestamp to format and
    [get_summary_stats] raises. *)
Lemma summary_stats_raises_on_empty_table :
  (combine_data Sample.world_no_business_rows).1 = Return 9
  ∧ combined_df (self (combine_data Sample.world_no_business_rows).2) = Some 9
  ∧ rows <$> heap (combine_data Sample.world_no_business_rows).2 !! 9 = Some []
  ∧ (get_summary_stats Sample.pandas (combine_data Sample.world_no_business_rows).2).1
    = Raise.
Proof. repeat split; vm_compute; reflexivity. Qed.

(** Claim C4, amended: for every combined table that has a date range
    (at least one row, dates held as timestamps) and numeric spend,
    attributed-revenue and total-revenue columns, [get_summary_stats]
    returns a dict whose [attribution_gap] is (total business revenue -
    total attributed revenue) / total business revenue * 100 when the
    total business revenue is positive and 0 when it is 0, and whose
    [overall_roas] is total attributed revenue / total spend when the
    total spend is positive and 0 when it is 0. *)
Theorem summary_stats_formulas (pd : Pandas) (w : World) (l : loc) (df : DataFrame)
    (lo hi : Z) :
  combined_df (self w) = Some l →
  heap w !! l = Some df →
  numeric_columns (filter (λ c, endswith "_spend" c = true) (columns df)) df = true →
  numeric_columns (filter (λ c, endswith "_attributed revenue" c = true) (columns df)) df
    = true →
  numeric_columns ["total revenue"] df = true →
  date_bounds df = Some (lo, hi) →
  let spend := suffix_total df "_spend" in
  let attributed := suffix_total df "_attributed revenue" in
  let revenue := column_total df "total revenue" in
  ∃ d, get_summary_stats pd w = (Return d, w)
    ∧ (F.pos revenue = true →
       d !! "attribution_gap" = Some (Num ((revenue - attributed) / revenue * F.hundred)%float))
    ∧ (revenue = F.zero → d !! "attribution_gap" = Some (Num F.zero))
    ∧ (F.pos spend = true → d !! "overall_roas" = Some (Num (attributed / spend)%float))
    ∧ (spend = F.zero → d !! "overall_roas" = Some (Num F.zero)).
Proof.
  intros Hc Hl Hs Ha Hr Hd spend attributed revenue.
  eexists. split; [by apply (summary_stats_spec pd w l df lo hi)|].
  fold spend attributed revenue. repeat split.
  - intros ->. by simplify_map_eq.
  - intros ->. by simplify_map_eq.
  - intros ->. by simplify_map_eq.
  - intros ->. by simplify_map_eq.
Qed.

(** The amended C4 on the combined table of the sample. *)
Lemma summary_stats_formulas_witness :
  ∃ d, get_summary_stats Sample.pandas (combine_data Sample.world).2
       = (Return d, (combine_data Sample.world).2)
    ∧ d !! "overall_roas" = Some (Num (72 / 41)%float).
Proof.
  destruct (summary_stats_formulas Sample.pandas (combine_data Sample.world).2 9
              (default {| columns := []; rows := [] |} (heap (combine_data Sample.world).2 !! 9))
              1 4) as (d & Hd & _ & _ & Hroas & _);
    [vm_compute; reflexivity..|].
  exists d. split; [exact Hd|]. rewrite Hroas; vm_compute; reflexivity.
Defined.

(** Claim C5: in the table that [combine_data] returns, the columns
    after the business columns are named platform, underscore, metric
    (the metrics in the order of the aggregation, the platforms of the
    marketing rows under each), no business column has such a name, and
    the column [P_m] holds platform P's aggregate of metric m for the
    row's date. *)
Theorem combined_columns_prefixed_by_platform (w : World) (lb : loc) (b : DataFrame) :
  business_df (self w) = Some lb →
  heap w !! lb = Some b →
  business_frame b = true →
  marketing_dfs (self w) ≠ [] →
  marketing_ready w = true →
  ∃ l combined platforms,
    (combine_data w).1 = Return l
    ∧ heap (combine_data w).2 !! l = Some combined
    ∧ columns combined
      = columns (with_business_kpis b) ++ (m ← METRICS; p ← platforms; [p +:+ "_" +:+ m])
    ∧ (∀ x, x ∈ columns (with_business_kpis b) → platform_column x = false)
    ∧ (∀ p, p ∈ platforms ↔ ∃ r t, r ∈ marketing_rows w ∧ key r = Some (t, p))
    ∧ (∀ i b0 r t p m how,
         rows b !! i = Some b0 → rows combined !! i = Some r →
         cell b0 "date" = Time t → p ∈ platforms → (m, how) ∈ AGG →
         r !! (p +:+ "_" +:+ m) = Some (fill0 (daily_metric (marketing_rows w) t p m how))).
Proof.
  intros Hlb Hb Hbf Hne Hready.
  destruct (combine_data_spec w lb b Hlb Hb Hbf Hne Hready)
    as (l & w' & combined & platforms & Hrun & Hl & _ & _ & Hplat & Hcols & Hrows).
  exists l, combined, platforms. rewrite Hrun. cbn [fst snd].
  split; [done|]. split; [done|]. split; [by rewrite Hcols, flat_names_bind|].
  split; [apply (business_columns_plain b Hbf)|]. split; [done|].
  intros i b0 r t p m how Hb0 Hr Ht Hp Hm.
  destruct (Forall2_lookup_l _ _ _ _ _ Hrows Hb0) as (r' & Hr' & [_ Hc]).
  assert (r' = r) as -> by congruence.
  change (p +:+ "_" +:+ m) with (flat_name (m, p)).
  by rewrite (Hc m how p Hm Hp), Ht.
Qed.

(** C5 on the sample tables. *)
Lemma combined_columns_prefixed_by_platform_witness :
  ∃ l combined platforms,
    (combine_data Sample.world).1 = Return l
    ∧ heap (combine_data Sample.world).2 !! l = Some combined
    ∧ columns combined
      = columns (with_business_kpis Sample.business)
        ++ (m ← METRICS; p ← platforms; [p +:+ "_" +:+ m]).
Proof.
  destruct (combined_columns_prefixed_by_platform Sample.world 0 Sample.business)
    as (l & combined & platforms & Hrun & Hl & Hcols & _);
    [vm_compute; reflexivity.. | discriminate | vm_compute; reflexivity |].
  exists l, combined, platforms. split; [exact Hrun|]. split; [exact Hl|]. exact Hcols.
Defined.

(** Claim C6: [_convert_numeric_columns] never raises, and afterwards
    every cell of a column of MARKETING_COLUMNS that the table has is a
    number: NaN when the cell could not be parsed as a number, the parsed
    number otherwise; no text is kept. *)
Theorem unparseable_numbers_become_missing (pd : Pandas) (w : World) (l : loc)
    (f : DataFrame) (col : string) (i : nat) (r : Row) :
  heap w !! l = Some f →
  col ∈ MARKETING_COLUMNS →
  col ∈ columns f →
  rows f !! i = Some r →
  ∃ f' r',
    _convert_numeric_columns pd l w
    = (Return (), {| heap := <[l := f']> (heap w); self := self w |})
    ∧ columns f' = columns f
    ∧ rows f' !! i = Some r'
    ∧ (∃ x, r' !! col = Some (Num x))
    ∧ (parsed pd (cell r col) = None → r' !! col = Some NaN)
    ∧ (∀ x, parsed pd (cell r col) = Some x → r' !! col = Some (Num x)).
Proof.
  intros Hl Hc Hp Hr. eexists _, (convert_row pd (columns f) r).
  split; [apply (convert_columns_spec pd l MARKETING_COLUMNS w f Hl)|].
  cbn [columns rows]. split; [done|]. split.
  { rewrite list_lookup_fmap, Hr. done. }
  rewrite (lookup_convert_row pd (columns f) r col Hc Hp).
  split; [by eexists|]. split.
  - by intros ->.
  - by intros x ->.
Qed.

(** C6 on a raw table whose click count is the text n/a. *)
Lemma unparseable_numbers_become_missing_witness :
  ∃ f' r',
    _convert_numeric_columns Sample.pandas 0 Sample.raw_world
    = (Return (), {| heap := <[0 := f']> (heap Sample.raw_world);
                     self := self Sample.raw_world |})
    ∧ rows f' !! 0 = Some r'
    ∧ r' !! "clicks" = Some NaN.
Proof.
  destruct (unparseable_numbers_become_missing Sample.pandas Sample.raw_world 0
              Sample.raw_marketing "clicks" 0
              (default ∅ (rows Sample.raw_marketing !! 0)))
    as (f' & r' & Hrun & _ & Hr' & _ & Hnone & _);
    [vm_compute; reflexivity | set_solver | set_solver | reflexivity |].
  exists f', r'. split; [exact Hrun|]. split; [exact Hr'|].
  apply Hnone. vm_compute. reflexivity.
Defined.

(** Claim C7: after a [load_data] that succeeded (it returned a
    non-empty dict), the processor holds for each platform of PLATFORMS
    a table with a [platform] column, and every row of that table has the
    platform's name in it. *)
Theorem load_data_tags_platform_rows (pd : Pandas) (w : World) (d : list (string * loc))
    (platform : string) :
  (load_data pd w).1 = Return d →
  d ≠ [] →
  platform ∈ PLATFORMS →
  ∃ l f,
    dict_get (marketing_dfs (self (load_data pd w).2)) platform = Some l
    ∧ heap (load_data pd w).2 !! l = Some f
    ∧ "platform" ∈ columns f
    ∧ ∀ r, r ∈ rows f → r !! "platform" = Some (Text platform).
Proof.
  unfold load_data, try_except. intros Hrun Hd Hp.
  destruct (load_data_body pd w) as [[d'|] w'] eqn:Hbody.
  2:{ cbn in Hrun. by injection Hrun as <-. }
  cbn [snd]. unfold load_data_body in Hbody. rewrite bind_assoc in Hbody.
  destruct (read_csv pd (csv_path "business")) as [fb|].
  2:{ by rewrite bind_lift_raise in Hbody. }
  rewrite (bind_lift _ fb), bind_new in Hbody by done.
  rewrite bind_get_self, bind_set_self, bind_unfold in Hbody.
  match type of Hbody with
  | context [for_each PLATFORMS (load_platform pd) ?w0] =>
      destruct (for_each PLATFORMS (load_platform pd) w0) as [[[]|] w1] eqn:Hloop
  end; [|done].
  rewrite bind_get_self in Hbody. cbn [mret Py_ret] in Hbody. injection Hbody as _ <-.
  eapply for_each_load_establishes in Hloop as (l & f & Hl & Hf & Htag & Hrows); [|..|exact Hp].
  - by exists l, f.
  - unfold PLATFORMS. by apply NoDup_ListNoDup; repeat constructor; simpl; intuition discriminate.
Qed.

(** C7 on a file system that has the four files. *)
Lemma load_data_tags_platform_rows_witness :
  (load_data Sample.pandas Sample.fresh_world).1
  = Return [("business", 0); ("Facebook", 1); ("Google", 2); ("TikTok", 3)]
  ∧ ∃ l f,
      dict_get (marketing_dfs (self (load_data Sample.pandas Sample.fresh_world).2)) "Google"
      = Some l
      ∧ heap (load_data Sample.pandas Sample.fresh_world).2 !! l = Some f
      ∧ "platform" ∈ columns f
      ∧ ∀ r, r ∈ rows f → r !! "platform" = Some (Text "Google").
Proof.
  split; [vm_compute; reflexivity|].
  apply (load_data_tags_platform_rows Sample.pandas Sample.fresh_world
           [("business", 0); ("Facebook", 1); ("Google", 2); ("TikTok", 3)] "Google").
  - vm_compute. reflexivity.
  - discriminate.
  - unfold PLATFORMS. rewrite !elem_of_cons. auto.
Defined.

(** Claim C8: when [combined_df] is None, [get_summary_stats] returns
    the empty dict, raises nothing and changes nothing. *)
Theorem get_summary_stats_before_combine (pd : Pandas) (w : World) :
  combined_df (self w) = None → get_summary_stats pd w = (Return ∅, w).
Proof.
  intros H. unfold get_summary_stats. rewrite bind_get_self, H. reflexivity.
Qed.

(** C8 on a processor as [__init__] leaves it. *)
Lemma get_summary_stats_before_combine_witness :
  combined_df (self Sample.fresh_world) = None
  ∧ get_summary_stats Sample.pandas Sample.fresh_world = (Return ∅, Sample.fresh_world).
Proof.
  split; [reflexivity|].
  apply (get_summary_stats_before_combine Sample.pandas Sample.fresh_world). reflexivity.
Defined.

(** Claim C9: [calculate_marketing_kpis], whether it returns or raises,
    leaves the dict [marketing_dfs] as it was and every table that the
    dict refers to identical: the KPI columns go to copies. *)
Theorem calculate_marketing_kpis_keeps_stored_tables
    (w : World) (platform : string) (l : loc) (df : DataFrame) :
  (platform, l) ∈ marketing_dfs (self w) →
  heap w !! l = Some df →
  marketing_dfs (self (calculate_marketing_kpis w).2) = marketing_dfs (self w)
  ∧ heap (calculate_marketing_kpis w).2 !! l = Some df.
Proof.
  intros _ Hl. destruct (calculate_marketing_kpis_extends w) as [Hs Hh]. split.
  - by rewrite Hs.
  - by eapply map_subseteq_spec.
Qed.

(** C9 on the Google table of the sample. *)
Lemma calculate_marketing_kpis_keeps_stored_tables_witness :
  marketing_dfs (self (calculate_marketing_kpis Sample.world).2)
  = marketing_dfs (self Sample.world)
  ∧ heap (calculate_marketing_kpis Sample.world).2 !! 2 = Some Sample.google.
Proof.
  apply (calculate_marketing_kpis_keeps_stored_tables Sample.world "Google" 2 Sample.google).
  - unfold Sample.world, Sample.processor. cbn [self marketing_dfs].
    rewrite !elem_of_cons. auto.
  - vm_compute. reflexivity.
Defined.

(** Claim C10: when GOOGLE_API_KEY is not set (or is the empty string),
    the service that [get_llm_service] returns answers every chat request
    with one fixed message, and neither its construction nor the request
    calls into the text-generation package. *)
Theorem chat_without_api_key {D P : Type}
    (dumps_summary : D → llm.Result string) (dumps_performance : P → llm.Result string)
    (env : llm.Environment) (genai : llm.Genai)
    (query : string) (data_summary : D) (platform_performance : P) :
  llm.truthy (llm.GOOGLE_API_KEY env) = false →
  llm.chat dumps_summary dumps_performance env genai query data_summary platform_performance
  = (inr llm.MOCK_RESPONSE, []).
Proof.
  intros H. unfold llm.chat, llm.get_llm_service, llm.__init__.
  rewrite H, andb_false_r. reflexivity.
Qed.

(** C10 in a process without the key. *)
Lemma chat_without_api_key_witness :
  llm.GOOGLE_API_KEY Sample.environment = None
  ∧ llm.chat inr inr Sample.environment Sample.genai
      "Which platform performs best?" "{}" "{}"
    = (inr llm.MOCK_RESPONSE, []).
Proof.
  split; [reflexivity|].
  apply (chat_without_api_key inr inr Sample.environment Sample.genai). reflexivity.
Defined.

(** * Further properties *)

(** ** Loading, continued *)

Lemma load_platform_runs (pd : Pandas) (platform : string) (f : DataFrame) (w : World) :
  read_csv pd (csv_path platform) = Some f →
  load_platform pd platform w
  = (Return (),
     {| heap := <[fresh (dom (heap w)) := setitem_scalar f "platform" (Text platform)]> (heap w);
        self := with_marketing_dfs (self w)
                  (dict_set (marketing_dfs (self w)) platform (fresh (dom (heap w)))) |}).
Proof.
  intros Hf. unfold load_platform. rewrite bind_assoc, (bind_lift _ f), bind_new by done.
  rewrite (bind_deref _ f) by (cbn; apply lookup_insert_eq).
  rewrite bind_update, bind_get_self. cbn [set_self heap self].
  by rewrite insert_insert_eq.
Qed.

Lemma load_platform_raises (pd : Pandas) (platform : string) (w : World) :
  read_csv pd (csv_path platform) = None → load_platform pd platform w = (Raise, w).
Proof.
  intros Hf. unfold load_platform. by rewrite bind_assoc, bind_lift_raise.
Qed.

(** What the loop of [load_data] leaves alone, however it ends. *)
Lemma for_each_load_keeps (pd : Pandas) (platforms : list string) (w : World) :
  business_df (self (for_each platforms (load_platform pd) w).2) = business_df (self w)
  ∧ combined_df (self (for_each platforms (load_platform pd) w).2) = combined_df (self w)
  ∧ heap w ⊆ heap (for_each platforms (load_platform pd) w).2.
Proof.
  revert w. induction platforms as [|p ps IH]; intros w; [done|].
  cbn [for_each]. rewrite bind_unfold.
  destruct (read_csv pd (csv_path p)) as [f|] eqn:Hf.
  - rewrite (load_platform_runs pd p f w Hf).
    match goal with |- context [for_each ps _ ?w0] => destruct (IH w0) as (Hb & Hc & Hh) end.
    rewrite Hb, Hc. split; [done|]. split; [done|].
    etrans; [|exact Hh]. cbn [heap]. apply insert_subseteq, fresh_loc_unused.
  - by rewrite (load_platform_raises pd p w Hf).
Qed.

Lemma for_each_load_raises (pd : Pandas) (platforms : list string) (p : string) (w : World) :
  p ∈ platforms → read_csv pd (csv_path p) = None →
  (for_each platforms (load_platform pd) w).1 = Raise.
Proof.
  revert w. induction platforms as [|q qs IH]; intros w Hp Hnone.
  - by apply elem_of_nil in Hp.
  - cbn [for_each]. rewrite bind_unfold.
    destruct (read_csv pd (csv_path q)) as [f|] eqn:Hf.
    + rewrite (load_platform_runs pd q f w Hf). apply IH; [|done].
      apply elem_of_cons in Hp as [->|Hp]; [congruence|done].
    + by rewrite (load_platform_raises pd q w Hf).
Qed.

Lemma for_each_load_returns (pd : Pandas) (platforms : list string) (w : World) :
  Forall (λ p, is_Some (read_csv pd (csv_path p))) platforms →
  ∃ w', for_each platforms (load_platform pd) w = (Return (), w').
Proof.
  intros H. revert w. induction H as [|p ps [f Hf] _ IH]; intros w; [by eexists|].
  cbn [for_each]. rewrite bind_unfold, (load_platform_runs pd p f w Hf). apply IH.
Qed.

Lemma dict_set_nonempty {V : Type} (d : list (string * V)) (k : string) (v : V) :
  dict_set d k v ≠ [].
Proof. destruct d as [|[k' v'] d]; simpl; [done|]. by case_decide. Qed.

Lemma foldl_dict_set_nonempty {V : Type} (d0 d : list (string * V)) :
  d0 ≠ [] → foldl (λ d kv, dict_set d kv.1 kv.2) d0 d ≠ [].
Proof.
  revert d0. induction d as [|kv d IH]; intros d0 H; [done|].
  simpl. apply IH, dict_set_nonempty.
Qed.


Lemma NoDup_four {A : Type} (a b c d : A) :
  NoDup [a; b; c; d] ↔ a ≠ b ∧ a ≠ c ∧ a ≠ d ∧ b ≠ c ∧ b ≠ d ∧ c ≠ d.
Proof.
  rewrite !NoDup_cons, !not_elem_of_cons. pose proof (@NoDup_nil_2 A).
  pose proof (not_elem_of_nil d). pose proof (not_elem_of_nil c).
  pose proof (not_elem_of_nil b). pose proof (not_elem_of_nil a). tauto.
Qed.

(** [load_data] on a new processor when the four files can be read. *)
Lemma load_data_body_runs (pd : Pandas) (w : World) (fb f1 f2 f3 : DataFrame) :
  marketing_dfs (self w) = [] →
  read_csv pd (csv_path "business") = Some fb →
  read_csv pd (csv_path "Facebook") = Some f1 →
  read_csv pd (csv_path "Google") = Some f2 →
  read_csv pd (csv_path "TikTok") = Some f3 →
  ∃ lb l1 l2 l3,
    NoDup [lb; l1; l2; l3]
    ∧ Forall (λ l, heap w !! l = None) [lb; l1; l2; l3]
    ∧ load_data_body pd w
      = (Return [("business", lb); ("Facebook", l1); ("Google", l2); ("TikTok", l3)],
         {| heap := <[l3 := setitem_scalar f3 "platform" (Text "TikTok")]>
                    (<[l2 := setitem_scalar f2 "platform" (Text "Google")]>
                    (<[l1 := setitem_scalar f1 "platform" (Text "Facebook")]>
                    (<[lb := fb]> (heap w))));
            self := {| business_df := Some lb;
                       marketing_dfs := [("Facebook", l1); ("Google", l2); ("TikTok", l3)];
                       combined_df := combined_df (self w) |} |}).
Proof.
  intros Hnew Hb H1 H2 H3. unfold load_data_body. rewrite bind_assoc.
  rewrite (bind_lift _ fb), bind_new, bind_get_self, bind_set_self, bind_unfold by done.
  unfold PLATFORMS. cbn [for_each].
  rewrite bind_unfold, (load_platform_runs pd "Facebook" f1 _ H1).
  rewrite bind_unfold, (load_platform_runs pd "Google" f2 _ H2).
  rewrite bind_unfold, (load_platform_runs pd "TikTok" f3 _ H3).
  cbn [for_each mret Py_ret heap self with_marketing_dfs with_business_df marketing_dfs
       business_df combined_df]. rewrite bind_get_self. cbn [self marketing_dfs].
  rewrite Hnew.
  set (h := heap w).
  set (lb := fresh (dom h)). set (hb := <[lb := fb]> h).
  set (l1 := fresh (dom hb)). set (h1 := <[l1 := _]> hb).
  set (l2 := fresh (dom h1)). set (h2 := <[l2 := _]> h1).
  set (l3 := fresh (dom h2)).
  assert (h !! lb = None) as Eb by apply fresh_loc_unused.
  assert (hb !! l1 = None) as E1 by apply fresh_loc_unused.
  assert (h1 !! l2 = None) as E2 by apply fresh_loc_unused.
  assert (h2 !! l3 = None) as E3 by apply fresh_loc_unused.
  unfold h2 in E3. apply lookup_insert_None in E3 as [E3 N32].
  unfold h1 in E2, E3. apply lookup_insert_None in E2 as [E2 N21].
  apply lookup_insert_None in E3 as [E3 N31].
  unfold hb in E1, E2, E3. apply lookup_insert_None in E1 as [E1 N1b].
  apply lookup_insert_None in E2 as [E2 N2b]. apply lookup_insert_None in E3 as [E3 N3b].
  exists lb, l1, l2, l3. split; [|split].
  - apply NoDup_four. repeat split; congruence.
  - by repeat constructor.
  - clearbody lb l1 l2 l3. simpl. repeat (rewrite decide_False by done). done.
Qed.

Lemma load_data_unreadable (pd : Pandas) (w : World) (name : string) :
  name ∈ "business" :: PLATFORMS →
  read_csv pd (csv_path name) = None →
  (load_data pd w).1 = Return [].
Proof.
  intros Hin Hnone. unfold load_data, try_except, load_data_body. rewrite bind_assoc.
  destruct (read_csv pd (csv_path "business")) as [fb|] eqn:Hb.
  2:{ by rewrite bind_lift_raise. }
  apply elem_of_cons in Hin as [->|Hin]; [congruence|].
  rewrite (bind_lift _ fb), bind_new, bind_get_self, bind_set_self, bind_unfold by done.
  match goal with |- context [for_each PLATFORMS _ ?w0] => set (w1 := w0) end.
  pose proof (for_each_load_raises pd PLATFORMS name w1 Hin Hnone) as Hr.
  by destruct (for_each PLATFORMS (load_platform pd) w1) as [[[]|] w2].
Qed.

(** Property X1: [load_data] never raises.  It answers the empty dict
    exactly when [business.csv] or the file of one of the three platforms
    cannot be read, and a non-empty dict otherwise. *)
Theorem load_data_answers_empty_on_unreadable_file (pd : Pandas) (w : World) :
  ∃ d, (load_data pd w).1 = Return d
       ∧ (d = [] ↔ ∃ name, name ∈ "business" :: PLATFORMS
                           ∧ read_csv pd (csv_path name) = None).
Proof.
  unfold load_data, try_except, load_data_body. rewrite bind_assoc.
  destruct (read_csv pd (csv_path "business")) as [fb|] eqn:Hb.
  2:{ rewrite bind_lift_raise by done. exists []. split; [done|]. split; [|done].
      intros _. exists "business". split; [apply elem_of_cons; by left|done]. }
  rewrite (bind_lift _ fb), bind_new, bind_get_self, bind_set_self, bind_unfold by done.
  match goal with |- context [for_each PLATFORMS _ ?w0] => set (w1 := w0) end.
  destruct (decide (Forall (λ p, is_Some (read_csv pd (csv_path p))) PLATFORMS)) as [Hall|Hnot].
  - destruct (for_each_load_returns pd PLATFORMS w1 Hall) as [w2 ->].
    rewrite bind_get_self. cbn [mret Py_ret fst]. eexists. split; [done|]. split.
    + intros H. by apply foldl_dict_set_nonempty in H.
    + intros (name & [->|Hin]%elem_of_cons & Hnone); [congruence|].
      rewrite Forall_forall in Hall. destruct (Hall name Hin). congruence.
  - apply not_Forall_Exists, Exists_exists in Hnot as (p & Hp & Hnone); [|apply _].
    assert (read_csv pd (csv_path p) = None) as Hnone'.
    { destruct (read_csv pd (csv_path p)) eqn:E; [|done]. exfalso. apply Hnone. simpl. rewrite E. by eexists. }
    pose proof (for_each_load_raises pd PLATFORMS p w1 Hp Hnone') as Hr.
    destruct (for_each PLATFORMS (load_platform pd) w1) as [[[]|] w2]; [done|].
    exists []. split; [done|]. split; [|done]. intros _. exists p. split; [apply elem_of_cons; by right|done].
Qed.

(** Property X2: a failed [load_data] is not undone.  When [business.csv]
    can be read and the file of a platform cannot, [load_data] answers the
    empty dict, yet [business_df] then refers to a new object that holds
    the business file. *)
Theorem load_data_failure_keeps_business_table (pd : Pandas) (w : World) (fb : DataFrame)
    (p : string) :
  read_csv pd (csv_path "business") = Some fb →
  p ∈ PLATFORMS →
  read_csv pd (csv_path p) = None →
  (load_data pd w).1 = Return []
  ∧ ∃ l, heap w !! l = None
         ∧ business_df (self (load_data pd w).2) = Some l
         ∧ heap (load_data pd w).2 !! l = Some fb.
Proof.
  intros Hb Hp Hnone. unfold load_data, try_except, load_data_body. rewrite bind_assoc.
  rewrite (bind_lift _ fb), bind_new, bind_get_self, bind_set_self, bind_unfold by done.
  match goal with |- context [for_each PLATFORMS _ ?w0] => set (w1 := w0) end.
  pose proof (for_each_load_raises pd PLATFORMS p w1 Hp Hnone) as Hr.
  destruct (for_each_load_keeps pd PLATFORMS w1) as (Hbus & _ & Hh).
  destruct (for_each PLATFORMS (load_platform pd) w1) as [[[]|] w2]; [done|].
  cbn [fst snd mret Py_ret] in *. split; [done|].
  exists (fresh (dom (heap w))). split; [apply fresh_loc_unused|]. split; [by rewrite Hbus|].
  eapply lookup_weaken; [|exact Hh]. apply lookup_insert_eq.
Qed.

(** X2 on a file system without the TikTok file. *)
Lemma load_data_failure_keeps_business_table_witness :
  (load_data Sample.pandas_without_tiktok Sample.fresh_world).1 = Return []
  ∧ ∃ l, heap Sample.fresh_world !! l = None
         ∧ business_df (self (load_data Sample.pandas_without_tiktok Sample.fresh_world).2)
           = Some l
         ∧ heap (load_data Sample.pandas_without_tiktok Sample.fresh_world).2 !! l
           = Some Sample.raw_business.
Proof.
  apply (load_data_failure_keeps_business_table Sample.pandas_without_tiktok
           Sample.fresh_world Sample.raw_business "TikTok").
  - vm_compute. reflexivity.
  - unfold PLATFORMS. rewrite !elem_of_cons. auto.
  - vm_compute. reflexivity.
Defined.


(** Property X3: on a new processor, a [load_data] that succeeded returns
    the keys [business], [Facebook], [Google], [TikTok] in this order, and
    the values are the very objects that the processor stores in
    [business_df] and [marketing_dfs]: four distinct new objects, the
    business one holding the file as read. *)
Theorem load_data_returns_the_stored_tables (pd : Pandas) (w : World)
    (d : list (string * loc)) :
  marketing_dfs (self w) = [] →
  (load_data pd w).1 = Return d →
  d ≠ [] →
  ∃ lb l1 l2 l3,
    d = [("business", lb); ("Facebook", l1); ("Google", l2); ("TikTok", l3)]
    ∧ NoDup [lb; l1; l2; l3]
    ∧ business_df (self (load_data pd w).2) = Some lb
    ∧ marketing_dfs (self (load_data pd w).2)
      = [("Facebook", l1); ("Google", l2); ("TikTok", l3)]
    ∧ heap (load_data pd w).2 !! lb = read_csv pd (csv_path "business")
    ∧ Forall (λ l, heap w !! l = None ∧ is_Some (heap (load_data pd w).2 !! l))
        [lb; l1; l2; l3].
Proof.
  intros Hnew Hrun Hne.
  destruct (read_csv pd (csv_path "business")) as [fb|] eqn:Hb.
  2:{ rewrite (load_data_unreadable pd w "business") in Hrun by (done || set_solver).
      congruence. }
  destruct (read_csv pd (csv_path "Facebook")) as [f1|] eqn:H1.
  2:{ rewrite (load_data_unreadable pd w "Facebook") in Hrun by (done || set_solver).
      congruence. }
  destruct (read_csv pd (csv_path "Google")) as [f2|] eqn:H2.
  2:{ rewrite (load_data_unreadable pd w "Google") in Hrun by (done || set_solver).
      congruence. }
  destruct (read_csv pd (csv_path "TikTok")) as [f3|] eqn:H3.
  2:{ rewrite (load_data_unreadable pd w "TikTok") in Hrun by (done || set_solver).
      congruence. }
  destruct (load_data_body_runs pd w fb f1 f2 f3 Hnew Hb H1 H2 H3)
    as (lb & l1 & l2 & l3 & Hnd & Hfresh & Hbody).
  unfold load_data, try_except in *. rewrite Hbody in *. cbn [fst snd heap self] in *.
  injection Hrun as <-. exists lb, l1, l2, l3.
  split; [done|]. split; [done|]. apply NoDup_four in Hnd as (?&?&?&?&?&?).
  split; [done|]. split; [done|]. split.
  { rewrite !lookup_insert_ne by congruence. apply lookup_insert_eq. }
  apply Forall_cons in Hfresh as [Fb Hfresh]. apply Forall_cons in Hfresh as [F1 Hfresh].
  apply Forall_cons in Hfresh as [F2 Hfresh]. apply Forall_cons in Hfresh as [F3 _].
  repeat constructor; try done.
  - rewrite !lookup_insert_ne by congruence. rewrite lookup_insert_eq. by eexists.
  - rewrite !lookup_insert_ne by congruence. rewrite lookup_insert_eq. by eexists.
  - rewrite !lookup_insert_ne by congruence. rewrite lookup_insert_eq. by eexists.
  - rewrite lookup_insert_eq. by eexists.
Qed.

(** X3 on a file system that has the four files. *)
Lemma load_data_returns_the_stored_tables_witness :
  ∃ lb l1 l2 l3,
    [("business", 0); ("Facebook", 1); ("Google", 2); ("TikTok", 3)]
    = [("business", lb); ("Facebook", l1); ("Google", l2); ("TikTok", l3)]
    ∧ NoDup [lb; l1; l2; l3]
    ∧ business_df (self Sample.loaded_world) = Some lb
    ∧ marketing_dfs (self Sample.loaded_world)
      = [("Facebook", l1); ("Google", l2); ("TikTok", l3)].
Proof.
  destruct (load_data_returns_the_stored_tables Sample.pandas Sample.fresh_world
              [("business", 0); ("Facebook", 1); ("Google", 2); ("TikTok", 3)])
    as (lb & l1 & l2 & l3 & Hd & Hnd & Hb & Hm & _);
    [reflexivity | vm_compute; reflexivity | discriminate |].
  exists lb, l1, l2, l3. split; [exact Hd|]. split; [exact Hnd|]. split; [exact Hb|exact Hm].
Defined.

(** ** Cleaning, continued *)

Lemma world_eta (w : World) : {| heap := heap w; self := self w |} = w.
Proof. by destruct w. Qed.

Lemma to_datetime_rows (pd : Pandas) (rs : list Row) :
  Forall (λ r, is_Some (to_datetime1 pd (cell r "date"))) rs →
  to_datetime pd ((λ r, cell r "date") <$> rs) = Some (date_cell pd <$> rs).
Proof.
  intros H. apply mapM_Some, Forall2_fmap, Forall_Forall2_diag.
  eapply Forall_impl; [exact H|]. intros r [c Hc]. unfold date_cell. by rewrite Hc.
Qed.

Lemma to_datetime_fails (pd : Pandas) (rs : list Row) :
  ¬ Forall (λ r, is_Some (to_datetime1 pd (cell r "date"))) rs →
  to_datetime pd ((λ r, cell r "date") <$> rs) = None.
Proof.
  intros H. apply eq_None_not_Some. intros Hs. apply H.
  apply mapM_is_Some in Hs. rewrite !Forall_fmap in Hs.
  eapply Forall_impl; [exact Hs|]. intros r Hr. exact Hr.
Qed.

Lemma parse_dates_runs (pd : Pandas) (l : loc) (w : World) (f : DataFrame) :
  heap w !! l = Some f → parseable pd f →
  parse_dates pd l w
  = (Return (), {| heap := <[l := parse_dates_frame pd f]> (heap w); self := self w |}).
Proof.
  intros Hl [Hd Hp]. unfold parse_dates. rewrite (bind_deref _ f) by done.
  rewrite (bind_lift _ (date_cell pd <$> rows f)).
  2:{ unfold getitem. rewrite decide_True by done. simpl. by apply to_datetime_rows. }
  unfold update, setitem, parse_dates_frame, add_column. rewrite decide_True by done.
  by rewrite zip_with_fmap_right.
Qed.

Lemma parse_dates_raises (pd : Pandas) (l : loc) (w : World) (f : DataFrame) :
  heap w !! l = Some f → ¬ parseable pd f → parse_dates pd l w = (Raise, w).
Proof.
  intros Hl Hn. unfold parse_dates. rewrite (bind_deref _ f) by done.
  apply bind_lift_raise. unfold getitem. case_decide as Hd; [|done]. simpl.
  apply to_datetime_fails. intros Hp. by apply Hn.
Qed.

#[local] Instance parseable_dec (pd : Pandas) (f : DataFrame) : Decision (parseable pd f).
Proof. unfold parseable. apply _. Defined.

Lemma parse_dates_returns (pd : Pandas) (l : loc) (w w' : World) :
  parse_dates pd l w = (Return (), w') →
  ∃ f, heap w !! l = Some f ∧ parseable pd f
       ∧ w' = {| heap := <[l := parse_dates_frame pd f]> (heap w); self := self w |}.
Proof.
  intros Hrun. destruct (heap w !! l) as [f|] eqn:Hl.
  - destruct (decide (parseable pd f)) as [Hp|Hn].
    + rewrite (parse_dates_runs pd l w f Hl Hp) in Hrun. injection Hrun as <-. by exists f.
    + by rewrite (parse_dates_raises pd l w f Hl Hn) in Hrun.
  - unfold parse_dates in Hrun. by rewrite bind_deref_raise in Hrun.
Qed.

Lemma is_datetime_date_cell (pd : Pandas) (r : Row) : is_datetime (date_cell pd r) = true.
Proof.
  unfold date_cell, to_datetime1. destruct (cell r "date") as [x|s|t|]; simpl; try done.
  - by destruct (PrimFloat.is_nan x).
  - by destruct (parse_datetime pd s) as [[t|]|].
Qed.

Lemma date_cell_datetime (pd : Pandas) (r : Row) (c : Cell) :
  r !! "date" = Some c → is_datetime c = true → date_cell pd r = c.
Proof.
  intros Hr Hc. unfold date_cell, cell. rewrite Hr. simpl. by destruct c.
Qed.

Lemma lookup_convert_row_other (pd : Pandas) (present : list string) (r : Row) (c : string) :
  c ∉ MARKETING_COLUMNS → convert_row pd present r !! c = r !! c.
Proof.
  unfold convert_row. generalize MARKETING_COLUMNS. intros cols. revert r.
  induction cols as [|col cols IH]; intros r Hc; [done|].
  apply not_elem_of_cons in Hc as [Hne Hc]. cbn [foldl]. rewrite IH by done.
  unfold convert_cell. case_decide; [|done]. by rewrite lookup_insert_ne.
Qed.

Lemma convert_row_id (pd : Pandas) (present : list string) (r : Row) :
  (∀ c, c ∈ MARKETING_COLUMNS → c ∈ present → ∃ x, r !! c = Some (Num x)) →
  convert_row pd present r = r.
Proof.
  unfold convert_row. generalize MARKETING_COLUMNS. intros cols.
  induction cols as [|col cols IH]; intros H; [done|].
  cbn [foldl].
  assert (convert_cell pd present r col = r) as ->.
  { unfold convert_cell. case_decide as Hp; [|done].
    destruct (H col) as [x Hx]; [apply elem_of_cons; by left|done|].
    unfold cell. rewrite Hx. simpl. by apply insert_id. }
  apply IH. intros c Hc. apply H. apply elem_of_cons. by right.
Qed.

Lemma date_not_marketing_column : "date" ∉ MARKETING_COLUMNS.
Proof. unfold MARKETING_COLUMNS. rewrite !not_elem_of_cons. repeat split; try done. apply not_elem_of_nil. Qed.

Lemma lookup_clean_row_date (pd : Pandas) (present : list string) (r : Row) :
  clean_row pd present r !! "date" = Some (date_cell pd r).
Proof.
  unfold clean_row. rewrite lookup_convert_row_other by apply date_not_marketing_column.
  apply lookup_insert_eq.
Qed.

Lemma lookup_clean_row_number (pd : Pandas) (present : list string) (r : Row) (c : string) :
  c ∈ MARKETING_COLUMNS → c ∈ present → ∃ x, clean_row pd present r !! c = Some (Num x).
Proof.
  intros Hc Hp. unfold clean_row. rewrite lookup_convert_row by done. by eexists.
Qed.

Lemma lookup_clean_row_other (pd : Pandas) (present : list string) (r : Row) (c : string) :
  c ∉ "date" :: MARKETING_COLUMNS → clean_row pd present r !! c = r !! c.
Proof.
  intros [Hd Hm]%not_elem_of_cons. unfold clean_row.
  rewrite lookup_convert_row_other by done. by rewrite lookup_insert_ne.
Qed.

Lemma cleaned_clean_frame (pd : Pandas) (f : DataFrame) :
  "date" ∈ columns f → cleaned (clean_frame pd f).
Proof.
  intros Hd. unfold cleaned, dated, clean_frame. cbn [columns rows].
  split; [split; [done|]|]; apply Forall_fmap, Forall_forall; intros r _; simpl.
  - exists (date_cell pd r). split; [apply lookup_clean_row_date|apply is_datetime_date_cell].
  - intros c Hc Hp. by apply lookup_clean_row_number.
Qed.

Lemma dated_parse_dates_frame (pd : Pandas) (f : DataFrame) :
  "date" ∈ columns f → dated (parse_dates_frame pd f).
Proof.
  intros Hd. split; [done|]. cbn [rows parse_dates_frame].
  apply Forall_fmap, Forall_forall. intros r _. simpl. exists (date_cell pd r).
  split; [apply lookup_insert_eq|apply is_datetime_date_cell].
Qed.

Lemma recleaned_refl (f : DataFrame) : recleaned f f.
Proof. split; [done|]. by apply Forall_Forall2_diag, Forall_forall. Qed.

Lemma recleaned_trans (f g h : DataFrame) : recleaned f g → recleaned g h → recleaned f h.
Proof.
  intros [Hc1 Hr1] [Hc2 Hr2]. split; [congruence|].
  eapply Forall2_trans; [|exact Hr1|exact Hr2].
  intros r1 r2 r3 H1 H2 c Hc. by rewrite H2, H1.
Qed.

Lemma recleaned_clean_frame (pd : Pandas) (f : DataFrame) : recleaned f (clean_frame pd f).
Proof.
  split; [done|]. cbn [rows clean_frame]. apply Forall2_fmap_r, Forall_Forall2_diag, Forall_forall.
  intros r _ c Hc. by apply lookup_clean_row_other.
Qed.

Lemma recleaned_parse_dates_frame (pd : Pandas) (f : DataFrame) :
  recleaned f (parse_dates_frame pd f).
Proof.
  split; [done|]. cbn [rows parse_dates_frame].
  apply Forall2_fmap_r, Forall_Forall2_diag, Forall_forall.
  intros r _ c [Hd _]%not_elem_of_cons. by rewrite lookup_insert_ne.
Qed.

Lemma dated_parseable (pd : Pandas) (f : DataFrame) : dated f → parseable pd f.
Proof.
  intros [Hd Hr]. split; [done|]. eapply Forall_impl; [exact Hr|].
  intros r (c & Hc & Ht). simpl. unfold cell. rewrite Hc. simpl. destruct c; try done; by eexists.
Qed.

Lemma parse_dates_frame_id (pd : Pandas) (f : DataFrame) :
  dated f → parse_dates_frame pd f = f.
Proof.
  intros [_ Hr]. unfold parse_dates_frame. destruct f as [cols rs]. cbn [columns rows] in *.
  f_equal. etrans; [|apply list_fmap_id]. apply Forall_fmap_ext_1.
  eapply Forall_impl; [exact Hr|]. intros r (c & Hc & Ht). simpl.
  rewrite (date_cell_datetime pd r c Hc Ht). by apply insert_id.
Qed.

Lemma clean_frame_id (pd : Pandas) (f : DataFrame) : cleaned f → clean_frame pd f = f.
Proof.
  intros [[_ Hd] Hn]. unfold clean_frame. destruct f as [cols rs]. cbn [columns rows] in *.
  f_equal. etrans; [|apply list_fmap_id]. apply Forall_fmap_ext_1.
  apply Forall_forall. intros r Hr. rewrite Forall_forall in Hd, Hn.
  destruct (Hd r Hr) as (c & Hc & Ht). simpl. unfold clean_row.
  rewrite (date_cell_datetime pd r c Hc Ht), insert_id by done.
  apply convert_row_id. apply (Hn r Hr).
Qed.

(** One turn of the loop of [_clean_marketing_data]. *)
Lemma clean_step_runs (pd : Pandas) (l : loc) (w : World) (f : DataFrame) :
  heap w !! l = Some f → parseable pd f →
  (parse_dates pd l;; _convert_numeric_columns pd l) w
  = (Return (), {| heap := <[l := clean_frame pd f]> (heap w); self := self w |}).
Proof.
  intros Hl Hp. rewrite bind_unfold, (parse_dates_runs pd l w f Hl Hp).
  unfold _convert_numeric_columns.
  rewrite (convert_columns_spec pd l MARKETING_COLUMNS _ (parse_dates_frame pd f))
    by (cbn [heap]; apply lookup_insert_eq).
  cbn [heap self]. rewrite insert_insert_eq. do 3 f_equal.
  unfold clean_frame, parse_dates_frame. cbn [columns rows]. f_equal.
  by rewrite <- list_fmap_compose.
Qed.

Lemma clean_step_returns (pd : Pandas) (l : loc) (w w' : World) :
  (parse_dates pd l;; _convert_numeric_columns pd l) w = (Return (), w') →
  ∃ f, heap w !! l = Some f ∧ parseable pd f
       ∧ w' = {| heap := <[l := clean_frame pd f]> (heap w); self := self w |}.
Proof.
  intros Hrun. destruct (heap w !! l) as [f|] eqn:Hl.
  - destruct (decide (parseable pd f)) as [Hp|Hn].
    + rewrite (clean_step_runs pd l w f Hl Hp) in Hrun. injection Hrun as <-. by exists f.
    + by rewrite bind_unfold, (parse_dates_raises pd l w f Hl Hn) in Hrun.
  - unfold parse_dates in Hrun. by rewrite bind_assoc, bind_deref_raise in Hrun.
Qed.

Section clean_loop.
Variable pd : Pandas.

Local Abbreviation clean_step :=
  (λ '(platform, df), parse_dates pd df;; _convert_numeric_columns pd df).

Lemma clean_loop_cons (p : string) (l : loc) (dfs : list (string * loc)) (w : World) :
  for_each ((p, l) :: dfs) clean_step w
  = match (parse_dates pd l;; _convert_numeric_columns pd l) w with
    | (Return _, w1) => for_each dfs clean_step w1
    | (Raise, w1) => (Raise, w1)
    end.
Proof. reflexivity. Qed.

(** What one cleaning step does to any object of the heap. *)
Lemma clean_step_effect (l l0 : loc) (w : World) (f g : DataFrame) :
  heap w !! l = Some f → parseable pd f → heap w !! l0 = Some g →
  ∃ g', <[l := clean_frame pd f]> (heap w) !! l0 = Some g'
        ∧ recleaned g g' ∧ (dated g → dated g') ∧ (cleaned g → cleaned g')
        ∧ (parseable pd g → parseable pd g').
Proof.
  intros Hl [Hd Hp] Hl0. destruct (decide (l0 = l)) as [->|Hne].
  - assert (g = f) as -> by congruence. exists (clean_frame pd f).
    rewrite lookup_insert_eq. split; [done|]. split; [apply recleaned_clean_frame|].
    pose proof (cleaned_clean_frame pd f Hd) as Hc.
    split; [intros _; apply Hc|]. split; [done|]. intros _. apply dated_parseable, Hc.
  - exists g. rewrite lookup_insert_ne by done. split; [done|].
    split; [apply recleaned_refl|done].
Qed.

Lemma clean_loop_returns (dfs : list (string * loc)) (w w' : World) :
  for_each dfs clean_step w = (Return (), w') →
  self w' = self w
  ∧ (∀ l g, heap w !! l = Some g →
       ∃ g', heap w' !! l = Some g' ∧ recleaned g g'
             ∧ (dated g → dated g') ∧ (cleaned g → cleaned g'))
  ∧ (∀ kv, kv ∈ dfs → ∃ g', heap w' !! kv.2 = Some g' ∧ cleaned g').
Proof.
  revert w. induction dfs as [|[p l] dfs IH]; intros w Hrun.
  - cbn in Hrun. injection Hrun as <-. split; [done|]. split.
    + intros l g Hg. exists g. split; [done|]. split; [apply recleaned_refl|done].
    + intros kv Hkv. by apply elem_of_nil in Hkv.
  - rewrite clean_loop_cons in Hrun.
    destruct ((parse_dates pd l;; _convert_numeric_columns pd l) w)
      as [[[]|] w1] eqn:Hstep; [|done].
    apply clean_step_returns in Hstep as (f & Hl & Hp & ->).
    destruct (IH _ Hrun) as (Hs & Hall & Hdfs). cbn [heap self] in *.
    split; [done|]. split.
    + intros l0 g Hg.
      destruct (clean_step_effect l l0 w f g Hl Hp Hg) as (g1 & Hg1 & Hr1 & Hd1 & Hc1 & _).
      destruct (Hall l0 g1 Hg1) as (g' & Hg' & Hr' & Hd' & Hc').
      exists g'. split; [done|]. split; [by eapply recleaned_trans|]. split; auto.
    + intros kv [->|Hkv]%elem_of_cons; [|by apply Hdfs]. cbn [snd].
      destruct (Hall l (clean_frame pd f)) as (g' & Hg' & _ & _ & Hc');
        [apply lookup_insert_eq|].
      exists g'. split; [done|]. apply Hc', cleaned_clean_frame. apply Hp.
Qed.

Lemma clean_loop_runs (dfs : list (string * loc)) (w : World) :
  Forall (λ kv, ∃ f, heap w !! kv.2 = Some f ∧ parseable pd f) dfs →
  ∃ w', for_each dfs clean_step w = (Return (), w').
Proof.
  revert w. induction dfs as [|[p l] dfs IH]; intros w H; [by eexists|].
  apply Forall_cons in H as [(f & Hl & Hp) H]. cbn [snd] in Hl.
  rewrite clean_loop_cons, (clean_step_runs pd l w f Hl Hp). apply IH. cbn [heap].
  eapply Forall_impl; [exact H|]. intros [q l0] (g & Hg & Hgp). cbn [snd] in *.
  destruct (clean_step_effect l l0 w f g Hl Hp Hg) as (g' & Hg' & _ & _ & _ & Hp').
  exists g'. auto.
Qed.

(** The loop raises when it meets a table that cannot be cleaned. *)
Lemma clean_loop_raises (dfs : list (string * loc)) (w : World) (kv : string * loc)
    (f : DataFrame) :
  kv ∈ dfs → heap w !! kv.2 = Some f → ¬ parseable pd f →
  (for_each dfs clean_step w).1 = Raise.
Proof.
  revert w. induction dfs as [|[p l] dfs IH]; intros w Hkv Hf Hn.
  - by apply elem_of_nil in Hkv.
  - rewrite clean_loop_cons.
    destruct ((parse_dates pd l;; _convert_numeric_columns pd l) w)
      as [[[]|] w1] eqn:Hstep; [|done].
    apply clean_step_returns in Hstep as (f0 & Hl & Hp & ->).
    assert (kv.2 ≠ l) as Hne.
    { intros E. rewrite E in Hf. by assert (f0 = f) as -> by congruence. }
    apply elem_of_cons in Hkv as [->|Hkv]; [done|].
    apply (IH _ Hkv); [|done]. cbn [heap]. by rewrite lookup_insert_ne.
Qed.

(** On cleaned tables the loop changes nothing. *)
Lemma clean_loop_id (dfs : list (string * loc)) (w : World) :
  Forall (λ kv, ∃ f, heap w !! kv.2 = Some f ∧ cleaned f) dfs →
  for_each dfs clean_step w = (Return (), w).
Proof.
  induction 1 as [|[p l] dfs (f & Hl & Hc) _ IH]; [done|].
  rewrite clean_loop_cons. cbn [snd] in Hl.
  rewrite (clean_step_runs pd l w f Hl) by (apply dated_parseable, Hc).
  rewrite (clean_frame_id pd f Hc), insert_id, world_eta by done. exact IH.
Qed.

End clean_loop.

Lemma clean_data_unfold (pd : Pandas) (w : World) :
  clean_data pd w
  = match (match business_df (self w) with
           | Some df => parse_dates pd df
           | None => mret ()
           end) w with
    | (Return _, w1) =>
        for_each (marketing_dfs (self w1))
          (λ '(platform, df), parse_dates pd df;; _convert_numeric_columns pd df) w1
    | (Raise, w1) => (Raise, w1)
    end.
Proof.
  unfold clean_data, _clean_business_data, _clean_marketing_data.
  rewrite bind_unfold, bind_get_self.
  destruct (business_df (self w)) as [lb|].
  - destruct (parse_dates pd lb w) as [[[]|] w1]; [|done]. by rewrite bind_get_self.
  - cbn [mret Py_ret]. by rewrite bind_get_self.
Qed.

(** Property X4: when [clean_data] returns, the processor's fields are as
    before; every table keeps its header, its number of rows and every
    cell outside [date] and MARKETING_COLUMNS; the [date] column of the
    business table holds timestamps; and every stored platform table holds
    timestamps in [date] and numbers in each column of MARKETING_COLUMNS
    that it has. *)
Theorem clean_data_cleans_every_table (pd : Pandas) (w w' : World) :
  clean_data pd w = (Return (), w') →
  self w' = self w
  ∧ (∀ l g, heap w !! l = Some g → ∃ g', heap w' !! l = Some g' ∧ recleaned g g')
  ∧ (∀ l, business_df (self w) = Some l → ∃ g', heap w' !! l = Some g' ∧ dated g')
  ∧ (∀ p l, (p, l) ∈ marketing_dfs (self w) → ∃ g', heap w' !! l = Some g' ∧ cleaned g').
Proof.
  rewrite clean_data_unfold. intros Hrun.
  destruct (business_df (self w)) as [lb|] eqn:Hb.
  - destruct (parse_dates pd lb w) as [[[]|] w1] eqn:Hstep; [|done].
    apply parse_dates_returns in Hstep as (f & Hl & Hp & ->). cbn [heap self] in Hrun.
    apply clean_loop_returns in Hrun as (Hs & Hall & Hdfs). cbn [heap self] in *.
    split; [done|]. split; [|split].
    + intros l g Hg. destruct (decide (l = lb)) as [->|Hne].
      * assert (g = f) as -> by congruence.
        destruct (Hall lb (parse_dates_frame pd f)) as (g' & Hg' & Hr & _);
          [apply lookup_insert_eq|].
        exists g'. split; [done|]. eapply recleaned_trans; [|exact Hr].
        apply recleaned_parse_dates_frame.
      * destruct (Hall l g) as (g' & Hg' & Hr & _); [by rewrite lookup_insert_ne|].
        by exists g'.
    + intros l [= <-].
      destruct (Hall lb (parse_dates_frame pd f)) as (g' & Hg' & _ & Hd & _);
        [apply lookup_insert_eq|].
      exists g'. split; [done|]. apply Hd, dated_parse_dates_frame, Hp.
    + intros p l Hpl. apply (Hdfs (p, l) Hpl).
  - cbn [mret Py_ret] in Hrun.
    apply clean_loop_returns in Hrun as (Hs & Hall & Hdfs).
    split; [done|]. split; [|split].
    + intros l g Hg. destruct (Hall l g Hg) as (g' & Hg' & Hr & _). by exists g'.
    + done.
    + intros p l Hpl. apply (Hdfs (p, l) Hpl).
Qed.

(** X4 on the sample files, for the Google table. *)
Lemma clean_data_cleans_every_table_witness :
  self Sample.cleaned_world = self Sample.loaded_world
  ∧ ∃ g', heap Sample.cleaned_world !! 2 = Some g' ∧ cleaned g'.
Proof.
  destruct (clean_data_cleans_every_table Sample.pandas Sample.loaded_world
              Sample.cleaned_world) as (Hs & _ & _ & Hm); [vm_compute; reflexivity|].
  split; [exact Hs|]. apply (Hm "Google" 2).
  assert (marketing_dfs (self Sample.loaded_world)
          = [("Facebook", 1); ("Google", 2); ("TikTok", 3)]) as ->
    by (vm_compute; reflexivity).
  rewrite !elem_of_cons. auto.
Defined.

(** Property X5: [clean_data] is idempotent.  Run again on the state in
    which it returned, it returns and changes nothing. *)
Theorem clean_data_twice (pd : Pandas) (w w' : World) :
  clean_data pd w = (Return (), w') → clean_data pd w' = (Return (), w').
Proof.
  rewrite clean_data_unfold. intros Hrun.
  assert (self w' = self w
          ∧ (∀ l, business_df (self w) = Some l → ∃ g', heap w' !! l = Some g' ∧ dated g')
          ∧ (∀ kv, kv ∈ marketing_dfs (self w) →
               ∃ g', heap w' !! kv.2 = Some g' ∧ cleaned g')) as (Hs & Hbus & Hdfs).
  { destruct (business_df (self w)) as [lb|] eqn:Hb.
    - destruct (parse_dates pd lb w) as [[[]|] w1] eqn:Hstep; [|done].
      apply parse_dates_returns in Hstep as (f & Hl & Hp & ->). cbn [heap self] in Hrun.
      apply clean_loop_returns in Hrun as (Hs & Hall & Hdfs). cbn [heap self] in *.
      split; [done|]. split; [|done]. intros l [= <-].
      destruct (Hall lb (parse_dates_frame pd f)) as (g' & Hg' & _ & Hd & _);
        [apply lookup_insert_eq|].
      exists g'. split; [done|]. apply Hd, dated_parse_dates_frame, Hp.
    - cbn [mret Py_ret] in Hrun. apply clean_loop_returns in Hrun as (Hs & Hall & Hdfs).
      done. }
  clear Hrun. rewrite clean_data_unfold, Hs.
  destruct (business_df (self w)) as [lb|] eqn:Hb.
  - destruct (Hbus lb eq_refl) as (g & Hg & Hd).
    rewrite (parse_dates_runs pd lb w' g Hg (dated_parseable pd g Hd)).
    rewrite (parse_dates_frame_id pd g Hd), insert_id, world_eta by done.
    rewrite Hs. apply clean_loop_id. by apply Forall_forall.
  - cbn [mret Py_ret]. rewrite Hs. apply clean_loop_id. by apply Forall_forall.
Qed.

(** X5 on the sample files. *)
Lemma clean_data_twice_witness :
  clean_data Sample.pandas Sample.cleaned_world = (Return (), Sample.cleaned_world).
Proof.
  apply (clean_data_twice Sample.pandas Sample.loaded_world Sample.cleaned_world).
  vm_compute. reflexivity.
Defined.

(** Property X6: dates are not coerced.  When a stored table has no
    [date] column, or a date that [pd.to_datetime] refuses, [clean_data]
    raises; when that table is the business table, it raises before
    anything was changed. *)
Theorem clean_data_raises_on_bad_dates (pd : Pandas) (w : World) (l : loc) (f : DataFrame) :
  heap w !! l = Some f →
  ¬ parseable pd f →
  (business_df (self w) = Some l → clean_data pd w = (Raise, w))
  ∧ (∀ p, (p, l) ∈ marketing_dfs (self w) → (clean_data pd w).1 = Raise).
Proof.
  intros Hl Hn. split.
  - intros Hb. by rewrite clean_data_unfold, Hb, (parse_dates_raises pd l w f Hl Hn).
  - intros p Hp. rewrite clean_data_unfold.
    destruct (business_df (self w)) as [lb|] eqn:Hb.
    + destruct (parse_dates pd lb w) as [[[]|] w1] eqn:Hstep; [|done].
      apply parse_dates_returns in Hstep as (f0 & Hl0 & Hp0 & ->). cbn [heap self].
      assert (l ≠ lb) as Hne.
      { intros ->. by assert (f0 = f) as -> by congruence. }
      apply (clean_loop_raises pd _ _ (p, l) f Hp); [|done].
      cbn [heap snd]. by rewrite lookup_insert_ne.
    + cbn [mret Py_ret]. by apply (clean_loop_raises pd _ _ (p, l) f Hp).
Qed.

(** X6 on a business table dated yesterday. *)
Lemma clean_data_raises_on_bad_dates_witness :
  business_df (self Sample.world_undated) = Some 0
  ∧ clean_data Sample.pandas Sample.world_undated = (Raise, Sample.world_undated).
Proof.
  split; [reflexivity|].
  destruct (clean_data_raises_on_bad_dates Sample.pandas Sample.world_undated 0
              Sample.undated_business) as [H _].
  - vm_compute. reflexivity.
  - intros [_ Hrows]. apply Forall_cons in Hrows as [[c Hc] _]. vm_compute in Hc.
    discriminate Hc.
  - apply H. reflexivity.
Defined.

(** ** What the KPI and combining code leaves alone *)

(** [calculate_business_kpis] works on a copy. *)
Lemma calculate_business_kpis_extends (w : World) :
  extends w (calculate_business_kpis w).2.
Proof.
  unfold calculate_business_kpis, copy. rewrite bind_get_self.
  destruct (business_df (self w)) as [l|]; [|apply extends_refl].
  rewrite bind_assoc. destruct (heap w !! l) as [f|] eqn:Hl.
  - rewrite (bind_deref _ f), bind_new by done.
    apply (extends_confined_fresh (deref (fresh (dom (heap w))) ≫= _) f w).
    apply confined_bind; [apply confined_deref|]. intros f0.
    repeat (apply confined_bind; [apply confined_lift|]; intros ?).
    apply confined_bind; [apply confined_assign_kpis|]. intros _. apply confined_mret.
  - rewrite bind_deref_raise by done. apply extends_refl.
Qed.

Lemma calculate_business_kpis_none (w : World) :
  business_df (self w) = None → calculate_business_kpis w = (Return None, w).
Proof. intros H. unfold calculate_business_kpis. by rewrite bind_get_self, H. Qed.

(** The part of [combine_data] after the two KPI tables are there. *)
Local Abbreviation combine_tail lm lb :=
  (marketing ← deref lm;
   daily_marketing ← lift (groupby_agg marketing);
   pivot ← lift (pivot_platform daily_marketing);
   business ← deref lb;
   merged ← lift (merge_left business
                    (reset_index (set_columns pivot (flat_name <$> header pivot))));
   combined_df ← new (fillna0 merged);
   p ← get_self; set_self (with_combined_df p (Some combined_df));;
   mret combined_df).

Lemma combine_tail_keeps (lm lb : loc) (w : World) :
  business_df (self (combine_tail lm lb w).2) = business_df (self w)
  ∧ marketing_dfs (self (combine_tail lm lb w).2) = marketing_dfs (self w)
  ∧ heap w ⊆ heap (combine_tail lm lb w).2
  ∧ ((combine_tail lm lb w).1 = Raise → (combine_tail lm lb w).2 = w).
Proof.
  destruct (heap w !! lm) as [fm|] eqn:Hm; [|by rewrite bind_deref_raise].
  rewrite (bind_deref _ fm) by done.
  destruct (groupby_agg fm) as [daily|]; [|by rewrite bind_lift_raise].
  rewrite (bind_lift _ daily) by done.
  destruct (pivot_platform daily) as [pivot|]; [|by rewrite bind_lift_raise].
  rewrite (bind_lift _ pivot) by done.
  destruct (heap w !! lb) as [fb|] eqn:Hb; [|by rewrite bind_deref_raise].
  rewrite (bind_deref _ fb) by done.
  destruct (merge_left fb _) as [merged|]; [|by rewrite bind_lift_raise].
  rewrite (bind_lift _ merged) by done.
  rewrite bind_new, bind_get_self, bind_set_self. cbn [mret Py_ret fst snd heap self
    with_combined_df business_df marketing_dfs].
  split; [done|]. split; [done|]. split; [|done]. apply insert_subseteq, fresh_loc_unused.
Qed.

Lemma combine_data_unfold (w : World) :
  combine_data w
  = match calculate_marketing_kpis w with
    | (Return lm, w1) =>
      match calculate_business_kpis w1 with
      | (Return None, w2) => (Return lm, w2)
      | (Return (Some lb), w2) => combine_tail lm lb w2
      | (Raise, w2) => (Raise, w2)
      end
    | (Raise, w1) => (Raise, w1)
    end.
Proof.
  unfold combine_data. rewrite bind_unfold.
  destruct (calculate_marketing_kpis w) as [[lm|] w1]; [|done].
  rewrite bind_unfold. destruct (calculate_business_kpis w1) as [[[lb|]|] w2]; done.
Qed.

(** Property X7: [combine_data], whether it returns or raises, leaves
    [business_df] and [marketing_dfs] as they were and every object of the
    heap unchanged (its tables are new objects); when it raises,
    [combined_df] is as before too. *)
Theorem combine_data_keeps_stored_tables (w : World) :
  business_df (self (combine_data w).2) = business_df (self w)
  ∧ marketing_dfs (self (combine_data w).2) = marketing_dfs (self w)
  ∧ (∀ l df, heap w !! l = Some df → heap (combine_data w).2 !! l = Some df)
  ∧ ((combine_data w).1 = Raise →
     combined_df (self (combine_data w).2) = combined_df (self w)).
Proof.
  rewrite combine_data_unfold.
  pose proof (calculate_marketing_kpis_extends w) as [Hs1 Hh1].
  destruct (calculate_marketing_kpis w) as [[lm|] w1]; cbn [fst snd] in *.
  2:{ rewrite Hs1. repeat split; try done. intros l df Hl. by eapply lookup_weaken. }
  pose proof (calculate_business_kpis_extends w1) as [Hs2 Hh2].
  destruct (calculate_business_kpis w1) as [[[lb|]|] w2]; cbn [fst snd] in *.
  - destruct (combine_tail_keeps lm lb w2) as (Hb & Hm & Hh & Hr).
    rewrite Hb, Hm, Hs2, Hs1. split; [done|]. split; [done|]. split.
    + intros l df Hl. eapply lookup_weaken; [|exact Hh].
      eapply lookup_weaken; [|exact Hh2]. by eapply lookup_weaken.
    + intros Hraise. by rewrite (Hr Hraise), Hs2, Hs1.
  - rewrite Hs2, Hs1. repeat split; try done. intros l df Hl.
    eapply lookup_weaken; [|exact Hh2]. by eapply lookup_weaken.
  - rewrite Hs2, Hs1. repeat split; try done. intros l df Hl.
    eapply lookup_weaken; [|exact Hh2]. by eapply lookup_weaken.
Qed.

(** Property X8: without a business table, [combine_data] is
    [calculate_marketing_kpis]: it hands back the table of all marketing
    rows and does not set [combined_df], so that [get_summary_stats] still
    answers the empty dict afterwards. *)
Theorem combine_data_without_business_table (pd : Pandas) (w : World) :
  business_df (self w) = None →
  combine_data w = calculate_marketing_kpis w
  ∧ combined_df (self (combine_data w).2) = combined_df (self w)
  ∧ (combined_df (self w) = None →
     get_summary_stats pd (combine_data w).2 = (Return ∅, (combine_data w).2)).
Proof.
  intros Hb. rewrite combine_data_unfold.
  pose proof (calculate_marketing_kpis_extends w) as [Hs1 Hh1].
  destruct (calculate_marketing_kpis w) as [[lm|] w1]; cbn [fst snd] in *.
  - rewrite calculate_business_kpis_none by (by rewrite Hs1). cbn [snd].
    split; [done|]. split; [by rewrite Hs1|]. intros Hc.
    unfold get_summary_stats. by rewrite bind_get_self, Hs1, Hc.
  - split; [done|]. split; [by rewrite Hs1|]. intros Hc.
    unfold get_summary_stats. by rewrite bind_get_self, Hs1, Hc.
Qed.

(** X8 on a processor that holds one Facebook table only. *)
Lemma combine_data_without_business_table_witness :
  combine_data Sample.world_gap = calculate_marketing_kpis Sample.world_gap
  ∧ get_summary_stats Sample.pandas (combine_data Sample.world_gap).2
    = (Return ∅, (combine_data Sample.world_gap).2).
Proof.
  destruct (combine_data_without_business_table Sample.pandas Sample.world_gap)
    as (H1 & _ & H3); [reflexivity|].
  split; [exact H1|]. apply H3. reflexivity.
Defined.

(** Property X9: [get_summary_stats] reads only.  Whatever it answers,
    and also when it raises, the processor and every table are as
    before. *)
Theorem get_summary_stats_changes_nothing (pd : Pandas) (w : World) :
  (get_summary_stats pd w).2 = w.
Proof.
  unfold get_summary_stats. rewrite bind_get_self.
  destruct (combined_df (self w)) as [l|]; [|done].
  destruct (heap w !! l) as [df|] eqn:Hl; [|by rewrite bind_deref_raise].
  rewrite (bind_deref _ df) by done.
  destruct (columns_sum df (filter (λ c, endswith "_spend" c = true) (columns df)))
    as [s|] eqn:Hs; [|by rewrite bind_lift_raise].
  rewrite (bind_lift _ s) by done.
  destruct (columns_sum df (filter (λ c, endswith "_attributed revenue" c = true) (columns df)))
    as [a|] eqn:Ha; [|by rewrite bind_lift_raise].
  rewrite (bind_lift _ a) by done.
  destruct (F.nansum <$> numeric df "total revenue") as [r|] eqn:Hr;
    [|by rewrite bind_lift_raise].
  rewrite (bind_lift _ r) by done.
  destruct (date_bounds df) as [b|] eqn:Hb; [|by rewrite bind_lift_raise].
  by rewrite (bind_lift _ b).
Qed.

(** ** The tables that the KPI functions return *)

(** Property X10: [calculate_business_kpis] returns a new table with the
    header of the business table followed by [aov], [profit_margin] and
    [new_customer_rate], as many rows, and every other cell as it was.
    In each row aov = round(total revenue / # of orders, 2),
    profit_margin = round(gross profit / total revenue * 100, 2) and
    new_customer_rate = round(new customers / # of orders * 100, 2), each
    replaced by 0 when it is NaN. *)
Theorem business_kpis_are_rounded_ratios (w : World) (l : loc) (f : DataFrame)
    (i : nat) (r : Row) :
  business_df (self w) = Some l →
  heap w !! l = Some f →
  numeric_columns BUSINESS_INPUTS f = true →
  rows f !! i = Some r →
  let revenue := num r "total revenue" in
  let orders := num r "# of orders" in
  let profit := num r "gross profit" in
  let customers := num r "new customers" in
  let value (ratio : float) : Cell :=
    Num (if PrimFloat.is_nan (F.round2 ratio) then F.zero else F.round2 ratio) in
  ∃ l' f' r',
    (calculate_business_kpis w).1 = Return (Some l')
    ∧ heap (calculate_business_kpis w).2 !! l' = Some f'
    ∧ columns f' = foldl add_column (columns f) BUSINESS_KPIS
    ∧ length (rows f') = length (rows f)
    ∧ rows f' !! i = Some r'
    ∧ (∀ c, c ∉ BUSINESS_KPIS → r' !! c = r !! c)
    ∧ r' !! "aov" = Some (value (revenue / orders)%float)
    ∧ r' !! "profit_margin" = Some (value (profit / revenue * F.hundred)%float)
    ∧ r' !! "new_customer_rate" = Some (value (customers / orders * F.hundred)%float).
Proof.
  intros Hb Hl Hnum Hr revenue orders profit customers value.
  rewrite (calculate_business_kpis_spec w l f Hb Hl Hnum). cbn [fst snd heap].
  eexists _, _, (business_kpi_row r). split; [done|]. split; [apply lookup_insert_eq|].
  cbn [with_business_kpis rows columns]. split; [done|].
  split; [by rewrite length_fmap|]. split; [by rewrite list_lookup_fmap, Hr|].
  unfold business_kpi_row. fold revenue orders profit customers. split; [|split; [|split]].
  - intros c Hc. unfold BUSINESS_KPIS in Hc. rewrite !not_elem_of_cons in Hc.
    destruct Hc as (? & ? & ? & _). by rewrite !lookup_insert_ne.
  - by simplify_map_eq.
  - by simplify_map_eq.
  - by simplify_map_eq.
Qed.

(** X10 on the first business row of the sample: 100 / 10. *)
Lemma business_kpis_are_rounded_ratios_witness :
  ∃ l' f' r',
    (calculate_business_kpis Sample.world).1 = Return (Some l')
    ∧ heap (calculate_business_kpis Sample.world).2 !! l' = Some f'
    ∧ rows f' !! 0 = Some r'
    ∧ r' !! "aov" = Some (Num 10).
Proof.
  destruct (business_kpis_are_rounded_ratios Sample.world 0 Sample.business 0
              (Sample.business_row 3 10 5 4 100 30))
    as (l' & f' & r' & Hrun & Hf & _ & _ & Hr & _ & Haov & _);
    [reflexivity | vm_compute; reflexivity | vm_compute; reflexivity | reflexivity |].
  exists l', f', r'. split; [exact Hrun|]. split; [exact Hf|]. split; [exact Hr|].
  rewrite Haov. vm_compute. reflexivity.
Defined.

Lemma marketing_table_header (ins : list DataFrame) (x : string) :
  x ∈ columns (marketing_table ins) ↔ ∃ f, f ∈ ins ∧ (x ∈ columns f ∨ x ∈ KPIS).
Proof.
  unfold marketing_table, union_columns. cbn [columns].
  rewrite elem_of_foldl_add_column, list_elem_of_bind. split.
  - intros [[]%elem_of_nil|(g & Hx & (f & -> & Hf)%list_elem_of_fmap)].
    exists f. split; [done|]. by apply elem_of_foldl_add_column in Hx.
  - intros (f & Hf & Hx). right. exists (with_kpis f). split.
    + by apply elem_of_foldl_add_column.
    + apply list_elem_of_fmap. by exists f.
Qed.

Lemma elem_of_frames_of (h : gmap loc DataFrame) (d : list (string * loc)) (f : DataFrame) :
  f ∈ frames_of h d ↔ ∃ p l, (p, l) ∈ d ∧ h !! l = Some f.
Proof.
  unfold frames_of. rewrite list_elem_of_omap. split.
  - intros ([p l] & Hin & Hl). by exists p, l.
  - intros (p & l & Hin & Hl). by exists (p, l).
Qed.

(** Property X11: on cleaned platform tables, [calculate_marketing_kpis]
    returns one table whose columns are the columns of the stored tables
    and the four KPI columns, and whose rows are the rows of the stored
    tables, in the order of the dict and of each table, each with its KPI
    cells. *)
Theorem marketing_kpis_table_has_every_row (w : World) :
  marketing_dfs (self w) ≠ [] →
  marketing_ready w = true →
  ∃ l table,
    (calculate_marketing_kpis w).1 = Return l
    ∧ heap (calculate_marketing_kpis w).2 !! l = Some table
    ∧ (∀ x, x ∈ columns table ↔
            x ∈ KPIS ∨ ∃ p l f, (p, l) ∈ marketing_dfs (self w) ∧ heap w !! l = Some f
                                ∧ x ∈ columns f)
    ∧ Forall2 (λ r r', ∀ x, x ∈ columns table → cell r' x = cell (kpi_row r) x)
        (marketing_rows w) (rows table).
Proof.
  intros Hne Hready.
  pose proof (marketing_ready_frames w Hready) as Hfr.
  destruct (calculate_marketing_kpis_spec w Hne Hfr) as (l & w' & Hrun & _ & Hl).
  rewrite Hrun. cbn [fst snd]. eexists l, _. split; [done|]. split; [exact Hl|].
  set (ins := frames_of (heap w) (marketing_dfs (self w))).
  assert (ins ≠ []) as Hins.
  { apply frames_of_nonempty; [done|]. eapply Forall_impl; [exact Hfr|].
    intros kv (f & Hf & _). by exists f. }
  split.
  - intros x. rewrite marketing_table_header. split.
    + intros (f & (p & l0 & Hin & Hf)%elem_of_frames_of & [Hx|Hx]); [|by left].
      right. by exists p, l0, f.
    + intros [Hx|(p & l0 & f & Hin & Hf & Hx)].
      * destruct ins as [|f fs] eqn:E; [done|]. exists f. split; [|by right].
        apply elem_of_cons. by left.
      * exists f. split; [|by left]. apply elem_of_frames_of. by exists p, l0.
  - rewrite marketing_table_rows. unfold marketing_rows. fold ins.
    apply Forall2_fmap_r, Forall_Forall2_diag, Forall_forall. intros r _ x Hx.
    cbn [compose]. by rewrite cell_reindex, decide_True.
Qed.

(** X11 on the sample: two Facebook rows, two Google rows, one TikTok row. *)
Lemma marketing_kpis_table_has_every_row_witness :
  ∃ l table,
    (calculate_marketing_kpis Sample.world).1 = Return l
    ∧ heap (calculate_marketing_kpis Sample.world).2 !! l = Some table
    ∧ length (rows table) = 5.
Proof.
  destruct (marketing_kpis_table_has_every_row Sample.world)
    as (l & table & Hrun & Hl & _ & Hrows); [discriminate | vm_compute; reflexivity |].
  exists l, table. split; [exact Hrun|]. split; [exact Hl|].
  rewrite <- (Forall2_length _ _ _ Hrows). vm_compute. reflexivity.
Defined.

Lemma numeric_missing (f : DataFrame) (c : string) : c ∉ columns f → numeric f c = None.
Proof. intros H. unfold numeric, getitem. by rewrite decide_False. Qed.

Lemma calculate_platform_kpis_raises (w : World) (l : loc) (f : DataFrame) (c : string) :
  heap w !! l = Some f → c ∈ MARKETING_COLUMNS → c ∉ columns f →
  (_calculate_platform_kpis l w).1 = Raise.
Proof.
  intros Hl Hc Hn. unfold _calculate_platform_kpis, copy.
  rewrite bind_assoc, (bind_deref _ f), bind_new by done.
  rewrite (bind_deref _ f) by (cbn; apply lookup_insert_eq).
  pose proof (numeric_missing f c Hn) as Hnone.
  unfold MARKETING_COLUMNS in Hc. apply list_elem_of_In in Hc. simpl in Hc.
  destruct (numeric f "clicks") as [clicks|] eqn:E1; [|by rewrite bind_lift_raise].
  rewrite (bind_lift _ clicks) by done.
  destruct (numeric f "impression") as [impression|] eqn:E2; [|by rewrite bind_lift_raise].
  rewrite (bind_lift _ impression) by done.
  destruct (numeric f "spend") as [spend|] eqn:E3; [|by rewrite bind_lift_raise].
  rewrite (bind_lift _ spend) by done.
  destruct (numeric f "attributed revenue") as [revenue|] eqn:E4;
    [|by rewrite bind_lift_raise].
  destruct Hc as [<-|[<-|[<-|[<-|[]]]]]; congruence.
Qed.

Lemma mapM_raises {A B : Type} (f : A → Py B) (xs : list A) (x : A) (w : World) :
  x ∈ xs →
  (∀ y w0, extends w0 (f y w0).2) →
  (∀ w0, extends w w0 → (f x w0).1 = Raise) →
  (mapM f xs w).1 = Raise.
Proof.
  intros Hx Hext. revert w. induction xs as [|y ys IH]; intros w Hraise.
  - by apply elem_of_nil in Hx.
  - cbn [mapM]. rewrite bind_unfold. pose proof (Hext y w) as Hw.
    destruct (f y w) as [[b|] w1] eqn:Hy; [|done]. cbn [snd] in Hw.
    apply elem_of_cons in Hx as [->|Hx].
    { specialize (Hraise w (extends_refl w)). by rewrite Hy in Hraise. }
    rewrite bind_unfold.
    assert ((mapM (M:=Py) f ys w1).1 = Raise) as Hrest.
    { apply IH; [done|]. intros w0 H0. apply Hraise. by eapply extends_trans. }
    by destruct (mapM (M:=Py) f ys w1) as [[bs|] w2].
Qed.

(** Property X12: the KPI code needs the four marketing columns.  When a
    stored platform table lacks one of [impression], [clicks], [spend],
    [attributed revenue] (which [_convert_numeric_columns] lets pass),
    [_calculate_platform_kpis] raises on it, and so do
    [calculate_marketing_kpis] and [combine_data]. *)
Theorem kpis_raise_without_a_marketing_column (w : World) (p : string) (l : loc)
    (f : DataFrame) (c : string) :
  (p, l) ∈ marketing_dfs (self w) →
  heap w !! l = Some f →
  c ∈ MARKETING_COLUMNS →
  c ∉ columns f →
  (_calculate_platform_kpis l w).1 = Raise
  ∧ (calculate_marketing_kpis w).1 = Raise
  ∧ (combine_data w).1 = Raise.
Proof.
  intros Hin Hl Hc Hn.
  assert ((calculate_marketing_kpis w).1 = Raise) as Hm.
  { unfold calculate_marketing_kpis. rewrite bind_get_self, bind_unfold.
    pose proof (mapM_raises (λ '(platform, df), _calculate_platform_kpis df)
                  (marketing_dfs (self w)) (p, l) w Hin) as Hr.
    destruct (mapM (M:=Py) _ (marketing_dfs (self w)) w) as [[ls|] w1]; [|done].
    cbn [fst] in Hr. discriminate Hr.
    - intros [q l0] w0. apply calculate_platform_kpis_extends.
    - intros w0 [_ Hh]. apply (calculate_platform_kpis_raises w0 l f c); [|done..].
      by eapply lookup_weaken. }
  split; [by apply (calculate_platform_kpis_raises w l f c)|]. split; [done|].
  rewrite combine_data_unfold. by destruct (calculate_marketing_kpis w) as [[lm|] w1].
Qed.

(** X12 on a Facebook table without clicks. *)
Lemma kpis_raise_without_a_marketing_column_witness :
  (_calculate_platform_kpis 1 Sample.world_no_clicks).1 = Raise
  ∧ (calculate_marketing_kpis Sample.world_no_clicks).1 = Raise
  ∧ (combine_data Sample.world_no_clicks).1 = Raise.
Proof.
  apply (kpis_raise_without_a_marketing_column Sample.world_no_clicks "Facebook" 1
           Sample.no_clicks "clicks").
  - apply elem_of_cons. left. reflexivity.
  - vm_compute. reflexivity.
  - unfold MARKETING_COLUMNS. rewrite !elem_of_cons. auto.
  - unfold Sample.no_clicks. cbn [columns]. rewrite !not_elem_of_cons.
    repeat split; try discriminate. apply not_elem_of_nil.
Defined.

(** ** The combined table, continued *)

Lemma isna_fill0 (c : Cell) : isna (fill0 c) = false.
Proof.
  unfold fill0. destruct (isna c) eqn:E; [|done]. reflexivity.
Qed.

(** The cells that the combined row [r] of the business row [b0] has. *)
Lemma combined_cell (bcols platforms : list string) (mrows : list Row) (b0 r : Row)
    (x : string) :
  combined_cells bcols platforms mrows b0 r →
  x ∈ bcols ++ (flat_name <$> levels_of platforms) →
  ∃ c, r !! x = Some (fill0 c).
Proof.
  intros [Hbus Hplat] [Hx|Hx]%elem_of_app.
  - eexists. by apply Hbus.
  - apply list_elem_of_fmap in Hx as ([m p] & -> & [Hm Hp]%elem_of_levels).
    destruct (metric_has_agg m Hm) as [how Hhow]. eexists. by apply Hplat.
Qed.

Lemma combined_platform_cell (bcols platforms : list string) (mrows : list Row) (b0 r : Row)
    (m p : string) :
  combined_cells bcols platforms mrows b0 r →
  m ∈ METRICS → p ∈ platforms →
  ∃ v, r !! flat_name (m, p) = Some (Num v).
Proof.
  intros [_ Hplat] Hm Hp. destruct (metric_has_agg m Hm) as [how Hhow].
  rewrite (Hplat m how p Hhow Hp).
  destruct (cell b0 "date") as [y|s|t|]; try (rewrite fill0_NaN; by eexists).
  destruct (daily_metric_Num mrows t p m how) as [y ->].
  destruct (fill0_Num y) as (v & -> & _). by eexists.
Qed.

(** Property X13: [combine_data] stores the table it returns in
    [combined_df]; no cell of that table is missing (NaN or NaT); and the
    i-th row carries the cells of the i-th business row, a missing one
    replaced by 0. *)
Theorem combined_table_has_no_missing_value (w : World) (lb : loc) (b : DataFrame) :
  business_df (self w) = Some lb →
  heap w !! lb = Some b →
  business_frame b = true →
  marketing_dfs (self w) ≠ [] →
  marketing_ready w = true →
  ∃ l combined,
    (combine_data w).1 = Return l
    ∧ heap (combine_data w).2 !! l = Some combined
    ∧ combined_df (self (combine_data w).2) = Some l
    ∧ (∀ r x, r ∈ rows combined → x ∈ columns combined →
         ∃ c, r !! x = Some c ∧ isna c = false)
    ∧ (∀ i b0 r x, rows b !! i = Some b0 → rows combined !! i = Some r →
         x ∈ columns b → x ∉ BUSINESS_KPIS → r !! x = Some (fill0 (cell b0 x))).
Proof.
  intros Hlb Hb Hbf Hne Hready.
  destruct (combine_data_spec w lb b Hlb Hb Hbf Hne Hready)
    as (l & w' & combined & platforms & Hrun & Hl & Hc & _ & _ & Hcols & Hrows).
  exists l, combined. rewrite Hrun. cbn [fst snd].
  split; [done|]. split; [done|]. split; [done|]. split.
  - intros r x Hr Hx. rewrite Hcols in Hx.
    apply list_elem_of_lookup in Hr as [i Hi].
    destruct (Forall2_lookup_r _ _ _ _ _ Hrows Hi) as (b0 & _ & Hcells).
    destruct (combined_cell _ _ _ _ _ x Hcells Hx) as [c Hc'].
    eexists. split; [exact Hc'|apply isna_fill0].
  - intros i b0 r x Hb0 Hr Hx Hk.
    destruct (Forall2_lookup_l _ _ _ _ _ Hrows Hb0) as (r' & Hr' & [Hbus _]).
    assert (r' = r) as -> by congruence.
    rewrite Hbus, cell_business_kpi_row; [done..|].
    unfold with_business_kpis. cbn [columns]. apply elem_of_foldl_add_column. by left.
Qed.

(** X13 on the sample tables. *)
Lemma combined_table_has_no_missing_value_witness :
  ∃ l combined,
    (combine_data Sample.world).1 = Return l
    ∧ heap (combine_data Sample.world).2 !! l = Some combined
    ∧ combined_df (self (combine_data Sample.world).2) = Some l.
Proof.
  destruct (combined_table_has_no_missing_value Sample.world 0 Sample.business)
    as (l & combined & Hrun & Hl & Hc & _);
    [vm_compute; reflexivity.. | discriminate | vm_compute; reflexivity |].
  exists l, combined. split; [exact Hrun|]. split; [exact Hl|exact Hc].
Defined.

Lemma foldl_min_spec (t : Z) (ts : list Z) :
  foldl Z.min t ts ∈ t :: ts ∧ ∀ x, x ∈ t :: ts → (foldl Z.min t ts ≤ x)%Z.
Proof.
  revert t. induction ts as [|u ts IH]; intros t; simpl.
  - split; [apply elem_of_cons; by left|]. intros x [->|[]%elem_of_nil]%elem_of_cons. lia.
  - destruct (IH (Z.min t u)) as [Hin Hle]. split.
    + apply elem_of_cons in Hin as [Hin|Hin].
      * rewrite Hin. destruct (Z.min_spec t u) as [[_ ->]|[_ ->]]; set_solver.
      * set_solver.
    + intros x Hx. assert (foldl Z.min (Z.min t u) ts ≤ Z.min t u)%Z as Hm.
      { apply Hle. apply elem_of_cons. by left. }
      apply elem_of_cons in Hx as [->|[->|Hx]%elem_of_cons]; [lia|lia|].
      apply Hle. apply elem_of_cons. by right.
Qed.

Lemma foldl_max_spec (t : Z) (ts : list Z) :
  foldl Z.max t ts ∈ t :: ts ∧ ∀ x, x ∈ t :: ts → (x ≤ foldl Z.max t ts)%Z.
Proof.
  revert t. induction ts as [|u ts IH]; intros t; simpl.
  - split; [apply elem_of_cons; by left|]. intros x [->|[]%elem_of_nil]%elem_of_cons. lia.
  - destruct (IH (Z.max t u)) as [Hin Hle]. split.
    + apply elem_of_cons in Hin as [Hin|Hin].
      * rewrite Hin. destruct (Z.max_spec t u) as [[_ ->]|[_ ->]]; set_solver.
      * set_solver.
    + intros x Hx. assert (Z.max t u ≤ foldl Z.max (Z.max t u) ts)%Z as Hm.
      { apply Hle. apply elem_of_cons. by left. }
      apply elem_of_cons in Hx as [->|[->|Hx]%elem_of_cons]; [lia|lia|].
      apply Hle. apply elem_of_cons. by right.
Qed.

Lemma elem_of_timestamps (rs : list Row) (t : Z) :
  t ∈ omap timestamp ((λ r, cell r "date") <$> rs) ↔ ∃ r, r ∈ rs ∧ cell r "date" = Time t.
Proof.
  rewrite list_elem_of_omap. split.
  - intros (c & (r & -> & Hr)%list_elem_of_fmap & Ht). exists r. split; [done|].
    by destruct (cell r "date"); simplify_eq/=.
  - intros (r & Hr & Hc). exists (Time t). split; [|done].
    apply list_elem_of_fmap. by exists r.
Qed.

(** [df['date'].min()] and [.max()]: the earliest and the latest date. *)
Lemma date_bounds_spec (df : DataFrame) (lo hi : Z) :
  date_bounds df = Some (lo, hi) →
  (∃ r, r ∈ rows df ∧ cell r "date" = Time lo)
  ∧ (∃ r, r ∈ rows df ∧ cell r "date" = Time hi)
  ∧ (∀ r t, r ∈ rows df → cell r "date" = Time t → (lo ≤ t ≤ hi)%Z).
Proof.
  unfold date_bounds, getitem. case_decide; [|done]. simpl.
  destruct (forallb is_datetime _); [|done].
  destruct (omap timestamp _) as [|t ts] eqn:E; [done|]. intros [= <- <-].
  destruct (foldl_min_spec t ts) as [Hmin Hle]. destruct (foldl_max_spec t ts) as [Hmax Hge].
  rewrite <- E in Hmin, Hmax, Hle, Hge. setoid_rewrite elem_of_timestamps in Hle.
  setoid_rewrite elem_of_timestamps in Hge.
  apply elem_of_timestamps in Hmin, Hmax. split; [done|]. split; [done|].
  intros r u Hr Hu. split; [apply Hle|apply Hge]; by exists r.
Qed.

Lemma date_bounds_total (df : DataFrame) :
  "date" ∈ columns df → rows df ≠ [] →
  Forall (λ r, is_Some (timestamp (cell r "date"))) (rows df) →
  is_Some (date_bounds df).
Proof.
  intros Hd Hne Hall. unfold date_bounds, getitem. rewrite decide_True by done. simpl.
  assert (forallb is_datetime ((λ r, cell r "date") <$> rows df) = true) as ->.
  { apply forallb_forall. intros c (r & -> & Hr)%list_elem_of_In%list_elem_of_fmap.
    rewrite Forall_forall in Hall. destruct (Hall r Hr) as [t Ht].
    by destruct (cell r "date"). }
  destruct (rows df) as [|r rs]; [done|]. apply Forall_cons in Hall as [[t Ht] _].
  csimpl. rewrite Ht. csimpl. by eexists.
Qed.

Lemma date_bounds_ext (df df' : DataFrame) :
  "date" ∈ columns df → "date" ∈ columns df' →
  (λ r, cell r "date") <$> rows df' = (λ r, cell r "date") <$> rows df →
  date_bounds df' = date_bounds df.
Proof.
  intros Hd Hd' E. unfold date_bounds, getitem. rewrite !decide_True by done. simpl.
  by rewrite E.
Qed.

Lemma numeric_columns_intro (cols : list string) (df : DataFrame) :
  (∀ c, c ∈ cols → c ∈ columns df ∧ ∀ r, r ∈ rows df → is_num (cell r c) = true) →
  numeric_columns cols df = true.
Proof.
  intros H. unfold numeric_columns. apply forallb_forall. intros c Hc%list_elem_of_In.
  destruct (H c Hc) as [Hin Hnum]. apply andb_true_iff. split.
  - by apply bool_decide_eq_true.
  - apply forallb_forall. intros r Hr%list_elem_of_In. by apply Hnum.
Qed.

Lemma endswith_metric_platform_column (m c : string) :
  m ∈ METRICS → endswith ("_" +:+ m) c = true → platform_column c = true.
Proof.
  intros Hm He. unfold platform_column. apply existsb_exists. exists m.
  split; [by apply list_elem_of_In|done].
Qed.

(** Property X14: after [combine_data] on cleaned tables with at least
    one business row, all dated, [get_summary_stats] returns: its five
    totals and ratios are numbers, and its [date_range] runs from the
    earliest to the latest date of the business table. *)
Theorem summary_stats_after_combine_data (pd : Pandas) (w : World) (lb : loc)
    (b : DataFrame) :
  business_df (self w) = Some lb →
  heap w !! lb = Some b →
  business_frame b = true →
  marketing_dfs (self w) ≠ [] →
  marketing_ready w = true →
  rows b ≠ [] →
  Forall (λ r, is_Some (timestamp (cell r "date"))) (rows b) →
  ∃ d lo hi,
    get_summary_stats pd (combine_data w).2 = (Return d, (combine_data w).2)
    ∧ d !! "date_range" = Some (Text (strftime pd lo +:+ " to " +:+ strftime pd hi))
    ∧ (∃ r, r ∈ rows b ∧ cell r "date" = Time lo)
    ∧ (∃ r, r ∈ rows b ∧ cell r "date" = Time hi)
    ∧ (∀ r t, r ∈ rows b → cell r "date" = Time t → (lo ≤ t ≤ hi)%Z)
    ∧ (∀ k, k ∈ ["total_spend"; "total_attributed_revenue"; "total_business_revenue";
                 "overall_roas"; "attribution_gap"] → ∃ x, d !! k = Some (Num x)).
Proof.
  intros Hlb Hb Hbf Hne Hready Hrows Htime.
  destruct (combine_data_spec w lb b Hlb Hb Hbf Hne Hready)
    as (l & w' & combined & platforms & Hrun & Hl & Hc & _ & _ & Hcols & Hcells).
  rewrite Hrun. cbn [snd].
  pose proof (business_frame_date b Hbf) as Hdate.
  assert (∀ x, x ∈ columns b → x ∈ columns (with_business_kpis b)) as Hbk.
  { intros x Hx. unfold with_business_kpis. cbn [columns].
    apply elem_of_foldl_add_column. by left. }
  assert (∀ x, x ∈ columns b → x ∈ columns combined) as Hbc.
  { intros x Hx. rewrite Hcols. apply elem_of_app. left. by apply Hbk. }
  (* the platform columns hold numbers *)
  assert (∀ m c, m ∈ METRICS → endswith ("_" +:+ m) c = true → c ∈ columns combined →
            ∀ r, r ∈ rows combined → is_num (cell r c) = true) as Hplat.
  { intros m c Hm He Hin r Hr.
    pose proof (endswith_metric_platform_column m c Hm He) as Hpc.
    rewrite Hcols in Hin. apply elem_of_app in Hin as [Hin|Hin].
    { rewrite (business_columns_plain b Hbf c Hin) in Hpc. done. }
    apply list_elem_of_fmap in Hin as ([m' p] & -> & [Hm' Hp]%elem_of_levels).
    apply list_elem_of_lookup in Hr as [i Hi].
    destruct (Forall2_lookup_r _ _ _ _ _ Hcells Hi) as (b0 & _ & Hcs).
    destruct (combined_platform_cell _ _ _ _ _ m' p Hcs Hm' Hp) as [v Hv].
    unfold cell. by rewrite Hv. }
  assert (numeric_columns (filter (λ c, endswith "_spend" c = true) (columns combined))
            combined = true) as Hs.
  { apply numeric_columns_intro. intros c [He Hin]%list_elem_of_filter. split; [done|].
    apply (Hplat "spend" c); [|done..]. unfold METRICS, AGG. cbn. rewrite !elem_of_cons. auto. }
  assert (numeric_columns
            (filter (λ c, endswith "_attributed revenue" c = true) (columns combined))
            combined = true) as Ha.
  { apply numeric_columns_intro. intros c [He Hin]%list_elem_of_filter. split; [done|].
    apply (Hplat "attributed revenue" c); [|done..].
    unfold METRICS, AGG. cbn. rewrite !elem_of_cons. auto 10. }
  pose proof (business_frame_numeric b Hbf) as Hnum.
  assert (numeric_columns ["total revenue"] combined = true) as Hr.
  { apply numeric_columns_intro. intros c ->%list_elem_of_singleton.
    assert ("total revenue" ∈ columns b) as Hin.
    { apply (forallb_elem_of _ _ "total revenue") in Hnum.
      - apply andb_true_iff in Hnum as [Hnum _]. by apply bool_decide_eq_true in Hnum.
      - unfold BUSINESS_INPUTS. rewrite !elem_of_cons. auto. }
    split; [by apply Hbc|]. intros r [i Hi]%list_elem_of_lookup.
    destruct (Forall2_lookup_r _ _ _ _ _ Hcells Hi) as (b0 & Hb0 & [Hbus _]).
    unfold cell at 1. rewrite (Hbus _ (Hbk _ Hin)). simpl.
    rewrite cell_business_kpi_row by (unfold BUSINESS_KPIS; set_solver).
    apply (forallb_elem_of _ _ "total revenue") in Hnum;
      [|unfold BUSINESS_INPUTS; rewrite !elem_of_cons; auto].
    apply andb_true_iff in Hnum as [_ Hnum].
    apply (forallb_elem_of _ _ b0) in Hnum; [|by eapply list_elem_of_lookup_2].
    simpl in Hnum. destruct (cell b0 "total revenue") as [y| | |]; try done.
    by destruct (fill0_Num y) as (v & -> & _). }
  assert ((λ r, cell r "date") <$> rows combined = (λ r, cell r "date") <$> rows b) as Hdates.
  { clear -Hcells Htime Hbk Hdate. revert Htime.
    induction Hcells as [|b0 r bs rs [Hbus _] _ IH]; intros Htime; [done|].
    apply Forall_cons in Htime as [[t Ht] Htime]. csimpl. f_equal; [|by apply IH].
    unfold cell at 1. rewrite (Hbus _ (Hbk _ Hdate)). simpl.
    rewrite cell_business_kpi_row by (unfold BUSINESS_KPIS; set_solver).
    by destruct (cell b0 "date"). }
  destruct (date_bounds_total b Hdate Hrows Htime) as [[lo hi] Hbounds].
  assert (date_bounds combined = Some (lo, hi)) as Hbounds'.
  { rewrite <- Hbounds. apply date_bounds_ext; [done|by apply Hbc|done]. }
  eexists _, lo, hi.
  split; [apply (summary_stats_spec pd w' l combined lo hi Hc Hl Hs Ha Hr Hbounds')|].
  split; [by simplify_map_eq|].
  destruct (date_bounds_spec b lo hi Hbounds) as (Hlo & Hhi & Hall).
  split; [done|]. split; [done|]. split; [done|].
  intros k Hk. apply list_elem_of_In in Hk. simpl in Hk.
  repeat (destruct Hk as [<-|Hk]; [eexists; by simplify_map_eq|]). done.
Qed.

(** X14 on the sample tables. *)
Lemma summary_stats_after_combine_data_witness :
  ∃ d lo hi,
    get_summary_stats Sample.pandas (combine_data Sample.world).2
    = (Return d, (combine_data Sample.world).2)
    ∧ d !! "date_range"
      = Some (Text (strftime Sample.pandas lo +:+ " to " +:+ strftime Sample.pandas hi)).
Proof.
  destruct (summary_stats_after_combine_data Sample.pandas Sample.world 0 Sample.business)
    as (d & lo & hi & Hrun & Hrange & _);
    [vm_compute; reflexivity.. | discriminate | vm_compute; reflexivity | discriminate | |].
  - unfold Sample.business. cbn [rows].
    repeat (constructor; [eexists; vm_compute; reflexivity|]). constructor.
  - exists d, lo, hi. split; [exact Hrun|exact Hrange].
Defined.

(** ** The loader of the dashboard *)

Lemma load_and_process_data_unfold (pd : Pandas) (w : World) :
  app.load_and_process_data pd w
  = match load_data pd {| heap := heap w; self := init |} with
    | (Return [], w1) => (Return (inl app.FailedToLoad), w1)
    | (Return (_ :: _), w1) =>
      match clean_data pd w1 with
      | (Return _, w2) =>
        match combine_data w2 with
        | (Return l, w3) => (Return (inr l), w3)
        | (Raise, w3) => (Return (inl app.ErrorProcessing), w3)
        end
      | (Raise, w2) => (Return (inl app.ErrorProcessing), w2)
      end
    | (Raise, w1) => (Return (inl app.ErrorProcessing), w1)
    end.
Proof.
  unfold app.load_and_process_data, try_except. rewrite bind_set_self, bind_unfold.
  destruct (load_data pd _) as [[[|kv d]|] w1]; [done| |done].
  rewrite bind_unfold. destruct (clean_data pd w1) as [[[]|] w2]; [|done].
  rewrite bind_unfold. by destruct (combine_data w2) as [[l|] w3].
Qed.

Lemma parseable_setitem_scalar (pd : Pandas) (f : DataFrame) (v : Cell) :
  parseable pd f → parseable pd (setitem_scalar f "platform" v).
Proof.
  intros [Hd Hr]. split.
  - cbn [columns setitem_scalar]. apply elem_of_add_column. by left.
  - cbn [rows setitem_scalar]. apply Forall_fmap. eapply Forall_impl; [exact Hr|].
    intros r Hs. simpl. by rewrite cell_insert, decide_False.
Qed.

Lemma cell_lookup (r : Row) (c : string) (v : Cell) : r !! c = Some v → cell r c = v.
Proof. intros H. unfold cell. by rewrite H. Qed.

Lemma recleaned_cell (g g' : DataFrame) (r' : Row) (c : string) :
  recleaned g g' → r' ∈ rows g' → c ∉ "date" :: MARKETING_COLUMNS →
  ∃ r, r ∈ rows g ∧ cell r' c = cell r c.
Proof.
  intros [_ Hrows] [i Hi]%list_elem_of_lookup Hc.
  destruct (Forall2_lookup_r _ _ _ _ _ Hrows Hi) as (r & Hr & Hsame).
  exists r. split; [by eapply list_elem_of_lookup_2|]. unfold cell. by rewrite Hsame.
Qed.

(** A platform table after [load_data] and [clean_data]. *)
Lemma marketing_frame_intro (pd : Pandas) (f g : DataFrame) (p : string) :
  Forall (λ c, c ∈ columns f) MARKETING_COLUMNS →
  recleaned (setitem_scalar f "platform" (Text p)) g →
  cleaned g →
  marketing_frame g = true.
Proof.
  intros Hcols Hre [[Hd Hdates] Hnums]. pose proof Hre as [Hc _].
  cbn [columns setitem_scalar] in Hc.
  assert (∀ c, c ∈ MARKETING_COLUMNS → c ∈ columns g) as Hin.
  { intros c Hm. rewrite Hc. apply elem_of_add_column. left.
    by apply (proj1 (Forall_forall _ _) Hcols). }
  unfold marketing_frame. rewrite !andb_true_iff. split; [split|].
  - apply bool_decide_eq_true. split; [done|]. rewrite Hc. apply elem_of_add_column_self.
  - apply numeric_columns_intro. intros c Hm. split; [by apply Hin|].
    intros r Hr. rewrite Forall_forall in Hnums.
    destruct (Hnums r Hr c Hm (Hin c Hm)) as [x Hx]. by rewrite (cell_lookup _ _ _ Hx).
  - apply forallb_forall. intros r Hr%list_elem_of_In. rewrite Forall_forall in Hdates.
    destruct (Hdates r Hr) as (c & Hcd & Ht). rewrite (cell_lookup _ _ _ Hcd), Ht.
    destruct (recleaned_cell _ _ r "platform" Hre Hr) as (r0 & Hr0 & ->).
    { unfold MARKETING_COLUMNS. rewrite !not_elem_of_cons. repeat split; try done.
      apply not_elem_of_nil. }
    cbn [rows setitem_scalar] in Hr0. apply list_elem_of_fmap in Hr0 as (r1 & -> & _).
    by rewrite cell_insert, decide_True.
Qed.

(** The business table after [load_data] and [clean_data]. *)
Lemma business_frame_intro (pd : Pandas) (f g : DataFrame) :
  business_file pd f → recleaned f g → dated g → business_frame g = true.
Proof.
  intros (_ & Hnum & Hplain) Hre [Hd Hdates]. pose proof Hre as [Hc _].
  unfold business_frame. rewrite !andb_true_iff. split; [split; [split|]|].
  - by apply bool_decide_eq_true.
  - apply numeric_columns_intro. intros c Hm.
    apply (forallb_elem_of _ _ c) in Hnum; [|done].
    apply andb_true_iff in Hnum as [Hin Hcells]. apply bool_decide_eq_true in Hin.
    split; [by rewrite Hc|]. intros r Hr.
    destruct (recleaned_cell _ _ r c Hre Hr) as (r0 & Hr0 & ->).
    { unfold BUSINESS_INPUTS in Hm. unfold MARKETING_COLUMNS.
      apply list_elem_of_In in Hm. simpl in Hm. rewrite !not_elem_of_cons.
      repeat (destruct Hm as [<-|Hm]; [repeat split; try done; apply not_elem_of_nil|]).
      done. }
    by apply (forallb_elem_of _ _ r0) in Hcells.
  - apply forallb_forall. intros r Hr%list_elem_of_In. rewrite Forall_forall in Hdates.
    destruct (Hdates r Hr) as (c & Hcd & Ht). by rewrite (cell_lookup _ _ _ Hcd).
  - by rewrite Hc.
Qed.

(** Property X15: the whole pipeline.  When the four files can be read,
    their dates can be parsed, the business file holds numbers in the
    columns that the KPIs read and no column named like a platform
    metric, and each platform file has the four marketing columns,
    [load_and_process_data] returns a table and shows no error: the table
    is stored in [combined_df], has one row per row of the business file,
    every column of the business file, and no missing cell. *)
Theorem load_and_process_data_returns_the_combined_table (pd : Pandas) (w : World)
    (fb f1 f2 f3 : DataFrame) :
  read_csv pd (csv_path "business") = Some fb →
  read_csv pd (csv_path "Facebook") = Some f1 →
  read_csv pd (csv_path "Google") = Some f2 →
  read_csv pd (csv_path "TikTok") = Some f3 →
  business_file pd fb →
  marketing_file pd f1 →
  marketing_file pd f2 →
  marketing_file pd f3 →
  ∃ l combined,
    (app.load_and_process_data pd w).1 = Return (inr l)
    ∧ heap (app.load_and_process_data pd w).2 !! l = Some combined
    ∧ combined_df (self (app.load_and_process_data pd w).2) = Some l
    ∧ length (rows combined) = length (rows fb)
    ∧ (∀ x, x ∈ columns fb → x ∈ columns combined)
    ∧ (∀ r x, r ∈ rows combined → x ∈ columns combined →
         ∃ c, r !! x = Some c ∧ isna c = false).
Proof.
  intros Hb H1 H2 H3 Hfb [Hp1 Hc1] [Hp2 Hc2] [Hp3 Hc3].
  rewrite load_and_process_data_unfold.
  set (w0 := {| heap := heap w; self := init |}).
  destruct (load_data_body_runs pd w0 fb f1 f2 f3 eq_refl Hb H1 H2 H3)
    as (lb & l1 & l2 & l3 & Hnd & _ & Hbody).
  apply NoDup_four in Hnd as (?&?&?&?&?&?).
  unfold load_data, try_except. rewrite Hbody. clear Hbody.
  set (w1 := {| heap := _; self := _ |}).
  (* cleaning *)
  assert (heap w1 !! lb = Some fb) as Hlb.
  { unfold w1. cbn [heap]. rewrite !lookup_insert_ne by congruence. apply lookup_insert_eq. }
  assert (heap w1 !! l1 = Some (setitem_scalar f1 "platform" (Text "Facebook"))) as Hl1.
  { unfold w1. cbn [heap]. rewrite !lookup_insert_ne by congruence. apply lookup_insert_eq. }
  assert (heap w1 !! l2 = Some (setitem_scalar f2 "platform" (Text "Google"))) as Hl2.
  { unfold w1. cbn [heap]. rewrite !lookup_insert_ne by congruence. apply lookup_insert_eq. }
  assert (heap w1 !! l3 = Some (setitem_scalar f3 "platform" (Text "TikTok"))) as Hl3.
  { unfold w1. cbn [heap]. apply lookup_insert_eq. }
  rewrite clean_data_unfold.
  replace (business_df (self w1)) with (Some lb) by done.
  rewrite (parse_dates_runs pd lb w1 fb Hlb (proj1 Hfb)).
  set (w2 := {| heap := <[lb := _]> (heap w1); self := self w1 |}).
  assert (∀ l g, l ≠ lb → heap w1 !! l = Some g → heap w2 !! l = Some g) as Hw2.
  { intros l g Hne Hg. unfold w2. cbn [heap]. by rewrite lookup_insert_ne. }
  destruct (clean_loop_runs pd (marketing_dfs (self w2)) w2) as [w3 Hloop].
  { unfold w2, w1. cbn [self marketing_dfs]. repeat constructor; cbn [snd].
    - eexists. split; [by apply Hw2|]. by apply parseable_setitem_scalar.
    - eexists. split; [by apply Hw2|]. by apply parseable_setitem_scalar.
    - eexists. split; [by apply Hw2|]. by apply parseable_setitem_scalar. }
  rewrite Hloop.
  apply clean_loop_returns in Hloop as (Hs & Hall & Hdfs).
  (* the cleaned state *)
  destruct (Hall lb (parse_dates_frame pd fb)) as (b & Hb3 & Hreb & Hdb & _).
  { unfold w2. cbn [heap]. apply lookup_insert_eq. }
  assert (recleaned fb b) as Hreb'.
  { eapply recleaned_trans; [apply recleaned_parse_dates_frame|done]. }
  assert (business_frame b = true) as Hbf.
  { apply (business_frame_intro pd fb b Hfb Hreb').
    apply Hdb, dated_parse_dates_frame, Hfb. }
  assert (marketing_ready w3 = true) as Hready.
  { unfold marketing_ready. rewrite Hs. unfold w2, w1. cbn [self marketing_dfs forallb snd].
    destruct (Hall l1 _ (Hw2 l1 _ ltac:(congruence) Hl1)) as (g1 & Hg1 & Hr1 & _).
    destruct (Hall l2 _ (Hw2 l2 _ ltac:(congruence) Hl2)) as (g2 & Hg2 & Hr2 & _).
    destruct (Hall l3 _ (Hw2 l3 _ ltac:(congruence) Hl3)) as (g3 & Hg3 & Hr3 & _).
    destruct (Hdfs ("Facebook", l1)) as (g1' & Hg1' & Hcl1); [set_solver|].
    destruct (Hdfs ("Google", l2)) as (g2' & Hg2' & Hcl2); [set_solver|].
    destruct (Hdfs ("TikTok", l3)) as (g3' & Hg3' & Hcl3); [set_solver|].
    cbn [snd] in *. simplify_eq. rewrite Hg1, Hg2, Hg3.
    rewrite (marketing_frame_intro pd f1 g1 "Facebook"), (marketing_frame_intro pd f2 g2 "Google"),
      (marketing_frame_intro pd f3 g3 "TikTok"); done. }
  destruct (combine_data_spec w3 lb b) as (l & w4 & combined & platforms & Hrun & Hl & Hc &
    _ & _ & Hcols & Hcells); [by rewrite Hs|done|done|by rewrite Hs|done|].
  rewrite Hrun. cbn [fst snd]. exists l, combined.
  split; [done|]. split; [done|]. split; [done|]. split; [|split].
  - rewrite <- (Forall2_length _ _ _ Hcells). destruct Hreb' as [_ Hrows].
    symmetry. by eapply Forall2_length.
  - intros x Hx. rewrite Hcols. apply elem_of_app. left. unfold with_business_kpis.
    cbn [columns]. apply elem_of_foldl_add_column. left. destruct Hreb' as [-> _]. done.
  - intros r x [i Hi]%list_elem_of_lookup Hx. rewrite Hcols in Hx.
    destruct (Forall2_lookup_r _ _ _ _ _ Hcells Hi) as (b0 & _ & Hcs).
    destruct (combined_cell _ _ _ _ _ x Hcs Hx) as [c Hc'].
    eexists. split; [exact Hc'|apply isna_fill0].
Qed.

(** X15 on the sample files. *)
Lemma load_and_process_data_returns_the_combined_table_witness :
  ∃ l combined,
    (app.load_and_process_data Sample.pandas Sample.fresh_world).1 = Return (inr l)
    ∧ heap (app.load_and_process_data Sample.pandas Sample.fresh_world).2 !! l
      = Some combined
    ∧ length (rows combined) = 1.
Proof.
  assert (parseable Sample.pandas Sample.raw_business) as Hpb.
  { split; [unfold Sample.raw_business, Sample.business_header; cbn [columns];
            apply elem_of_cons; by left|].
    unfold Sample.raw_business. cbn [rows].
    repeat (constructor; [eexists; vm_compute; reflexivity|]). constructor. }
  assert (marketing_file Sample.pandas Sample.raw_marketing) as Hm.
  { split; [split|].
    - unfold Sample.raw_marketing. cbn [columns]. apply elem_of_cons. by left.
    - unfold Sample.raw_marketing. cbn [rows].
      repeat (constructor; [eexists; vm_compute; reflexivity|]). constructor.
    - unfold MARKETING_COLUMNS, Sample.raw_marketing. cbn [columns].
      repeat (constructor; [rewrite !elem_of_cons; auto 10|]). constructor. }
  destruct (load_and_process_data_returns_the_combined_table Sample.pandas
              Sample.fresh_world Sample.raw_business Sample.raw_marketing
              Sample.raw_marketing Sample.raw_marketing)
    as (l & combined & Hrun & Hl & _ & Hlen & _);
    [vm_compute; reflexivity.. | | exact Hm | exact Hm | exact Hm |].
  - split; [exact Hpb|]. split; vm_compute; reflexivity.
  - exists l, combined. split; [exact Hrun|]. split; [exact Hl|exact Hlen].
Defined.

(** Property X16: [load_and_process_data] never raises.  It shows the
    notice that the data failed to load exactly when one of the four files
    cannot be read; otherwise it returns the combined table or shows the
    processing error. *)
Theorem load_and_process_data_never_raises (pd : Pandas) (w : World) :
  ∃ r, (app.load_and_process_data pd w).1 = Return r
       ∧ (r = inl app.FailedToLoad ↔
          ∃ name, name ∈ "business" :: PLATFORMS ∧ read_csv pd (csv_path name) = None).
Proof.
  rewrite load_and_process_data_unfold.
  set (w0 := {| heap := heap w; self := init |}).
  destruct (decide (Forall (λ name, is_Some (read_csv pd (csv_path name)))
                      ("business" :: PLATFORMS))) as [Hall|Hnot].
  - unfold PLATFORMS in Hall.
    apply Forall_cons in Hall as [[fb Hb] Hall]. apply Forall_cons in Hall as [[f1 H1] Hall].
    apply Forall_cons in Hall as [[f2 H2] Hall]. apply Forall_cons in Hall as [[f3 H3] _].
    destruct (load_data_body_runs pd w0 fb f1 f2 f3 eq_refl Hb H1 H2 H3)
      as (lb & l1 & l2 & l3 & _ & _ & Hbody).
    unfold load_data, try_except. rewrite Hbody.
    assert (¬ ∃ name, name ∈ "business" :: PLATFORMS ∧ read_csv pd (csv_path name) = None)
      as Hno.
    { intros (name & Hin & Hnone). unfold PLATFORMS in Hin. apply list_elem_of_In in Hin.
      simpl in Hin. destruct Hin as [<-|[<-|[<-|[<-|[]]]]]; congruence. }
    match goal with |- context [clean_data pd ?w1] => destruct (clean_data pd w1) as [[[]|] w2] end.
    + destruct (combine_data w2) as [[l|] w3]; eexists; (split; [done|]); by split.
    + eexists. split; [done|]. by split.
  - apply not_Forall_Exists, Exists_exists in Hnot as (name & Hin & Hnone); [|apply _].
    assert (read_csv pd (csv_path name) = None) as Hnone'.
    { destruct (read_csv pd (csv_path name)) eqn:E; [|done]. exfalso. apply Hnone.
      simpl. rewrite E. by eexists. }
    pose proof (load_data_unreadable pd w0 name Hin Hnone') as Hload.
    destruct (load_data pd w0) as [[[|kv d]|] w1]; try done.
    exists (inl app.FailedToLoad). split; [done|]. split; [|done]. intros _. by exists name.
Qed.

(** Property X17: when the four files can be read but the business file
    has no [date] column or a date that cannot be parsed,
    [load_and_process_data] shows the processing error, returns no table,
    and the processor it built has no combined table. *)
Theorem load_and_process_data_reports_unparseable_dates (pd : Pandas) (w : World)
    (fb f1 f2 f3 : DataFrame) :
  read_csv pd (csv_path "business") = Some fb →
  read_csv pd (csv_path "Facebook") = Some f1 →
  read_csv pd (csv_path "Google") = Some f2 →
  read_csv pd (csv_path "TikTok") = Some f3 →
  ¬ parseable pd fb →
  (app.load_and_process_data pd w).1 = Return (inl app.ErrorProcessing)
  ∧ combined_df (self (app.load_and_process_data pd w).2) = None.
Proof.
  intros Hb H1 H2 H3 Hn. rewrite load_and_process_data_unfold.
  set (w0 := {| heap := heap w; self := init |}).
  destruct (load_data_body_runs pd w0 fb f1 f2 f3 eq_refl Hb H1 H2 H3)
    as (lb & l1 & l2 & l3 & Hnd & _ & Hbody).
  apply NoDup_four in Hnd as (?&?&?&?&?&?).
  unfold load_data, try_except. rewrite Hbody. clear Hbody.
  set (w1 := {| heap := _; self := _ |}).
  assert (heap w1 !! lb = Some fb) as Hlb.
  { unfold w1. cbn [heap]. rewrite !lookup_insert_ne by congruence. apply lookup_insert_eq. }
  rewrite clean_data_unfold.
  replace (business_df (self w1)) with (Some lb) by done.
  by rewrite (parse_dates_raises pd lb w1 fb Hlb Hn).
Qed.

(** X17 on a business file dated yesterday. *)
Lemma load_and_process_data_reports_unparseable_dates_witness :
  (app.load_and_process_data Sample.pandas_undated Sample.fresh_world).1
  = Return (inl app.ErrorProcessing)
  ∧ combined_df (self (app.load_and_process_data Sample.pandas_undated
                         Sample.fresh_world).2) = None.
Proof.
  apply (load_and_process_data_reports_unparseable_dates Sample.pandas_undated
           Sample.fresh_world Sample.undated_business Sample.raw_marketing
           Sample.raw_marketing Sample.raw_marketing);
    [vm_compute; reflexivity..|].
  intros [_ Hrows]. apply Forall_cons in Hrows as [[c Hc] _]. vm_compute in Hc.
  discriminate Hc.
Defined.

(** ** The chat service, continued *)



(** Property X19: an exception of [genai.configure] or of
    [genai.GenerativeModel] is swallowed by the constructor.  The service
    is created without a model and answers every chat request with the
    not-configured message, without calling the model. *)
Theorem chat_not_configured_after_failed_setup {D P : Type}
    (dumps_summary : D → llm.Result string) (dumps_performance : P → llm.Result string)
    (env : llm.Environment) (genai : llm.Genai)
    (query : string) (data_summary : D) (platform_performance : P) (api_key : string) :
  llm.GEMINI_AVAILABLE env = true →
  llm.GOOGLE_API_KEY env = Some api_key →
  api_key ≠ "" →
  (∃ e, llm.configure genai api_key = inl e)
  ∨ (∃ e, llm.GenerativeModel genai "gemini-2.5-flash" = inl e) →
  ∃ calls,
    llm.chat dumps_summary dumps_performance env genai query data_summary platform_performance
    = (inr llm.NOT_CONFIGURED, calls)
    ∧ ∀ model p, llm.CallGenerateContent model p ∉ calls.
Proof.
  intros Ha Hk Hne Hfail.
  unfold llm.chat, llm.get_llm_service, llm.__init__, llm.truthy.
  rewrite Ha, Hk. cbn [andb from_option id]. rewrite (proj2 (String.eqb_neq _ _) Hne). cbn [negb].
  destruct (llm.configure genai api_key) as [e|[]] eqn:Hc.
  - eexists. split; [done|]. intros model p. cbn [app]. set_solver.
  - destruct Hfail as [[e He]|[e He]]; [done|]. rewrite He.
    eexists. split; [done|]. intros model p. cbn [app]. set_solver.
Qed.

(** X19 with a package that refuses the key. *)
Lemma chat_not_configured_after_failed_setup_witness :
  ∃ calls,
    llm.chat inr inr Sample.environment_with_key Sample.genai_rejecting
      "Which platform performs best?" "{}" "{}"
    = (inr llm.NOT_CONFIGURED, calls)
    ∧ ∀ model p, llm.CallGenerateContent model p ∉ calls.
Proof.
  apply (chat_not_configured_after_failed_setup inr inr Sample.environment_with_key
           Sample.genai_rejecting "Which platform performs best?" "{}" "{}" "secret").
  - reflexivity.
  - reflexivity.
  - discriminate.
  - left. eexists. reflexivity.
Defined.

(** Property X20: when the package could not be imported, the service is
    the mock one also if GOOGLE_API_KEY is set: every chat request gets
    the mock response and nothing is called. *)
Theorem chat_mock_without_package {D P : Type}
    (dumps_summary : D → llm.Result string) (dumps_performance : P → llm.Result string)
    (env : llm.Environment) (genai : llm.Genai)
    (query : string) (data_summary : D) (platform_performance : P) :
  llm.GEMINI_AVAILABLE env = false →
  llm.chat dumps_summary dumps_performance env genai query data_summary platform_performance
  = (inr llm.MOCK_RESPONSE, []).
Proof.
  intros H. unfold llm.chat, llm.get_llm_service, llm.__init__. by rewrite H.
Qed.

(** X20 in a process with a key and no package. *)
Lemma chat_mock_without_package_witness :
  llm.GOOGLE_API_KEY Sample.environment_without_package = Some "secret"
  ∧ llm.chat inr inr Sample.environment_without_package Sample.genai
      "Which platform performs best?" "{}" "{}"
    = (inr llm.MOCK_RESPONSE, []).
Proof.
  split; [reflexivity|].
  apply (chat_mock_without_package inr inr Sample.environment_without_package Sample.genai).
  reflexivity.
Defined.

(** ** The per-platform totals *)

Lemma column_sum_numeric (df : DataFrame) (c : string) :
  numeric_columns [c] df = true →
  ai_insights.column_sum df c = Some (column_total df c).
Proof.
  intros H. unfold ai_insights.column_sum.
  rewrite (numeric_closed [c] df c H) by (apply elem_of_cons; by left). done.
Qed.

Lemma analyze_platform_absent (df : DataFrame) (d : list (string * gmap string float))
    (p : string) :
  p +:+ "_spend" ∉ columns df → ai_insights.analyze_platform df d p = Some d.
Proof. intros H. unfold ai_insights.analyze_platform. by rewrite decide_False. Qed.

Lemma analyze_platform_present (df : DataFrame) (d : list (string * gmap string float))
    (p : string) :
  p +:+ "_spend" ∈ columns df →
  (∀ m, m ∈ ["spend"; "attributed revenue"; "clicks"; "impression"] →
        numeric_columns [p +:+ "_" +:+ m] df = true) →
  ai_insights.analyze_platform df d p
  = Some (dict_set d p
            (ai_insights.entry (column_total df (p +:+ "_spend"))
               (column_total df (p +:+ "_attributed revenue"))
               (column_total df (p +:+ "_clicks"))
               (column_total df (p +:+ "_impression")))).
Proof.
  intros Hin Hnum. unfold ai_insights.analyze_platform. rewrite decide_True by done.
  cbn [ai_insights.cols fmap list_fmap mapM snd].
  rewrite !column_sum_numeric by (apply Hnum; rewrite !elem_of_cons; auto).
  done.
Qed.

(** The entry that the analysis stores for platform [p]. *)
Local Abbreviation entry_of df p :=
  (ai_insights.entry (column_total df (p +:+ "_spend"))
     (column_total df (p +:+ "_attributed revenue"))
     (column_total df (p +:+ "_clicks"))
     (column_total df (p +:+ "_impression"))).

Lemma analyze_loop (df : DataFrame) (platforms selected : list string)
    (d : list (string * gmap string float)) :
  (∀ p, p +:+ "_spend" ∈ columns df ↔ p ∈ platforms) →
  (∀ p m, p ∈ platforms → m ∈ ["spend"; "attributed revenue"; "clicks"; "impression"] →
          numeric_columns [p +:+ "_" +:+ m] df = true) →
  ∃ d', foldl (λ acc platform, acc ≫= λ d, ai_insights.analyze_platform df d platform)
          (Some d) selected = Some d'
        ∧ ∀ p, dict_get d' p
               = if decide (p ∈ selected ∧ p ∈ platforms) then Some (entry_of df p)
                 else dict_get d p.
Proof.
  intros Hcols Hnum. revert d. induction selected as [|q qs IH]; intros d.
  - exists d. split; [done|]. intros p. rewrite decide_False; [done|].
    intros [[]%elem_of_nil _].
  - cbn [foldl mbind option_bind].
    destruct (decide (q ∈ platforms)) as [Hq|Hq].
    + rewrite (analyze_platform_present df d q);
        [|by apply Hcols|intros m Hm; by apply Hnum].
      destruct (IH (dict_set d q (entry_of df q))) as (d' & Hd' & Hget).
      exists d'. split; [done|]. intros p. rewrite Hget.
      destruct (decide (p ∈ qs ∧ p ∈ platforms)) as [[Hp1 Hp2]|Hno].
      * rewrite decide_True; [done|]. split; [|done]. apply elem_of_cons. by right.
      * destruct (decide (p = q)) as [->|Hne].
        -- rewrite dict_get_set_eq, decide_True; [done|]. split; [|done].
           apply elem_of_cons. by left.
        -- rewrite dict_get_set_ne by done. rewrite decide_False; [done|].
           intros [[->|Hp]%elem_of_cons Hp2]; [done|]. by apply Hno.
    + rewrite (analyze_platform_absent df d q) by (by rewrite Hcols).
      destruct (IH d) as (d' & Hd' & Hget). exists d'. split; [done|].
      intros p. rewrite Hget.
      destruct (decide (p ∈ qs ∧ p ∈ platforms)) as [[Hp1 Hp2]|Hno].
      * rewrite decide_True; [done|]. split; [|done]. apply elem_of_cons. by right.
      * rewrite decide_False; [done|].
        intros [[->|Hp]%elem_of_cons Hp2]; [done|]. by apply Hno.
Qed.

Lemma spend_no_underscore (m : string) :
  m ∈ ["spend"; "attributed revenue"; "clicks"; "impression"] →
  m ∈ METRICS ∧ has_underscore m = false.
Proof.
  intros Hm. apply list_elem_of_In in Hm. simpl in Hm.
  destruct Hm as [<-|[<-|[<-|[<-|[]]]]]; (split; [|reflexivity]);
    unfold METRICS, AGG; cbn; rewrite !elem_of_cons; auto 10.
Qed.

(** Property X21: [_analyze_platform_performance] never raises on the
    table of [combine_data], nor on a selection of its rows, whatever
    platforms are selected.  Its result has an entry exactly for the
    selected platforms that occur in the marketing rows, and the entry
    holds the column totals with the three guarded ratios. *)
Theorem analysis_of_the_combined_table (w : World) (lb : loc) (b : DataFrame) :
  business_df (self w) = Some lb →
  heap w !! lb = Some b →
  business_frame b = true →
  marketing_dfs (self w) ≠ [] →
  marketing_ready w = true →
  ∃ l combined,
    (combine_data w).1 = Return l
    ∧ heap (combine_data w).2 !! l = Some combined
    ∧ ∀ filtered_df selected,
        columns filtered_df = columns combined →
        (∀ r, r ∈ rows filtered_df → r ∈ rows combined) →
        ∃ perf,
          ai_insights._analyze_platform_performance filtered_df selected = Some perf
          ∧ (∀ p, is_Some (dict_get perf p) ↔
                  p ∈ selected ∧ ∃ r t, r ∈ marketing_rows w ∧ key r = Some (t, p))
          ∧ (∀ p e, dict_get perf p = Some e →
                e = ai_insights.entry
                      (column_total filtered_df (p +:+ "_spend"))
                      (column_total filtered_df (p +:+ "_attributed revenue"))
                      (column_total filtered_df (p +:+ "_clicks"))
                      (column_total filtered_df (p +:+ "_impression"))).
Proof.
  intros Hlb Hb Hbf Hne Hready.
  destruct (combine_data_spec w lb b Hlb Hb Hbf Hne Hready)
    as (l & w' & combined & platforms & Hrun & Hl & _ & _ & Hplat & Hcols & Hcells).
  exists l, combined. rewrite Hrun. cbn [fst snd]. split; [done|]. split; [done|].
  intros df selected Hdf Hsub.
  destruct (analyze_loop df platforms selected []) as (perf & Hperf & Hget).
  - intros p. rewrite Hdf, Hcols. split.
    + intros [Hin|Hin]%elem_of_app.
      * pose proof (business_columns_plain b Hbf _ Hin) as Hplain.
        rewrite (endswith_metric_platform_column "spend" (p +:+ "_spend")) in Hplain; [done| |].
        -- apply spend_no_underscore. rewrite !elem_of_cons. auto.
        -- apply endswith_app.
      * apply list_elem_of_fmap in Hin as ([m' p'] & Heq & [Hm' Hp']%elem_of_levels).
        change (p +:+ "_spend") with (flat_name ("spend", p)) in Heq.
        apply flat_name_inj in Heq as [-> _]; [done|reflexivity|by apply metric_no_underscore].
    + intros Hp. apply elem_of_app. right. apply list_elem_of_fmap.
      exists ("spend", p). split; [done|]. apply elem_of_levels. split; [|done].
      apply spend_no_underscore. rewrite !elem_of_cons. auto.
  - intros p m Hp Hm. apply spend_no_underscore in Hm as [Hm _].
    apply numeric_columns_intro. intros c ->%list_elem_of_singleton. split.
    + rewrite Hdf, Hcols. apply elem_of_app. right. apply list_elem_of_fmap.
      exists (m, p). split; [done|]. by apply elem_of_levels.
    + intros r Hr. apply Hsub in Hr. apply list_elem_of_lookup in Hr as [i Hi].
      destruct (Forall2_lookup_r _ _ _ _ _ Hcells Hi) as (b0 & _ & Hcs).
      destruct (combined_platform_cell _ _ _ _ _ m p Hcs Hm Hp) as [v Hv].
      change (p +:+ "_" +:+ m) with (flat_name (m, p)). by rewrite (cell_lookup _ _ _ Hv).
  - exists perf. split; [done|]. split.
    + intros p. rewrite Hget, <- Hplat. cbn [dict_get].
      destruct (decide (p ∈ selected ∧ p ∈ platforms)) as [H|H].
      * split; [done|]. by eexists.
      * split; [by intros [? ?]|done].
    + intros p e. rewrite Hget. cbn [dict_get]. case_decide; congruence.
Qed.

(** X21 on the sample tables, Google and an unknown platform selected. *)
Lemma analysis_of_the_combined_table_witness :
  ∃ l combined perf,
    (combine_data Sample.world).1 = Return l
    ∧ heap (combine_data Sample.world).2 !! l = Some combined
    ∧ ai_insights._analyze_platform_performance combined ["Google"; "Bing"] = Some perf
    ∧ is_Some (dict_get perf "Google").
Proof.
  destruct (analysis_of_the_combined_table Sample.world 0 Sample.business)
    as (l & combined & Hrun & Hl & Hall);
    [vm_compute; reflexivity.. | discriminate | vm_compute; reflexivity |].
  destruct (Hall combined ["Google"; "Bing"] eq_refl (λ r H, H))
    as (perf & Hperf & Hkeys & _).
  exists l, combined, perf. split; [exact Hrun|]. split; [exact Hl|]. split; [exact Hperf|].
  apply Hkeys. split; [apply elem_of_cons; by left|].
  exists (Sample.marketing_row 1 "Google" 1000 10 10 50), 1%Z. split.
  - apply (list_elem_of_lookup_2 _ 2). vm_compute. reflexivity.
  - vm_compute. reflexivity.
Defined.
